(** * Session / token lifecycle layer of the Zylo SDK and the site that uses it

    A shallow embedding of the authentication code of the repository:

    - the token decoder and the tenant (project id) validators
      ([src/lib/supabase.ts], the SDK auth service and the SDK provider);
    - the session store and the auth service of the SDK;
    - the state of the SDK provider ([ZyloProvider]) and its operations;
    - the site's auth context (session updates, sign-in, sign-up, sign-out);
    - the two authenticated HTTP clients (SDK [AuthenticatedClient], site
      [ApiClient]) with their module-level token cache, and the interceptors of
      the site's axios client;
    - the route guards ([LayoutProtection], [ProtectedRoute], [AuthGuard]).

    JavaScript values are modelled by the inductive [value]; exceptions by the
    [result] type; module-level mutable variables, [localStorage], the clock
    and the network by explicit state passing.  Platform built-ins ([atob],
    [JSON.parse], [JSON.stringify], [Date], string coercion) are the fields of
    the class [Runtime]: every general theorem holds for any runtime, and
    [RefRuntime] is an executable instance used to run the code on concrete
    inputs.  Where the SDK and the site define a function of the same name,
    each embedding lives in the module of its source file ([Supabase],
    [AuthService], [ZyloProvider], [SdkClient], [SiteClient], [AxiosClient],
    [SdkGuard], [SiteGuard], [SiteAuth], [SiteSignIn]).  Console output is not modelled. *)

From Stdlib Require Import ZArith Lia List Bool Ascii String.
From stdpp Require Import base option gmap strings pretty.
Import ListNotations.

Set Warnings "-register-all".
Local Open Scope string_scope.
Local Open Scope Z_scope.

(* ===================================================================== *)
(** * JavaScript values, exceptions                                       *)
(* ===================================================================== *)

(** Values that flow through the code: results of [JSON.parse], object
    literals built by the clients, and [undefined].  A number [VNum m e] is the
    decimal [m * 10^e]; an object is its list of own properties in insertion
    order (keys distinct by construction, the first binding is the one read). *)
Inductive value : Type :=
| VUndef
| VNull
| VBool (b : bool)
| VNum (m e : Z)
| VStr (s : string)
| VArr (xs : list value)
| VObj (props : list (string * value)).

(** A thrown JavaScript value: whether it is an [instanceof Error], and the
    [name] and [message] the handlers of the source look at. *)
Record exn : Type := mkExn { is_Error : bool; err_name : string; err_message : string }.

Inductive result (A : Type) : Type :=
| Ok (a : A)
| Throw (e : exn).
Arguments Ok {A} a.
Arguments Throw {A} e.

Definition TypeError (msg : string) : exn := mkExn true "TypeError" msg.
Definition SyntaxError (msg : string) : exn := mkExn true "SyntaxError" msg.
Definition InvalidCharacterError : exn :=
  mkExn true "InvalidCharacterError" "The string to be decoded is not correctly encoded.".
(** [new Error(msg)] *)
Definition JsError (msg : string) : exn := mkExn true "Error" msg.

Definition rbind {A B} (m : result A) (k : A -> result B) : result B :=
  match m with
  | Ok a => k a
  | Throw e => Throw e
  end.

(** [try { m } catch (e) { h e }] *)
Definition rcatch {A} (m : result A) (h : exn -> result A) : result A :=
  match m with
  | Ok a => Ok a
  | Throw e => h e
  end.

Declare Scope res_scope.
Delimit Scope res_scope with res.
Notation "x <- m ;; k" := (rbind m (fun x => k))
  (at level 100, m at next level, right associativity) : res_scope.

(** ToBoolean *)
Definition truthy (v : value) : bool :=
  match v with
  | VUndef | VNull => false
  | VBool b => b
  | VNum m _ => negb (m =? 0)
  | VStr s => negb (String.eqb s EmptyString)
  | VArr _ | VObj _ => true
  end.

(** The [typeof] operator. *)
Definition typeof (v : value) : string :=
  match v with
  | VUndef => "undefined"
  | VNull => "object"
  | VBool _ => "boolean"
  | VNum _ _ => "number"
  | VStr _ => "string"
  | VArr _ | VObj _ => "object"
  end.

Fixpoint assoc (k : string) (props : list (string * value)) : option value :=
  match props with
  | [] => None
  | (k', v) :: rest => if String.eqb k k' then Some v else assoc k rest
  end.

(** Property read [v.k], for the property names the source reads
    ([app_metadata], [project_id], [expiresAt], [accessToken], [refreshToken],
    [error], [message], [success], [data], [code], [details]): none of them
    exists on a primitive, on an array or on a prototype, so only objects
    answer; reading from [null] or [undefined] throws. *)
Definition get_prop (v : value) (k : string) : result value :=
  match v with
  | VUndef => Throw (TypeError ("Cannot read properties of undefined (reading '" ++ k ++ "')"))
  | VNull => Throw (TypeError ("Cannot read properties of null (reading '" ++ k ++ "')"))
  | VObj props => Ok (default VUndef (assoc k props))
  | _ => Ok VUndef
  end.

(** Optional chaining [v?.k] *)
Definition opt_prop (v : value) (k : string) : value :=
  match v with
  | VObj props => default VUndef (assoc k props)
  | _ => VUndef
  end.

(** [a || b] on values *)
Definition js_or (a b : value) : value := if truthy a then a else b.

(** Object literal member [k: v] added to the members written so far: a key
    that is already there keeps its position and takes the new value. *)
Fixpoint obj_set (props : list (string * value)) (k : string) (v : value)
  : list (string * value) :=
  match props with
  | [] => [(k, v)]
  | (k', v') :: rest =>
      if String.eqb k k' then (k', v) :: rest else (k', v') :: obj_set rest k v
  end.

Definition nat_key (i : nat) : string := pretty (Z.of_nat i).

Fixpoint index_from {A} (i : nat) (xs : list A) : list (string * A) :=
  match xs with
  | [] => []
  | x :: rest => (nat_key i, x) :: index_from (S i) rest
  end.

Fixpoint chars (s : string) : list value :=
  match s with
  | EmptyString => []
  | String a rest => VStr (String a EmptyString) :: chars rest
  end.

(** Own enumerable properties copied by a spread [...v] in an object
    literal. *)
Definition own_props (v : value) : list (string * value) :=
  match v with
  | VObj props => props
  | VArr xs => index_from 0 xs
  | VStr s => index_from 0 (chars s)
  | _ => []
  end.

(** [{ ...members, ...v }] *)
Definition obj_spread (props : list (string * value)) (v : value)
  : list (string * value) :=
  fold_left (fun acc kv => obj_set acc (fst kv) (snd kv)) (own_props v) props.

(* ===================================================================== *)
(** * Platform built-ins                                                  *)
(* ===================================================================== *)

Class Runtime : Type := {
  (** [atob]; [None] when it throws *)
  atob : string -> option string;
  (** [JSON.parse]; [None] when it throws a [SyntaxError] *)
  JSON_parse : string -> option value;
  (** [JSON.stringify] *)
  JSON_stringify : value -> string;
  (** time value of [new Date(v)] in milliseconds; [None] is an invalid date,
      whose time value is [NaN] *)
  Date_value : value -> option Z;
  (** string coercion, as in a template literal *)
  ToString : value -> string
}.

(** A JavaScript number that is an integer or [NaN] (time values). *)
Inductive number : Type :=
| NaN
| Num (z : Z).

(** [a < b] on such numbers: false as soon as one side is [NaN]. *)
Definition num_lt (a b : number) : bool :=
  match a, b with
  | Num x, Num y => x <? y
  | _, _ => false
  end.

Definition number_truthy (n : number) : bool :=
  match n with
  | NaN => false
  | Num z => negb (z =? 0)
  end.

Definition date_time `{Runtime} (v : value) : number :=
  match Date_value v with
  | Some t => Num t
  | None => NaN
  end.

(* ===================================================================== *)
(** * String helpers                                                      *)
(* ===================================================================== *)

(** [s.split(c)] for a one-character separator. *)
Fixpoint split_on (c : ascii) (s : string) : list string :=
  match s with
  | EmptyString => [EmptyString]
  | String a rest =>
      if Ascii.eqb a c then EmptyString :: split_on c rest
      else match split_on c rest with
           | [] => [String a EmptyString]
           | w :: ws => String a w :: ws
           end
  end.

Fixpoint count_char (c : ascii) (s : string) : nat :=
  match s with
  | EmptyString => 0%nat
  | String a rest => if Ascii.eqb a c then S (count_char c rest) else count_char c rest
  end.

(** [s.replace(/c/g, d)] for single characters. *)
Fixpoint replace_char (c d : ascii) (s : string) : string :=
  match s with
  | EmptyString => EmptyString
  | String a rest => String (if Ascii.eqb a c then d else a) (replace_char c d rest)
  end.

(** [s.startsWith(p)] *)
Definition startsWith (s p : string) : bool := String.prefix p s.

(** [s.includes(sub)] *)
Fixpoint includes (s sub : string) : bool :=
  String.prefix sub s ||
  match s with
  | EmptyString => false
  | String _ rest => includes rest sub
  end.

(* ===================================================================== *)
(** * Token decoder and tenant validation                                 *)
(* ===================================================================== *)

Section Decoder.
Context `{RT : Runtime}.

Definition js_atob (s : string) : result string :=
  match atob s with
  | Some d => Ok d
  | None => Throw InvalidCharacterError
  end.

Definition js_JSON_parse (s : string) : result value :=
  match JSON_parse s with
  | Some v => Ok v
  | None => Throw (SyntaxError "Unexpected token in JSON")
  end.

(** Body of the [try] block of [decodeJwtPayload]; the function is written
    the same way in [src/lib/supabase.ts] and in the SDK auth service. *)
Definition decodeJwtPayload_try (token : string) : result value :=
  let parts := split_on "." token in
  if negb (Nat.eqb (List.length parts) 3) then Ok VNull
  else
    let base64 := replace_char "_" "/" (replace_char "-" "+" (nth 1 parts EmptyString)) in
    (payload <- js_atob base64 ;;
     js_JSON_parse payload)%res.

Definition decodeJwtPayload (token : string) : result value :=
  rcatch (decodeJwtPayload_try token) (fun _ => Ok VNull).

(** [typeof v === 'string' ? v : null] as a [string | null]. *)
Definition as_string (v : value) : option string :=
  match v with
  | VStr s => Some s
  | _ => None
  end.

(** Falsiness of a [string | undefined | null]. *)
Definition str_falsy (s : option string) : bool :=
  match s with
  | None => true
  | Some s => String.eqb s EmptyString
  end.

End Decoder.

(** ** [src/lib/supabase.ts] *)

Module Supabase.
Section WithRuntime.
Context `{RT : Runtime}.

(** [getProjectIdFromToken] of [src/lib/supabase.ts]. *)
Definition getProjectIdFromToken (accessToken : string) : result (option string) :=
  (payload <- decodeJwtPayload accessToken ;;
   if negb (truthy payload) then Ok None
   else
     appMetadata <- get_prop payload "app_metadata" ;;
     Ok (if String.eqb (typeof (opt_prop appMetadata "project_id")) "string"
         then as_string (opt_prop appMetadata "project_id")
         else None))%res.

(** [validateProjectId] of [src/lib/supabase.ts]; [expectedProjectId] is
    [process.env.NEXT_PUBLIC_PROJECT_ID]. *)
Definition validateProjectId (expectedProjectId : option string) (accessToken : string)
  : result bool :=
  if str_falsy expectedProjectId || bool_decide (expectedProjectId = Some "dev") then Ok true
  else
    (tokenProjectId <- getProjectIdFromToken accessToken ;;
     if str_falsy tokenProjectId then Ok true
     else Ok (bool_decide (tokenProjectId = expectedProjectId)))%res.

End WithRuntime.
End Supabase.

(* ===================================================================== *)
(** * An executable runtime                                               *)
(* ===================================================================== *)

(** Strings are byte strings: a string returned by [atob] has one character
    per decoded byte, as in JavaScript.  [\uXXXX] escapes above [U+00FF] have
    no counterpart in a byte string and are rejected by [Ref.JSON_parse]; date
    strings are read in the format produced by [Date.prototype.toISOString]. *)
Module Ref.

(** ** [atob]: forgiving base64 decoding *)

Definition is_ws (a : ascii) : bool :=
  let n := nat_of_ascii a in
  (n =? 9)%nat || (n =? 10)%nat || (n =? 12)%nat || (n =? 13)%nat || (n =? 32)%nat.

Fixpoint strip_ws (s : string) : string :=
  match s with
  | EmptyString => EmptyString
  | String a rest => if is_ws a then strip_ws rest else String a (strip_ws rest)
  end.

Definition sextet (a : ascii) : option nat :=
  let n := nat_of_ascii a in
  if (65 <=? n)%nat && (n <=? 90)%nat then Some (n - 65)%nat
  else if (97 <=? n)%nat && (n <=? 122)%nat then Some (n - 71)%nat
  else if (48 <=? n)%nat && (n <=? 57)%nat then Some (n + 4)%nat
  else if (n =? 43)%nat then Some 62%nat
  else if (n =? 47)%nat then Some 63%nat
  else None.

Fixpoint sextets (s : string) : option (list nat) :=
  match s with
  | EmptyString => Some []
  | String a rest =>
      match sextet a, sextets rest with
      | Some x, Some xs => Some (x :: xs)
      | _, _ => None
      end
  end.

Definition byte (n : nat) : ascii := ascii_of_nat (n mod 256).

Fixpoint decode_groups (fuel : nat) (xs : list nat) : option string :=
  match fuel with
  | O => None
  | S fuel' =>
      match xs with
      | [] => Some EmptyString
      | [_] => None
      | [a; b] => Some (String (byte (a * 4 + b / 16)) EmptyString)
      | [a; b; c] =>
          Some (String (byte (a * 4 + b / 16))
                  (String (byte ((b mod 16) * 16 + c / 4)) EmptyString))
      | a :: b :: c :: d :: rest =>
          match decode_groups fuel' rest with
          | Some tail =>
              Some (String (byte (a * 4 + b / 16))
                      (String (byte ((b mod 16) * 16 + c / 4))
                         (String (byte ((c mod 4) * 64 + d)) tail)))
          | None => None
          end
      end
  end.

Definition drop_last (s : string) : string :=
  String.substring 0 (String.length s - 1) s.

Definition ends_with_eq (s : string) : bool :=
  match String.get (String.length s - 1) s with
  | Some a => Ascii.eqb a "="
  | None => false
  end.

Definition strip_padding (s : string) : string :=
  if (String.length s mod 4 =? 0)%nat && negb (String.length s =? 0)%nat then
    if ends_with_eq s then
      let s1 := drop_last s in
      if ends_with_eq s1 then drop_last s1 else s1
    else s
  else s.

Definition atob (input : string) : option string :=
  let s := strip_padding (strip_ws input) in
  if (String.length s mod 4 =? 1)%nat then None
  else
    match sextets s with
    | Some xs => decode_groups (S (List.length xs)) xs
    | None => None
    end.

(** ** [JSON.parse] *)

Fixpoint skip_ws (s : string) : string :=
  match s with
  | String a rest =>
      let n := nat_of_ascii a in
      if (n =? 32)%nat || (n =? 9)%nat || (n =? 10)%nat || (n =? 13)%nat
      then skip_ws rest else s
  | EmptyString => EmptyString
  end.

Definition dquote : ascii := ascii_of_nat 34.

Definition is_digit (a : ascii) : bool :=
  let n := nat_of_ascii a in (48 <=? n)%nat && (n <=? 57)%nat.

Definition digit_val (a : ascii) : Z := Z.of_nat (nat_of_ascii a) - 48.

(** Reads a maximal run of digits: value, number of digits, rest. *)
Fixpoint digits (s : string) (acc : Z) (n : nat) : Z * nat * string :=
  match s with
  | String a rest =>
      if is_digit a then digits rest (acc * 10 + digit_val a) (S n) else (acc, n, s)
  | EmptyString => (acc, n, s)
  end.

Definition hex_val (a : ascii) : option nat :=
  let n := nat_of_ascii a in
  if (48 <=? n)%nat && (n <=? 57)%nat then Some (n - 48)%nat
  else if (65 <=? n)%nat && (n <=? 70)%nat then Some (n - 55)%nat
  else if (97 <=? n)%nat && (n <=? 102)%nat then Some (n - 87)%nat
  else None.

Definition parse_number (s : string) : option (value * string) :=
  let '(neg, s1) :=
    match s with
    | String "-" rest => (true, rest)
    | _ => (false, s)
    end in
  let '(ip, n, s2) := digits s1 0 0 in
  if (n =? 0)%nat then None
  else if (1 <? n)%nat && (match s1 with String "0" _ => true | _ => false end) then None
  else
    let frac :=
      match s2 with
      | String "." rest =>
          let '(m, k, s3) := digits rest ip 0 in
          if (k =? 0)%nat then None else Some (m, Z.of_nat k, s3)
      | _ => Some (ip, 0, s2)
      end in
    match frac with
    | None => None
    | Some (m, k, s3) =>
        let sign := if neg then -1 else 1 in
        match s3 with
        | String c rest =>
            if Ascii.eqb c "e" || Ascii.eqb c "E" then
              let '(eneg, s4) :=
                match rest with
                | String "-" r => (true, r)
                | String "+" r => (false, r)
                | _ => (false, rest)
                end in
              let '(ev, en, s5) := digits s4 0 0 in
              if (en =? 0)%nat then None
              else Some (VNum (sign * m) ((if eneg then - ev else ev) - k), s5)
            else Some (VNum (sign * m) (- k), s3)
        | EmptyString => Some (VNum (sign * m) (- k), s3)
        end
    end.

(** The characters of a string literal after its opening quote. *)
Fixpoint parse_chars (fuel : nat) (s : string) : option (string * string) :=
  match fuel with
  | O => None
  | S fuel' =>
      match s with
      | EmptyString => None
      | String a rest =>
          if Ascii.eqb a dquote then Some (EmptyString, rest)
          else if Ascii.eqb a "\" then
            match rest with
            | String e rest' =>
                let simple (c : ascii) :=
                  match parse_chars fuel' rest' with
                  | Some (t, r) => Some (String c t, r)
                  | None => None
                  end in
                if Ascii.eqb e dquote then simple e
                else if Ascii.eqb e "\" then simple e
                else if Ascii.eqb e "/" then simple e
                else if Ascii.eqb e "b" then simple (ascii_of_nat 8)
                else if Ascii.eqb e "f" then simple (ascii_of_nat 12)
                else if Ascii.eqb e "n" then simple (ascii_of_nat 10)
                else if Ascii.eqb e "r" then simple (ascii_of_nat 13)
                else if Ascii.eqb e "t" then simple (ascii_of_nat 9)
                else if Ascii.eqb e "u" then
                  match rest' with
                  | String h1 (String h2 (String h3 (String h4 r4))) =>
                      match hex_val h1, hex_val h2, hex_val h3, hex_val h4 with
                      | Some O, Some O, Some x, Some y =>
                          match parse_chars fuel' r4 with
                          | Some (t, r) => Some (String (ascii_of_nat (x * 16 + y)) t, r)
                          | None => None
                          end
                      | _, _, _, _ => None
                      end
                  | _ => None
                  end
                else None
            | EmptyString => None
            end
          else if (nat_of_ascii a <? 32)%nat then None
          else
            match parse_chars fuel' rest with
            | Some (t, r) => Some (String a t, r)
            | None => None
            end
      end
  end.

Definition parse_string (s : string) : option (string * string) :=
  parse_chars (S (String.length s)) s.

Definition expect (lit : string) (v : value) (s : string) : option (value * string) :=
  if String.prefix lit s
  then Some (v, String.substring (String.length lit) (String.length s - String.length lit) s)
  else None.

Fixpoint parse_value (fuel : nat) (s : string) {struct fuel} : option (value * string) :=
    match fuel with
    | O => None
    | S fuel' =>
        match skip_ws s with
        | EmptyString => None
        | String a rest as s' =>
            if Ascii.eqb a "n" then expect "null" VNull s'
            else if Ascii.eqb a "t" then expect "true" (VBool true) s'
            else if Ascii.eqb a "f" then expect "false" (VBool false) s'
            else if Ascii.eqb a dquote then
              match parse_string rest with
              | Some (t, r) => Some (VStr t, r)
              | None => None
              end
            else if Ascii.eqb a "[" then
              match skip_ws rest with
              | String "]" r => Some (VArr [], r)
              | _ => parse_elements fuel' rest []
              end
            else if Ascii.eqb a "{" then
              match skip_ws rest with
              | String "}" r => Some (VObj [], r)
              | _ => parse_members fuel' rest []
              end
            else parse_number s'
        end
    end
with parse_elements (fuel : nat) (s : string) (acc : list value) {struct fuel}
    : option (value * string) :=
    match fuel with
    | O => None
    | S fuel' =>
        match parse_value fuel' s with
        | Some (v, r) =>
            match skip_ws r with
            | String "," r' => parse_elements fuel' r' (acc ++ [v])
            | String "]" r' => Some (VArr (acc ++ [v]), r')
            | _ => None
            end
        | None => None
        end
    end
with parse_members (fuel : nat) (s : string) (acc : list (string * value)) {struct fuel}
    : option (value * string) :=
    match fuel with
    | O => None
    | S fuel' =>
        match skip_ws s with
        | String q r0 =>
            if negb (Ascii.eqb q dquote) then None else
            match parse_string r0 with
            | Some (k, r1) =>
                match skip_ws r1 with
                | String ":" r2 =>
                    match parse_value fuel' r2 with
                    | Some (v, r3) =>
                        match skip_ws r3 with
                        | String "," r4 => parse_members fuel' r4 (obj_set acc k v)
                        | String "}" r4 => Some (VObj (obj_set acc k v), r4)
                        | _ => None
                        end
                    | None => None
                    end
                | _ => None
                end
            | None => None
            end
        | EmptyString => None
        end
    end.

Definition JSON_parse (text : string) : option value :=
  match parse_value (2 * String.length text + 2) text with
  | Some (v, rest) =>
      match skip_ws rest with
      | EmptyString => Some v
      | _ => None
      end
  | None => None
  end.

(** ** [JSON.stringify] *)

Definition hex_digit (n : nat) : ascii :=
  if (n <? 10)%nat then ascii_of_nat (48 + n) else ascii_of_nat (87 + n).

Definition escape_char (a : ascii) : string :=
  let n := nat_of_ascii a in
  if Ascii.eqb a dquote then String "\" (String dquote EmptyString)
  else if Ascii.eqb a "\" then "\\"
  else if (n =? 8)%nat then "\b"
  else if (n =? 12)%nat then "\f"
  else if (n =? 10)%nat then "\n"
  else if (n =? 13)%nat then "\r"
  else if (n =? 9)%nat then "\t"
  else if (n <? 32)%nat then
    "\u00" ++ String (hex_digit (n / 16)) (String (hex_digit (n mod 16)) EmptyString)
  else String a EmptyString.

Fixpoint escape (s : string) : string :=
  match s with
  | EmptyString => EmptyString
  | String a rest => escape_char a ++ escape rest
  end.

Definition quote (s : string) : string :=
  String dquote (escape s ++ String dquote EmptyString).

(** Members whose value is [undefined] are left out of an object and
    written [null] in an array, as [JSON.stringify] does. *)
Fixpoint JSON_stringify (v : value) : string :=
  match v with
  | VUndef | VNull => "null"
  | VBool true => "true"
  | VBool false => "false"
  | VNum m e => pretty m ++ (if e =? 0 then EmptyString else "e" ++ pretty e)
  | VStr s => quote s
  | VArr xs =>
      "[" ++
      (fix elements (xs : list value) : string :=
         match xs with
         | [] => EmptyString
         | [x] => JSON_stringify x
         | x :: rest => JSON_stringify x ++ "," ++ elements rest
         end) xs ++ "]"
  | VObj props =>
      "{" ++
      (fix members (first : bool) (props : list (string * value)) : string :=
         match props with
         | [] => EmptyString
         | (_, VUndef) :: rest => members first rest
         | (k, x) :: rest =>
             (if first then EmptyString else ",") ++ quote k ++ ":" ++
             JSON_stringify x ++ members false rest
         end) true props ++ "}"
  end.

(** ** [Date] *)

Fixpoint all_digits (s : string) (acc : Z) : option Z :=
  match s with
  | EmptyString => Some acc
  | String a rest => if is_digit a then all_digits rest (acc * 10 + digit_val a) else None
  end.

Definition field (s : string) (from len : nat) : option Z :=
  if (String.length (String.substring from len s) =? len)%nat
  then all_digits (String.substring from len s) 0 else None.

Definition days_from_civil (y m d : Z) : Z :=
  let y' := if m <=? 2 then y - 1 else y in
  let era := y' / 400 in
  let yoe := y' - era * 400 in
  let doy := (153 * (m + (if 2 <? m then -3 else 9)) + 2) / 5 + d - 1 in
  let doe := yoe * 365 + yoe / 4 - yoe / 100 + doy in
  era * 146097 + doe - 719468.

(** [YYYY-MM-DDTHH:mm:ssZ] and [YYYY-MM-DDTHH:mm:ss.sssZ] *)
Definition parse_iso (s : string) : option Z :=
  let sep (i : nat) (c : ascii) :=
    match String.get i s with Some a => Ascii.eqb a c | None => false end in
  let tail_ok :=
    ((String.length s =? 20)%nat && sep 19%nat "Z"%char) ||
    ((String.length s =? 24)%nat && sep 19%nat "."%char && sep 23%nat "Z"%char) in
  if sep 4%nat "-"%char && sep 7%nat "-"%char && sep 10%nat "T"%char && sep 13%nat ":"%char && sep 16%nat ":"%char && tail_ok
  then
    match field s 0 4, field s 5 2, field s 8 2, field s 11 2, field s 14 2, field s 17 2 with
    | Some y, Some mo, Some d, Some h, Some mi, Some sec =>
        let ms := if (String.length s =? 24)%nat then field s 20 3 else Some 0 in
        match ms with
        | Some ms =>
            if (1 <=? mo) && (mo <=? 12) && (1 <=? d) && (d <=? 31) &&
               (h <=? 23) && (mi <=? 59) && (sec <=? 59)
            then Some ((((days_from_civil y mo d * 24 + h) * 60 + mi) * 60 + sec) * 1000 + ms)
            else None
        | None => None
        end
    | _, _, _, _, _, _ => None
    end
  else None.

Definition Date_value (v : value) : option Z :=
  match v with
  | VUndef => None
  | VNull => Some 0
  | VBool b => Some (if b then 1 else 0)
  | VNum m e => Some (if 0 <=? e then m * 10 ^ e else Z.quot m (10 ^ (- e)))
  | VStr s => parse_iso s
  | VArr _ | VObj _ => None
  end.

(** ** String coercion *)

Fixpoint ToString (v : value) : string :=
  match v with
  | VUndef => "undefined"
  | VNull => "null"
  | VBool true => "true"
  | VBool false => "false"
  | VNum m e => pretty m ++ (if e =? 0 then EmptyString else "e" ++ pretty e)
  | VStr s => s
  | VArr xs =>
      (fix join (xs : list value) : string :=
         match xs with
         | [] => EmptyString
         | x :: rest =>
             match x with VUndef | VNull => EmptyString | _ => ToString x end ++
             match rest with [] => EmptyString | _ => "," ++ join rest end
         end) xs
  | VObj _ => "[object Object]"
  end.

End Ref.

#[export] Instance RefRuntime : Runtime := {
  atob := Ref.atob;
  JSON_parse := Ref.JSON_parse;
  JSON_stringify := Ref.JSON_stringify;
  Date_value := Ref.Date_value;
  ToString := Ref.ToString
}.

(* ===================================================================== *)
(** * State and exceptions                                                *)
(* ===================================================================== *)

(** An asynchronous function of the source is a function from the state it
    can touch to a result (a value or a thrown exception) and a new state.  A
    thrown exception keeps the state changes made before it. *)
Definition M (S A : Type) : Type := S -> result A * S.

Definition ret {S A} (a : A) : M S A := fun s => (Ok a, s).

Definition throw {S A} (e : exn) : M S A := fun s => (Throw e, s).

Definition bind {S A B} (m : M S A) (k : A -> M S B) : M S B :=
  fun s =>
    match m s with
    | (Ok a, s') => k a s'
    | (Throw e, s') => (Throw e, s')
    end.

(** [try { m } catch (e) { h e }] *)
Definition try_catch {S A} (m : M S A) (h : exn -> M S A) : M S A :=
  fun s =>
    match m s with
    | (Ok a, s') => (Ok a, s')
    | (Throw e, s') => h e s'
    end.

(** [try { m } finally { f }] *)
Definition try_finally {S A} (m : M S A) (f : M S unit) : M S A :=
  fun s =>
    match m s with
    | (r, s') =>
        match f s' with
        | (Ok _, s'') => (r, s'')
        | (Throw e, s'') => (Throw e, s'')
        end
    end.

Definition lift {S A} (r : result A) : M S A := fun s => (r, s).

Definition gets {S A} (f : S -> A) : M S A := fun s => (Ok (f s), s).

Definition modify {S} (f : S -> S) : M S unit := fun s => (Ok tt, f s).

Declare Scope m_scope.
Delimit Scope m_scope with M.
Notation "x <- m ;; k" := (bind m (fun x => k))
  (at level 100, m at next level, right associativity) : m_scope.
Notation "m ;;; k" := (bind m (fun _ => k))
  (at level 100, right associativity) : m_scope.

(* ===================================================================== *)
(** * Network                                                             *)
(* ===================================================================== *)

(** The arguments of a [fetch] call; [req_signal] tells whether an abort
    signal (the timeout) was attached. *)
Record Request : Type := mkRequest {
  req_url : string;
  req_method : string;
  req_headers : gmap string string;
  req_body : option string;
  req_signal : bool
}.

(** What a [fetch] call settles to: a rejection (network failure, abort), or
    a response with its status and what [response.json()] yields ([None] when
    the body is not JSON and [json()] rejects). *)
Inductive FetchOutcome : Type :=
| Rejected (e : exn)
| Responded (status : Z) (body : option value).

Definition response_ok (status : Z) : bool := (200 <=? status) && (status <=? 299).

Definition AbortError : exn := mkExn true "AbortError" "The operation was aborted.".

Definition response_json (body : option value) : result value :=
  match body with
  | Some v => Ok v
  | None => Throw (SyntaxError "Unexpected token in JSON")
  end.

(* ===================================================================== *)
(** * Route guards                                                        *)
(* ===================================================================== *)

(** What a guard component renders. *)
Inductive view : Type :=
| ViewLoading
| ViewNothing
| ViewChildren.

(** A navigation performed by a guard. *)
Inductive navigation : Type :=
| ViaCallback (path : string)   (* [onRedirect(path)] *)
| ViaLocation (path : string)   (* [window.location.href = path] *)
| ViaRouter (path : string).    (* [router.push(path)] *)

Definition nav_path (n : navigation) : string :=
  match n with
  | ViaCallback p | ViaLocation p | ViaRouter p => p
  end.

Record outcome : Type := mkOutcome { rendered : view; navigations : list navigation }.

Module SdkGuard.

(** Props of [ProtectedRoute] and [LayoutProtection]; [None] is a prop that
    was not passed.  [onRedirect] only records whether a callback was
    given, [has_window] is [typeof window !== 'undefined']. *)
Record Props : Type := mkProps {
    publicRoutes : option (list string);
    redirectTo : option string;
    authenticatedRedirect : option string;
    onRedirect : bool;
    has_window : bool
  }.

Definition redirect (p : Props) (path : string) : list navigation :=
  if onRedirect p then [ViaCallback path]
  else if has_window p then [ViaLocation path]
  else [].

Definition ProtectedRoute (p : Props) (isLoading isAuthenticated : bool) : outcome :=
  let redirectTo := default "/login" (redirectTo p) in
  if isLoading then mkOutcome ViewLoading []
  else if negb isAuthenticated then mkOutcome ViewNothing (redirect p redirectTo)
  else mkOutcome ViewChildren [].

Definition isPublicRoute (publicRoutes : list string) (pathname : string) : bool :=
  existsb (fun route =>
             if String.eqb route "/" then String.eqb pathname "/"
             else String.eqb pathname route || startsWith pathname (route ++ "/"))
          publicRoutes.

Definition LayoutProtection (p : Props) (pathname : string)
           (isLoading isAuthenticated : bool) : outcome :=
  let publicRoutes := default [] (publicRoutes p) in
  let authenticatedRedirect := default "/home" (authenticatedRedirect p) in
  let isPublicRoute := isPublicRoute publicRoutes pathname in
  if isLoading then mkOutcome ViewLoading []
  else if isPublicRoute && isAuthenticated
          && negb (String.eqb authenticatedRedirect EmptyString)
  then mkOutcome ViewNothing (redirect p authenticatedRedirect)
  else if isPublicRoute then mkOutcome ViewChildren []
  else ProtectedRoute p isLoading isAuthenticated.

(** What [AuthGuard] renders. *)
Inductive guard_view : Type :=
| ShowLoading
| ShowNothing
| ShowFallback
| ShowSignInPrompt
| ShowChildren.

(** Props of [AuthGuard]: whether [fallback] is truthy, [redirectTo], and
    [typeof window !== 'undefined']. *)
Record AuthGuardProps : Type := mkAuthGuardProps {
    ag_fallback : bool;
    ag_redirectTo : option string;
    ag_has_window : bool
  }.

Definition AuthGuard (p : AuthGuardProps) (isLoading isAuthenticated : bool)
  : guard_view * list navigation :=
  if isLoading then (ShowLoading, [])
  else if negb isAuthenticated then
    if negb (str_falsy (ag_redirectTo p)) && ag_has_window p
    then (ShowNothing, [ViaLocation (default EmptyString (ag_redirectTo p))])
    else if ag_fallback p then (ShowFallback, []) else (ShowSignInPrompt, [])
  else (ShowChildren, []).

End SdkGuard.

Module SiteGuard.

Definition PUBLIC_ROUTES : list string := ["/"; "/login"; "/signup"; "/forgot-password"].

Definition AUTHENTICATED_HOME : string := "/home".

(** [ProtectedRoute] of the site: the effect pushes, the render shows.
    [user] tells whether [useAuth().user] is non-null. *)
Definition ProtectedRoute (redirectTo : option string) (user loading : bool) : outcome :=
  let redirectTo := default "/login" redirectTo in
  let pushes := if loading then [] else if negb user then [ViaRouter redirectTo] else [] in
  if loading then mkOutcome ViewLoading pushes
  else if negb user then mkOutcome ViewNothing pushes
  else mkOutcome ViewChildren pushes.

(** The test of [LayoutProtection], for a given route list. *)
Definition isPublicRouteIn (routes : list string) (pathname : string) : bool :=
  existsb (fun route =>
             String.eqb pathname route
             || (negb (String.eqb route "/") && startsWith pathname (route ++ "/")))
          routes.

Definition isPublicRoute (pathname : string) : bool := isPublicRouteIn PUBLIC_ROUTES pathname.

Definition LayoutProtection (pathname : string) (user loading : bool) : outcome :=
  let isPublicRoute := isPublicRoute pathname in
  let pushes :=
    if loading then []
    else if user && isPublicRoute && negb (String.eqb pathname "/")
         then [ViaRouter AUTHENTICATED_HOME] else [] in
  if loading then mkOutcome ViewLoading pushes
  else if isPublicRoute then
    if user && negb (String.eqb pathname "/") then mkOutcome ViewNothing pushes
    else mkOutcome ViewChildren pushes
  else
    let inner := ProtectedRoute None user loading in
    mkOutcome (rendered inner) (navigations inner ++ pushes).

End SiteGuard.

(* ===================================================================== *)
(** * Session type of the shared contract                                 *)
(* ===================================================================== *)

Record ZyloAppUser : Type := mkUser {
  user_id : string;
  user_email : string;
  user_displayName : option string;
  user_photoURL : option string;
  user_emailVerified : bool;
  user_projectId : string;
  user_createdAt : string;
  user_updatedAt : string;
  user_metadata : option (list (string * value))
}.

Record ZyloAuthSession : Type := mkSession {
  session_user : ZyloAppUser;
  accessToken : string;
  refreshToken : string;
  expiresAt : string
}.

Definition optional (k : string) (v : option value) : list (string * value) :=
  match v with
  | Some x => [(k, x)]
  | None => []
  end.

(** The JavaScript object a typed user / session is at run time. *)
Definition user_value (u : ZyloAppUser) : value :=
  VObj ([("id", VStr (user_id u)); ("email", VStr (user_email u))]
        ++ optional "displayName" (VStr <$> user_displayName u)
        ++ optional "photoURL" (VStr <$> user_photoURL u)
        ++ [("emailVerified", VBool (user_emailVerified u));
            ("projectId", VStr (user_projectId u));
            ("createdAt", VStr (user_createdAt u));
            ("updatedAt", VStr (user_updatedAt u))]
        ++ optional "metadata" (VObj <$> user_metadata u)).

Definition session_value (s : ZyloAuthSession) : value :=
  VObj [("user", user_value (session_user s));
        ("accessToken", VStr (accessToken s));
        ("refreshToken", VStr (refreshToken s));
        ("expiresAt", VStr (expiresAt s))].

(* ===================================================================== *)
(** * SDK auth service: session store and session operations              *)
(* ===================================================================== *)

Module AuthService.

(** Everything the auth service can read or change.  [ls_denied]: touching
    [localStorage] throws (storage disabled); [ls_full]: [setItem] throws
    (quota).  [clock n] is what the [n]-th reading of the clock returns and
    [backend log req] what the backend answers to [req] after the calls in
    [log]; [net_log] records the calls made, oldest first. *)
Record World : Type := mkWorld {
    window_defined : bool;
    ls_denied : bool;
    ls_full : bool;
    ls_items : gmap string string;
    clock : nat -> Z;
    clock_reads : nat;
    backend : list Request -> Request -> FetchOutcome;
    net_log : list Request;
    configuredApiUrl : option string;
    windowConfigApiUrl : option string;
    envBackendUrl : option string
  }.

Definition with_items (f : gmap string string -> gmap string string) (w : World) : World :=
  mkWorld (window_defined w) (ls_denied w) (ls_full w) (f (ls_items w))
          (clock w) (clock_reads w) (backend w) (net_log w)
          (configuredApiUrl w) (windowConfigApiUrl w) (envBackendUrl w).

Definition tick (w : World) : World :=
  mkWorld (window_defined w) (ls_denied w) (ls_full w) (ls_items w)
          (clock w) (S (clock_reads w)) (backend w) (net_log w)
          (configuredApiUrl w) (windowConfigApiUrl w) (envBackendUrl w).

Definition logged (req : Request) (w : World) : World :=
  mkWorld (window_defined w) (ls_denied w) (ls_full w) (ls_items w)
          (clock w) (clock_reads w) (backend w) (net_log w ++ [req])
          (configuredApiUrl w) (windowConfigApiUrl w) (envBackendUrl w).

Definition SecurityError : exn :=
  mkExn true "SecurityError" "The operation is insecure.".
Definition QuotaExceededError : exn :=
  mkExn true "QuotaExceededError" "The quota has been exceeded.".

Definition getItem (k : string) : M World (option string) :=
  fun w => if ls_denied w then (Throw SecurityError, w) else (Ok (ls_items w !! k), w).

Definition setItem (k v : string) : M World unit :=
  fun w =>
    if ls_denied w then (Throw SecurityError, w)
    else if ls_full w then (Throw QuotaExceededError, w)
    else (Ok tt, with_items (insert k v) w).

Definition removeItem (k : string) : M World unit :=
  fun w =>
    if ls_denied w then (Throw SecurityError, w)
    else (Ok tt, with_items (delete k) w).

(** [Date.now()], [new Date()] *)
Definition now : M World Z :=
  fun w => (Ok (clock w (clock_reads w)), tick w).

Definition fetch (req : Request) : M World (Z * option value) :=
  fun w =>
    match backend w (net_log w) req with
    | Rejected e => (Throw e, logged req w)
    | Responded status body => (Ok (status, body), logged req w)
    end.

(** [STORAGE_KEYS] *)
Definition SESSION : string := "zylo_session".
Definition ACCESS_TOKEN : string := "zylo_access_token".
Definition REFRESH_TOKEN : string := "zylo_refresh_token".

(** [AUTH_ENDPOINTS] *)
Definition SIGNOUT : string := "/api/v1/auth/signout".
Definition REFRESH : string := "/api/v1/auth/refresh".
Definition SIGNUP : string := "/api/v1/auth/signup".
Definition SIGNIN : string := "/api/v1/auth/signin".
Definition RESET_PASSWORD : string := "/api/v1/auth/reset-password".

Definition str_truthy (s : option string) : bool :=
  match s with
  | Some s => negb (String.eqb s EmptyString)
  | None => false
  end.

Definition getApiUrl (w : World) : string :=
  if str_truthy (configuredApiUrl w) then default EmptyString (configuredApiUrl w)
  else if window_defined w && str_truthy (windowConfigApiUrl w)
       then default EmptyString (windowConfigApiUrl w)
  else if str_truthy (envBackendUrl w) then default EmptyString (envBackendUrl w)
  else EmptyString.

(** [configureAuth({ apiUrl })] *)
Definition configureAuth (apiUrl : string) : M World unit :=
  modify (fun w => mkWorld (window_defined w) (ls_denied w) (ls_full w) (ls_items w)
                           (clock w) (clock_reads w) (backend w) (net_log w)
                           (Some apiUrl) (windowConfigApiUrl w) (envBackendUrl w)).

Section WithRuntime.
Context `{RT : Runtime}.

(** [getProjectIdFromToken] *)
Definition getProjectIdFromToken (accessToken : string) : result (option string) :=
  (payload <- decodeJwtPayload accessToken ;;
   if negb (truthy payload) then Ok None
   else
     appMetadata <- get_prop payload "app_metadata" ;;
     if truthy (opt_prop appMetadata "project_id") then
       project_id <- get_prop appMetadata "project_id" ;;
       if String.eqb (typeof project_id) "string" then
         project_id' <- get_prop appMetadata "project_id" ;;
         Ok (as_string project_id')
       else Ok None
     else Ok None)%res.

Local Open Scope m_scope.

Definition clearStoredSession : M World unit :=
  w <- gets window_defined ;;
  if negb w then ret tt
  else
    try_catch
      (removeItem SESSION ;;;
       removeItem ACCESS_TOKEN ;;;
       removeItem REFRESH_TOKEN)
      (fun _ => ret tt).

Definition getStoredSession : M World value :=
  w <- gets window_defined ;;
  if negb w then ret VNull
  else
    try_catch
      (stored <- getItem SESSION ;;
       if negb (str_truthy stored) then ret VNull
       else
         session <- lift (js_JSON_parse (default EmptyString stored)) ;;
         exp <- lift (get_prop session "expiresAt") ;;
         t <- now ;;
         if num_lt (date_time exp) (Num t) then
           clearStoredSession ;;; ret VNull
         else ret session)
      (fun _ => ret VNull).

Definition storeSession (session : value) : M World unit :=
  w <- gets window_defined ;;
  if negb w then ret tt
  else
    try_catch
      (setItem SESSION (JSON_stringify session) ;;;
       a <- lift (get_prop session "accessToken") ;;
       setItem ACCESS_TOKEN (ToString a) ;;;
       r <- lift (get_prop session "refreshToken") ;;
       setItem REFRESH_TOKEN (ToString r))
      (fun _ => ret tt).

(** [recv.includes(needle)] *)
Definition js_includes (recv : value) (needle : string) : result bool :=
  match recv with
  | VStr s => Ok (includes s needle)
  | VArr xs =>
      Ok (existsb (fun x => match x with VStr t => String.eqb t needle | _ => false end) xs)
  | VUndef | VNull => Throw (TypeError "Cannot read properties (reading 'includes')")
  | _ => Throw (TypeError "message.includes is not a function")
  end.

Definition str_is (v : value) (s : string) : bool :=
  match v with
  | VStr t => String.eqb t s
  | _ => false
  end.

Definition getUserFriendlyMessage (message code : value) : result value :=
  (registered <- js_includes message "already been registered" ;;
   exists_ <- (if registered then Ok true else js_includes message "already exists") ;;
   if exists_ then
     Ok (VStr "An account with this email already exists. Please sign in instead.")
   else
     login <- js_includes message "Invalid login" ;;
     invalid <- (if login then Ok true else js_includes message "invalid credentials") ;;
     if invalid then Ok (VStr "Invalid email or password. Please try again.")
     else
       pw <- js_includes message "password" ;;
       weak <- (if pw then
                  wk <- js_includes message "weak" ;;
                  if wk then Ok true else js_includes message "short"
                else Ok false) ;;
       if weak then Ok (VStr "Password is too weak. Please use at least 8 characters.")
       else if str_is code "EMAIL_ALREADY_EXISTS" || str_is code "USER_ALREADY_EXISTS" then
         Ok (VStr "An account with this email already exists. Please sign in instead.")
       else if str_is code "INVALID_CREDENTIALS" then
         Ok (VStr "Invalid email or password. Please try again.")
       else if str_is code "WEAK_PASSWORD" then
         Ok (VStr "Password is too weak. Please use at least 8 characters.")
       else if str_is code "INVALID_EMAIL" then
         Ok (VStr "Please enter a valid email address.")
       else if str_is code "PROJECT_NOT_FOUND" then
         Ok (VStr "Service configuration error. Please contact support.")
       else if str_is code "INVALID_SIGNATURE" then
         Ok (VStr "Authentication error. Please try again.")
       else if str_is code "NETWORK_ERROR" then
         Ok (VStr "Network error. Please check your connection and try again.")
       else Ok message)%res.

(** [new AuthServiceError(message, code, details)]: the exception it is,
    or the one its constructor throws. *)
Definition AuthServiceError (message code : value) : exn :=
  match getUserFriendlyMessage message code with
  | Ok m =>
      mkExn true "AuthServiceError"
            (match m with VUndef => EmptyString | _ => ToString m end)
  | Throw e => e
  end.

Definition apiRequest (endpoint method : string) (body : value) : M World value :=
  apiUrl <- gets getApiUrl ;;
  let fullUrl :=
    if negb (String.eqb apiUrl EmptyString) then apiUrl ++ endpoint else endpoint in
  let headers : gmap string string := {[ "Content-Type" := "application/json" ]} in
  let body' :=
    if truthy body && String.eqb method "POST" then Some (JSON_stringify body) else None in
  session <- getStoredSession ;;
  headers' <- (if truthy session then
                 a <- lift (get_prop session "accessToken") ;;
                 ret (<[ "Authorization" := "Bearer " ++ ToString a ]> headers)
               else ret headers) ;;
  response <- fetch (mkRequest fullUrl method headers' body' false) ;;
  data <- lift (response_json (snd response)) ;;
  if negb (response_ok (fst response)) then
    e <- lift (get_prop data "error") ;;
    error <- (if truthy e then ret e
              else
                m <- lift (get_prop data "message") ;;
                ret (VObj [("code", VStr "SERVER_ERROR");
                           ("message", js_or m (VStr "An unexpected error occurred"))])) ;;
    message <- lift (get_prop error "message") ;;
    code <- lift (get_prop error "code") ;;
    _ <- lift (get_prop error "details") ;;
    throw (AuthServiceError message code)
  else ret data.

Definition signOut : M World unit :=
  session <- getStoredSession ;;
  (if truthy session then
     try_catch
       (a <- lift (get_prop session "accessToken") ;;
        apiRequest SIGNOUT "POST" (VObj [("accessToken", a)]) ;;;
        ret tt)
       (fun _ => ret tt)
   else ret tt) ;;;
  clearStoredSession.

Definition refreshSession : M World value :=
  stored <- getStoredSession ;;
  if negb (truthy (opt_prop stored "refreshToken")) then ret VNull
  else
    try_catch
      (r <- lift (get_prop stored "refreshToken") ;;
       response <- apiRequest REFRESH "POST" (VObj [("refreshToken", r)]) ;;
       success <- lift (get_prop response "success") ;;
       session <- (if truthy success then lift (get_prop response "session")
                   else ret VUndef) ;;
       if negb (truthy success) || negb (truthy session) then
         clearStoredSession ;;; ret VNull
       else
         storeSession session ;;; ret session)
      (fun _ => clearStoredSession ;;; ret VNull).

Definition getSession : M World value :=
  stored <- getStoredSession ;;
  if negb (truthy stored) then ret VNull
  else
    exp <- lift (get_prop stored "expiresAt") ;;
    t <- now ;;
    if num_lt (date_time exp) (Num (t + 5 * 60 * 1000)) then refreshSession
    else ret stored.

Definition is_null (v : value) : bool :=
  match v with
  | VNull => true
  | _ => false
  end.

Definition isAuthenticated : M World bool :=
  session <- getStoredSession ;;
  ret (negb (is_null session)).

Definition getAccessToken : M World value :=
  session <- getStoredSession ;;
  ret (match opt_prop session "accessToken" with
       | VUndef | VNull => VNull
       | a => a
       end).

(** [response.error?.message || fallback] and [response.error?.code || fallback] *)
Definition error_message (response : value) (fallback : string) : value :=
  js_or (opt_prop (opt_prop response "error") "message") (VStr fallback).

Definition error_code (response : value) (fallback : string) : value :=
  js_or (opt_prop (opt_prop response "error") "code") (VStr fallback).

(** [response.session] when [response.success] is truthy, else [undefined]:
    [!response.success || !response.session] is that this is falsy. *)
Definition session_of (response : value) : M World value :=
  success <- lift (get_prop response "success") ;;
  if truthy success then lift (get_prop response "session") else ret VUndef.

Definition signUp (email password : string) (displayName : option string)
           (metadata : option (list (string * value))) : M World value :=
  let request :=
    VObj [("email", VStr email); ("password", VStr password);
          ("displayName", default VUndef (VStr <$> displayName));
          ("metadata", default VUndef (VObj <$> metadata))] in
  response <- apiRequest SIGNUP "POST" request ;;
  session <- session_of response ;;
  if negb (truthy session) then
    throw (AuthServiceError (error_message response "Sign up failed")
                            (error_code response "SERVER_ERROR"))
  else
    storeSession session ;;; ret session.

Definition signIn (email password : string) : M World value :=
  let request := VObj [("email", VStr email); ("password", VStr password)] in
  response <- apiRequest SIGNIN "POST" request ;;
  session <- session_of response ;;
  if negb (truthy session) then
    throw (AuthServiceError (error_message response "Sign in failed")
                            (error_code response "INVALID_CREDENTIALS"))
  else
    storeSession session ;;; ret session.

Definition sendPasswordResetEmail (email : string) : M World unit :=
  response <- apiRequest RESET_PASSWORD "POST" (VObj [("email", VStr email)]) ;;
  success <- lift (get_prop response "success") ;;
  if negb (truthy success) then
    throw (AuthServiceError (error_message response "Failed to send password reset email")
                            (error_code response "SERVER_ERROR"))
  else ret tt.

End WithRuntime.

End AuthService.

(** ** SDK provider *)

Section Provider.
Context `{RT : Runtime}.

(** [validateSessionProject] of the SDK provider, applied to the access token
    of the session it is given; [projectId] is [config.projectId]. *)
Definition validateSessionProject (projectId : string) (accessToken : string)
  : result bool :=
  if String.eqb projectId EmptyString || String.eqb projectId "dev" then Ok true
  else
    (tokenProjectId <- AuthService.getProjectIdFromToken accessToken ;;
     if str_falsy tokenProjectId then Ok true
     else if negb (bool_decide (tokenProjectId = Some projectId)) then Ok false
     else Ok true)%res.

End Provider.

(** [ZyloProvider]: the React state it holds and the operations it gives to
    its context.  A state setter takes effect at once; what a component
    renders in between is not modelled. *)
Module ZyloProvider.

(** [user], [session], [isLoading], and the world of the auth service.
    [null] is [VNull]. *)
Record State : Type := mkState {
    user : value;
    session : value;
    isLoading : bool;
    world : AuthService.World
  }.

(** The state of a provider that has just been rendered. *)
Definition initial (w : AuthService.World) : State := mkState VNull VNull true w.

Definition setUser (u : value) : M State unit :=
  modify (fun st => mkState u (session st) (isLoading st) (world st)).

Definition setSession (s : value) : M State unit :=
  modify (fun st => mkState (user st) s (isLoading st) (world st)).

Definition setIsLoading (b : bool) : M State unit :=
  modify (fun st => mkState (user st) (session st) b (world st)).

(** A call of the auth service from the provider. *)
Definition in_world {A : Type} (m : M AuthService.World A) : M State A :=
  fun st =>
    let '(r, w) := m (world st) in
    (r, mkState (user st) (session st) (isLoading st) w).

(** [isAuthenticated: !!user] *)
Definition isAuthenticated (st : State) : bool := truthy (user st).

Section WithRuntime.
Context `{RT : Runtime}.

Local Open Scope m_scope.

(** [validateSessionProject(session)] on the session object the provider is
    given.  An access token that is not a string has no [split]: the call
    throws inside the [try] of the decoder, no claim is extracted, and the
    session is accepted. *)
Definition validates (projectId : string) (sessionToValidate : value) : result bool :=
  if String.eqb projectId EmptyString || String.eqb projectId "dev" then Ok true
  else
    (a <- get_prop sessionToValidate "accessToken" ;;
     match a with
     | VStr token => validateSessionProject projectId token
     | _ => Ok true
     end)%res.

(** [setSession(s); setUser(s.user)] *)
Definition accept (s : value) : M State unit :=
  setSession s ;;;
  u <- lift (get_prop s "user") ;;
  setUser u.

Definition initAuth (projectId : string) : M State unit :=
  try_finally
    (try_catch
       (currentSession <- in_world AuthService.getSession ;;
        if truthy currentSession then
          valid <- lift (validates projectId currentSession) ;;
          if valid then accept currentSession
          else in_world AuthService.signOut
        else ret tt)
       (fun _ => ret tt))
    (setIsLoading false).

(** The mount effect; [enabled] is [config.features.auth?.enabled]. *)
Definition mount (projectId : string) (enabled : option bool) : M State unit :=
  if default false enabled then initAuth projectId else setIsLoading false.

Definition signIn (projectId email password : string) : M State unit :=
  setIsLoading true ;;;
  try_finally
    (newSession <- in_world (AuthService.signIn email password) ;;
     valid <- lift (validates projectId newSession) ;;
     if negb valid then
       in_world AuthService.signOut ;;;
       throw (JsError "Authentication failed: Invalid project credentials")
     else accept newSession)
    (setIsLoading false).

Definition signUp (projectId email password : string)
           (metadata : option (list (string * value))) : M State unit :=
  setIsLoading true ;;;
  try_finally
    (newSession <- in_world (AuthService.signUp email password None metadata) ;;
     valid <- lift (validates projectId newSession) ;;
     if negb valid then
       in_world AuthService.signOut ;;;
       throw (JsError "Registration failed: Invalid project credentials")
     else accept newSession)
    (setIsLoading false).

Definition signOut : M State unit :=
  setIsLoading true ;;;
  try_finally
    (in_world AuthService.signOut ;;;
     setSession VNull ;;;
     setUser VNull)
    (setIsLoading false).

Definition refreshSession : M State unit :=
  newSession <- in_world AuthService.refreshSession ;;
  if truthy newSession then accept newSession
  else
    setSession VNull ;;;
    setUser VNull.

End WithRuntime.

End ZyloProvider.

(* ===================================================================== *)
(** * Authenticated HTTP clients                                          *)
(* ===================================================================== *)

(** The part of a Supabase session the site reads. *)
Record SbSession : Type := mkSbSession { access_token : string; expires_at : option Z }.

(** [RequestOptions]; [None] is a field that was not given. *)
Record RequestOptions : Type := mkOptions {
  opt_headers : option (gmap string string);
  skipAuth : option bool;
  timeout : option Z
}.

(** State of a client module: its two module-level variables, the
    environment [E] it runs in (clock, network, session provider), and the
    list of [fetch] calls the client has issued, oldest first. *)
Record ClientState (E : Type) : Type := mkClient {
  cachedToken : option string;
  tokenExpiry : option number;
  env : E;
  calls : list Request
}.
Arguments mkClient {E}.
Arguments cachedToken {E}.
Arguments tokenExpiry {E}.
Arguments env {E}.
Arguments calls {E}.

Definition with_cache {E} (t : option string) (x : option number) (st : ClientState E)
  : ClientState E :=
  mkClient t x (env st) (calls st).

Definition with_env {E} (e : E) (st : ClientState E) : ClientState E :=
  mkClient (cachedToken st) (tokenExpiry st) e (calls st).

(** Buffer before expiry (5 minutes in ms) *)
Definition EXPIRY_BUFFER : Z := 5 * 60 * 1000.

(** [cachedToken && tokenExpiry && now < tokenExpiry - EXPIRY_BUFFER] *)
Definition cache_valid {E} (st : ClientState E) (now : Z) : bool :=
  AuthService.str_truthy (cachedToken st)
  && match tokenExpiry st with
     | Some x =>
         number_truthy x && match x with Num z => now <? z - EXPIRY_BUFFER | NaN => false end
     | None => false
     end.

(** [{ success: false, error: msg }] *)
Definition failure (error : value) : value :=
  VObj [("success", VBool false); ("error", error)].

(** [Math.round(ms / 1000)] for an integer [ms] *)
Definition round_seconds (ms : Z) : Z := (ms + 500) / 1000.

(** [error instanceof Error ? error.message : fallback] *)
Definition message_or (e : exn) (fallback : string) : string :=
  if is_Error e then err_message e else fallback.

Section ClientParts.
Context `{RT : Runtime}.
Context {E : Type}.

(** [Date.now()] *)
Variable env_now : E -> Z * E.
(** [fetch] *)
Variable env_fetch : E -> Request -> FetchOutcome * E.

Local Open Scope m_scope.

Definition now : M (ClientState E) Z :=
  fun st => let '(t, e) := env_now (env st) in (Ok t, with_env e st).

Definition fetch (req : Request) : M (ClientState E) (Z * option value) :=
  fun st =>
    let '(out, e) := env_fetch (env st) req in
    let st' := mkClient (cachedToken st) (tokenExpiry st) e (calls st ++ [req]) in
    match out with
    | Rejected err => (Throw err, st')
    | Responded status body => (Ok (status, body), st')
    end.

Definition clearTokenCache : M (ClientState E) unit :=
  modify (with_cache None None).

Definition request_url (baseUrl path : string) : string :=
  baseUrl ++ (if startsWith path "/" then path else "/" ++ path).

Definition request_headers (options : RequestOptions) : gmap string string :=
  default ∅ (opt_headers options) ∪ {[ "Content-Type" := "application/json" ]}.

Definition bearer (headers : gmap string string) (token : string) : gmap string string :=
  <[ "Authorization" := "Bearer " ++ token ]> headers.

Definition request_body (body : value) : option string :=
  if truthy body then Some (JSON_stringify body) else None.

(** [a.error || a.message || fallback] *)
Definition error_of (a : value) (fallback : string) : M (ClientState E) value :=
  e <- lift (get_prop a "error") ;;
  if truthy e then ret e
  else
    m <- lift (get_prop a "message") ;;
    ret (js_or m (VStr fallback)).

(** The outer [catch] of [request]. *)
Definition on_error (timeoutMs : Z) (error : exn) : M (ClientState E) value :=
  if is_Error error && String.eqb (err_name error) "AbortError" then
    ret (failure (VStr ("Request timed out after " ++ pretty (round_seconds timeoutMs)
                        ++ " seconds")))
  else ret (failure (VStr (message_or error "Network error"))).

End ClientParts.

(** ** The SDK client ([AuthenticatedClient]) *)

Module SdkClient.
Section WithEnv.
Context `{RT : Runtime}.
Context {E : Type}.

(** [Date.now()] *)
Variable env_now : E -> Z * E.
(** [fetch] *)
Variable env_fetch : E -> Request -> FetchOutcome * E.
(** [authService.getSession()] *)
Variable auth_getSession : E -> result (option ZyloAuthSession) * E.

Definition getSession : M (ClientState E) (option ZyloAuthSession) :=
  fun st => let '(r, e) := auth_getSession (env st) in (r, with_env e st).

Local Open Scope m_scope.

Definition getValidToken : M (ClientState E) string :=
  t <- now env_now ;;
  valid <- gets (fun st => cache_valid st t) ;;
  if valid then gets (fun st => default EmptyString (cachedToken st))
  else
    session <- getSession ;;
    match session with
    | None => throw (JsError "No authenticated session. Please sign in first.")
    | Some s =>
        modify (with_cache (Some (accessToken s))
                           (Some (date_time (VStr (expiresAt s))))) ;;;
        ret (accessToken s)
    end.

Definition retry (url method : string) (headers : gmap string string)
           (body : option string) : M (ClientState E) value :=
  try_catch
    (freshToken <- getValidToken ;;
     retryResponse <- fetch env_fetch (mkRequest url method (bearer headers freshToken) body false) ;;
     retryData <- lift (response_json (snd retryResponse)) ;;
     if negb (response_ok (fst retryResponse)) then
       e <- error_of retryData "Request failed" ;;
       ret (VObj (obj_spread [("success", VBool false); ("error", e)] retryData))
     else
       ret (VObj (obj_spread [("success", VBool true); ("data", retryData)] retryData)))
    (fun _ => ret (failure (VStr "Authentication failed after retry"))).

Definition send (url method : string) (headers : gmap string string)
           (body : option string) (skip : bool) (timeoutMs : Z)
  : M (ClientState E) value :=
  try_catch
    (response <- fetch env_fetch (mkRequest url method headers body true) ;;
     data <- lift (response_json (snd response)) ;;
     if (fst response =? 401)%Z && negb skip then
       clearTokenCache ;;;
       retry url method headers body
     else if negb (response_ok (fst response)) then
       e <- error_of data ("Request failed with status " ++ pretty (fst response)) ;;
       ret (VObj (obj_spread [("success", VBool false); ("error", e)] data))
     else
       ret (VObj (obj_spread [("success", VBool true); ("data", data)] data)))
    (on_error timeoutMs).

(** [AuthenticatedClient.request]; [baseUrl] is [this.baseUrl]. *)
Definition request (baseUrl method path : string) (body : value)
           (options : RequestOptions) : M (ClientState E) value :=
  let url := request_url baseUrl path in
  let headers := request_headers options in
  let skip := default false (skipAuth options) in
  auth <- (if negb skip then
             try_catch
               (token <- getValidToken ;;
                ret (inr (bearer headers token)))
               (fun error => ret (inl (failure (VStr (message_or error "Authentication failed")))))
           else ret (inr headers)) ;;
  match auth with
  | inl early => ret early
  | inr headers =>
      send url method headers (request_body body) skip (default 30000 (timeout options))
  end.

(** [get], [post], [patch], [put], [delete]: an [options] argument that is
    not given is the default [{}] of [request]; [get] and [delete] pass
    [undefined] as body. *)
Definition get (baseUrl path : string) (options : option RequestOptions)
  : M (ClientState E) value :=
  request baseUrl "GET" path VUndef (default (mkOptions None None None) options).

Definition post (baseUrl path : string) (body : value) (options : option RequestOptions)
  : M (ClientState E) value :=
  request baseUrl "POST" path body (default (mkOptions None None None) options).

Definition patch (baseUrl path : string) (body : value) (options : option RequestOptions)
  : M (ClientState E) value :=
  request baseUrl "PATCH" path body (default (mkOptions None None None) options).

Definition put (baseUrl path : string) (body : value) (options : option RequestOptions)
  : M (ClientState E) value :=
  request baseUrl "PUT" path body (default (mkOptions None None None) options).

Definition delete (baseUrl path : string) (options : option RequestOptions)
  : M (ClientState E) value :=
  request baseUrl "DELETE" path VUndef (default (mkOptions None None None) options).
End WithEnv.

(** [getBaseUrl]: [process.env.NEXT_PUBLIC_BACKEND_URL], then
    [window.__ZYLO_CONFIG__.apiUrl] in a browser, then the empty string. *)
Definition getBaseUrl (envBackendUrl : option string) (window_defined : bool)
           (windowConfigApiUrl : option string) : string :=
  if AuthService.str_truthy envBackendUrl then default EmptyString envBackendUrl
  else if window_defined && AuthService.str_truthy windowConfigApiUrl
       then default EmptyString windowConfigApiUrl
  else EmptyString.

(** [this.baseUrl] as the constructor sets it: [baseUrl ?? getBaseUrl()]. *)
Definition constructor (baseUrl envBackendUrl : option string) (window_defined : bool)
           (windowConfigApiUrl : option string) : string :=
  match baseUrl with
  | Some b => b
  | None => getBaseUrl envBackendUrl window_defined windowConfigApiUrl
  end.

End SdkClient.

(** ** The site client ([ApiClient]) *)

Module SiteClient.
Section WithEnv.
Context `{RT : Runtime}.
Context {E : Type}.

(** [Date.now()] *)
Variable env_now : E -> Z * E.
(** [fetch] *)
Variable env_fetch : E -> Request -> FetchOutcome * E.
(** [supabase.auth.getSession()]: the [data.session] of its result *)
Variable sb_getSession : E -> result (option SbSession) * E.
(** [supabase.auth.refreshSession()]: [data.session] and whether [error]
    is set *)
Variable sb_refreshSession : E -> result (option SbSession * bool) * E.

Local Open Scope m_scope.

Definition supabase_getSession : M (ClientState E) (option SbSession) :=
  fun st => let '(r, e) := sb_getSession (env st) in (r, with_env e st).

Definition supabase_refreshSession : M (ClientState E) (option SbSession * bool) :=
  fun st => let '(r, e) := sb_refreshSession (env st) in (r, with_env e st).

(** [x ? x * 1000 : 0] *)
Definition expiry_ms (x : option Z) : Z :=
  match x with
  | Some z => if z =? 0 then 0 else z * 1000
  | None => 0
  end.

Definition getValidToken : M (ClientState E) string :=
  t <- now env_now ;;
  valid <- gets (fun st => cache_valid st t) ;;
  if valid then gets (fun st => default EmptyString (cachedToken st))
  else
    session <- supabase_getSession ;;
    match session with
    | None => throw (JsError "No authenticated session. Please sign in first.")
    | Some s =>
        let expiresAt := expiry_ms (expires_at s) in
        if negb (expiresAt =? 0) && (expiresAt - EXPIRY_BUFFER <? t) then
          r <- supabase_refreshSession ;;
          match r with
          | (Some refreshed, false) =>
              modify (with_cache
                        (Some (access_token refreshed))
                        (Some (Num (if expiry_ms (expires_at refreshed) =? 0
                                    then t + 3600000
                                    else expiry_ms (expires_at refreshed))))) ;;;
              ret (access_token refreshed)
          | _ => throw (JsError "Failed to refresh authentication token")
          end
        else
          modify (with_cache (Some (access_token s))
                             (Some (Num (if expiresAt =? 0 then t + 3600000 else expiresAt)))) ;;;
          ret (access_token s)
    end.

(** [{ success: true, data: json.data, message: json.message }] *)
Definition unwrapped (json : value) : M (ClientState E) value :=
  d <- lift (get_prop json "data") ;;
  m <- lift (get_prop json "message") ;;
  ret (VObj [("success", VBool true); ("data", d); ("message", m)]).

(** [!response.ok || !json.success] *)
Definition is_failure (status : Z) (json : value) : M (ClientState E) bool :=
  if negb (response_ok status) then ret true
  else
    s <- lift (get_prop json "success") ;;
    ret (negb (truthy s)).

Definition retry (url method : string) (headers : gmap string string)
           (body : option string) : M (ClientState E) value :=
  try_catch
    (r <- supabase_refreshSession ;;
     match r with
     | (Some refreshed, false) =>
         (if expiry_ms (expires_at refreshed) =? 0 then
            t <- now env_now ;;
            modify (with_cache (Some (access_token refreshed)) (Some (Num (t + 3600000))))
          else
            modify (with_cache (Some (access_token refreshed))
                               (Some (Num (expiry_ms (expires_at refreshed)))))) ;;;
         retryResponse <- fetch env_fetch (mkRequest url method (bearer headers (access_token refreshed)) body false) ;;
         retryJson <- lift (response_json (snd retryResponse)) ;;
         failed <- is_failure (fst retryResponse) retryJson ;;
         if failed then
           e <- error_of retryJson "Request failed after token refresh" ;;
           ret (failure e)
         else unwrapped retryJson
     | _ => ret (failure (VStr "Session expired. Please sign in again."))
     end)
    (fun _ => ret (failure (VStr "Authentication failed after retry"))).

Definition send (url method : string) (headers : gmap string string)
           (body : option string) (skip : bool) (timeoutMs : Z)
  : M (ClientState E) value :=
  try_catch
    (response <- fetch env_fetch (mkRequest url method headers body true) ;;
     json <- lift (response_json (snd response)) ;;
     if (fst response =? 401)%Z && negb skip then
       clearTokenCache ;;;
       retry url method headers body
     else
       failed <- is_failure (fst response) json ;;
       if failed then
         e <- error_of json ("Request failed with status " ++ pretty (fst response)) ;;
         ret (failure e)
       else unwrapped json)
    (on_error timeoutMs).

(** [options.timeout || 30000] *)
Definition timeout_of (options : RequestOptions) : Z :=
  match timeout options with
  | Some t => if t =? 0 then 30000 else t
  | None => 30000
  end.

(** [ApiClient.request]; [baseUrl] is [this.baseUrl]. *)
Definition request (baseUrl method path : string) (body : value)
           (options : RequestOptions) : M (ClientState E) value :=
  let url := request_url baseUrl path in
  let headers := request_headers options in
  let skip := default false (skipAuth options) in
  auth <- (if negb skip then
             try_catch
               (token <- getValidToken ;;
                ret (inr (bearer headers token)))
               (fun error => ret (inl (failure (VStr (message_or error "Authentication failed")))))
           else ret (inr headers)) ;;
  match auth with
  | inl early => ret early
  | inr headers =>
      send url method headers (request_body body) skip (timeout_of options)
  end.

(** [get], [post], [patch], [put], [delete]: an [options] argument that is
    not given is the default [{}] of [request]; [get] and [delete] pass
    [undefined] as body. *)
Definition get (baseUrl path : string) (options : option RequestOptions)
  : M (ClientState E) value :=
  request baseUrl "GET" path VUndef (default (mkOptions None None None) options).

Definition post (baseUrl path : string) (body : value) (options : option RequestOptions)
  : M (ClientState E) value :=
  request baseUrl "POST" path body (default (mkOptions None None None) options).

Definition patch (baseUrl path : string) (body : value) (options : option RequestOptions)
  : M (ClientState E) value :=
  request baseUrl "PATCH" path body (default (mkOptions None None None) options).

Definition put (baseUrl path : string) (body : value) (options : option RequestOptions)
  : M (ClientState E) value :=
  request baseUrl "PUT" path body (default (mkOptions None None None) options).

Definition delete (baseUrl path : string) (options : option RequestOptions)
  : M (ClientState E) value :=
  request baseUrl "DELETE" path VUndef (default (mkOptions None None None) options).
End WithEnv.

(** [this.baseUrl] as the constructor sets it:
    [baseUrl || process.env.NEXT_PUBLIC_BACKEND_URL || ''] *)
Definition constructor (baseUrl envBackendUrl : option string) : string :=
  if AuthService.str_truthy baseUrl then default EmptyString baseUrl
  else if AuthService.str_truthy envBackendUrl then default EmptyString envBackendUrl
  else EmptyString.

End SiteClient.

(* ===================================================================== *)
(** * Reference definitions taken from the specification                  *)
(* ===================================================================== *)

Section Reference.
Context `{RT : Runtime}.

(** The middle segment of a token, turned from base64url into base64. *)
Definition payload_base64 (token : string) : string :=
  replace_char "_" "/" (replace_char "-" "+" (nth 1 (split_on "." token) EmptyString)).

(** The tenant claim of a token as the specification defines it: the
    nested claim [app_metadata.project_id] when it is present and a
    string. *)
Definition tenant_claim (token : string) : option string :=
  match decodeJwtPayload token with
  | Ok payload => as_string (opt_prop (opt_prop payload "app_metadata") "project_id")
  | Throw _ => None
  end.

(** No expected tenant is configured, or it is the development sentinel. *)
Definition validation_disabled (expected : option string) : bool :=
  match expected with
  | None => true
  | Some e => String.eqb e EmptyString || String.eqb e "dev"
  end.

(** The validator as the specification words it. *)
Definition validate_reference (expected : option string) (token : string) : bool :=
  if validation_disabled expected then true
  else match tenant_claim token with
       | Some claim => bool_decide (Some claim = expected)
       | None => true
       end.

(** The same, with an empty claim treated like an absent one. *)
Definition validate_nonempty (expected : option string) (token : string) : bool :=
  if validation_disabled expected then true
  else match tenant_claim token with
       | Some claim =>
           if String.eqb claim EmptyString then true else bool_decide (Some claim = expected)
       | None => true
       end.

End Reference.

(* ===================================================================== *)
(** * Concrete inputs                                                     *)
(* ===================================================================== *)

(** A token whose payload is [{"app_metadata":{"project_id":""}}]. *)
Definition empty_claim_token : string :=
  "h.eyJhcHBfbWV0YWRhdGEiOnsicHJvamVjdF9pZCI6IiJ9fQ.s".

(** A token whose payload is the object with [app_metadata.project_id = 42]. *)
Definition numeric_claim_token : string :=
  "h.eyJhcHBfbWV0YWRhdGEiOnsicHJvamVjdF9pZCI6NDJ9fQ.s".

(** A token whose payload carries the tenant claim [tenant-a]. *)
Definition tenant_a_token : string :=
  "h.eyJhcHBfbWV0YWRhdGEiOnsicHJvamVjdF9pZCI6InRlbmFudC1hIn19.s".

(** An SDK guard configured with the root among its public routes, in a
    browser, without a redirect callback. *)
Definition root_public_props : SdkGuard.Props :=
  SdkGuard.mkProps (Some ["/"; "/login"]) (Some "/login") (Some "/home") false true.

(* ===================================================================== *)
(** * Site auth context                                                   *)
(* ===================================================================== *)

Module SiteAuth.

Record AuthUser : Type := mkAuthUser {
  au_id : string;
  au_email : option string;
  au_projectId : option string
}.

(** The React state of [AuthProvider] and the environment [E] holding the
    network and the Supabase client. *)
Record AuthState (E : Type) : Type := mkAuth {
  user : option AuthUser;
  session : option SbSession;
  loading : bool;
  error : option string;
  auth_env : E
}.
Arguments mkAuth {E}.
Arguments user {E}.
Arguments session {E}.
Arguments loading {E}.
Arguments error {E}.
Arguments auth_env {E}.

(** The part of a Supabase [User] the context reads. *)
Record SbUser : Type := mkSbUser { sb_id : string; sb_email : option string }.

(** A Supabase [Session] as the context is handed it: the session fields and
    [session.user]. *)
Record Session : Type := mkSiteSession { sess_fields : SbSession; sess_user : option SbUser }.

Section WithEnv.
Context `{RT : Runtime}.
Context {E : Type}.

(** [fetch] *)
Variable env_fetch : E -> Request -> FetchOutcome * E.
(** [supabase.auth.signOut()], awaited by [clearSupabaseSession] *)
Variable sb_signOut : E -> result unit * E.
(** [process.env.NEXT_PUBLIC_BACKEND_URL] *)
Variable envBackendUrl : option string.

Local Open Scope m_scope.

Definition setLoading (b : bool) : M (AuthState E) unit :=
  modify (fun st => mkAuth (user st) (session st) b (error st) (auth_env st)).

Definition setUser (u : option AuthUser) : M (AuthState E) unit :=
  modify (fun st => mkAuth u (session st) (loading st) (error st) (auth_env st)).

Definition setSession (s : option SbSession) : M (AuthState E) unit :=
  modify (fun st => mkAuth (user st) s (loading st) (error st) (auth_env st)).

Definition setError (e : option string) : M (AuthState E) unit :=
  modify (fun st => mkAuth (user st) (session st) (loading st) e (auth_env st)).

Definition fetch (req : Request) : M (AuthState E) (Z * option value) :=
  fun st =>
    let '(out, e) := env_fetch (auth_env st) req in
    let st' := mkAuth (user st) (session st) (loading st) (error st) e in
    match out with
    | Rejected err => (Throw err, st')
    | Responded status body => (Ok (status, body), st')
    end.

Definition clearSupabaseSession : M (AuthState E) unit :=
  fun st =>
    let '(r, e) := sb_signOut (auth_env st) in
    (r, mkAuth (user st) (session st) (loading st) (error st) e).

Definition signOut_request (backendUrl accessToken : string) : Request :=
  mkRequest (backendUrl ++ "/api/v1/auth/signout") "POST"
            (<[ "Authorization" := "Bearer " ++ accessToken ]>
               {[ "Content-Type" := "application/json" ]})
            (Some (JSON_stringify (VObj [("accessToken", VStr accessToken)])))
            false.

(** [signOut] of [src/lib/auth/authContext.tsx] *)
Definition signOut : M (AuthState E) unit :=
  setLoading true ;;;
  try_finally
    (let backendUrl :=
       if AuthService.str_truthy envBackendUrl then default EmptyString envBackendUrl
       else EmptyString in
     accessToken <- gets (fun st => access_token <$> session st) ;;
     (if AuthService.str_truthy accessToken then
        try_catch
          (fetch (signOut_request backendUrl (default EmptyString accessToken)) ;;; ret tt)
          (fun _ => ret tt)
      else ret tt) ;;;
     clearSupabaseSession ;;;
     setUser None ;;;
     setSession None ;;;
     setError None)
    (setLoading false).

(** [supabase.auth.getSession()] *)
Variable sb_getSession : E -> result (option Session) * E.
(** [supabase.auth.refreshSession()]: the session and the error of its
    answer *)
Variable sb_refreshSession : E -> result (option Session * option exn) * E.
(** [process.env.NEXT_PUBLIC_PROJECT_ID] *)
Variable expectedProjectId : option string.

(** A call whose promise is dropped: what it settles to, a rejection
    included, is not seen by the caller. *)
Definition not_awaited {A : Type} (m : M (AuthState E) A) : M (AuthState E) unit :=
  fun st => (Ok tt, snd (m st)).

(** [transformUser(supabaseUser, accessToken)] *)
Definition transformUser (supabaseUser : option SbUser) (accessToken : option string)
  : result (option AuthUser) :=
  match supabaseUser with
  | None => Ok None
  | Some u =>
      (projectId <- (if AuthService.str_truthy accessToken
                     then Supabase.getProjectIdFromToken (default EmptyString accessToken)
                     else Ok None) ;;
       Ok (Some (mkAuthUser (sb_id u) (sb_email u) projectId)))%res
  end.

(** [handleSessionUpdate(newSession)].  [clearSupabaseSession()] is called
    without [await]. *)
Definition handleSessionUpdate (newSession : option Session) : M (AuthState E) unit :=
  match newSession with
  | None =>
      setSession None ;;;
      setUser None
  | Some s =>
      valid <- lift (Supabase.validateProjectId expectedProjectId
                       (access_token (sess_fields s))) ;;
      if negb valid then
        not_awaited clearSupabaseSession ;;;
        setSession None ;;;
        setUser None ;;;
        setError (Some "Invalid project credentials")
      else
        setSession (Some (sess_fields s)) ;;;
        u <- lift (transformUser (sess_user s) (Some (access_token (sess_fields s)))) ;;
        setUser u ;;;
        setError None
  end.

Definition getSession : M (AuthState E) (option Session) :=
  fun st =>
    let '(r, e) := sb_getSession (auth_env st) in
    (r, mkAuth (user st) (session st) (loading st) (error st) e).

(** [initializeAuth] of the mount effect; [mounted] is the flag of the
    effect as it stands when [getSession] has settled. *)
Definition initializeAuth (mounted : bool) : M (AuthState E) unit :=
  try_catch
    (initialSession <- getSession ;;
     if mounted then
       (match initialSession with
        | Some s => handleSessionUpdate (Some s)
        | None => ret tt
        end) ;;;
       setLoading false
     else ret tt)
    (fun _ =>
       if mounted then
         setLoading false ;;;
         setError (Some "Failed to initialize authentication")
       else ret tt).

(** The listener given to [supabase.auth.onAuthStateChange]. *)
Definition onAuthStateChange (mounted : bool) (newSession : option Session)
  : M (AuthState E) unit :=
  if mounted then handleSessionUpdate newSession else ret tt.

(** [refreshSession] of the context *)
Definition refreshSession : M (AuthState E) unit :=
  answer <- (fun st =>
               let '(r, e) := sb_refreshSession (auth_env st) in
               (r, mkAuth (user st) (session st) (loading st) (error st) e)) ;;
  let '(newSession, refreshError) := answer in
  match refreshError with
  | Some _ => ret tt
  | None => handleSessionUpdate newSession
  end.

End WithEnv.

End SiteAuth.

(** ** Site auth context: sign-in and sign-up *)

Module SiteSignIn.

(** The part of the state of [AuthProvider] that [signIn] and [signUp]
    write, and the environment [E].  The message they store is read out of
    the response body, so it is a [value]; [setError(null)] stores [VNull]. *)
Record State (E : Type) : Type := mkState {
  loading : bool;
  error : value;
  env : E
}.
Arguments mkState {E}.
Arguments loading {E}.
Arguments error {E}.
Arguments env {E}.

Section WithEnv.
Context `{RT : Runtime}.
Context {E : Type}.

(** [fetch] *)
Variable env_fetch : E -> Request -> FetchOutcome * E.
(** [supabase.auth.setSession({ access_token, refresh_token })]: the user
    and the error of its answer *)
Variable sb_setSession : E -> value -> value -> result (option SiteAuth.SbUser * option exn) * E.
(** [process.env.NEXT_PUBLIC_BACKEND_URL], [NEXT_PUBLIC_PROJECT_ID],
    [NEXT_PUBLIC_SUPABASE_URL], [NEXT_PUBLIC_SUPABASE_ANON_KEY] *)
Variable envBackendUrl expectedProjectId supabaseUrl supabaseAnonKey : option string.

Local Open Scope m_scope.

Definition setLoading (b : bool) : M (State E) unit :=
  modify (fun st => mkState b (error st) (env st)).

Definition setError (e : value) : M (State E) unit :=
  modify (fun st => mkState (loading st) e (env st)).

Definition fetch (req : Request) : M (State E) (Z * option value) :=
  fun st =>
    let '(out, e) := env_fetch (env st) req in
    let st' := mkState (loading st) (error st) e in
    match out with
    | Rejected err => (Throw err, st')
    | Responded status body => (Ok (status, body), st')
    end.

(** [setSupabaseSession] of [src/lib/supabase.ts], on the two values it is
    given; it returns [{ user, error }]. *)
Definition setSupabaseSession (accessToken refreshToken : value)
  : M (State E) (option SiteAuth.SbUser * option exn) :=
  if str_falsy supabaseUrl || str_falsy supabaseAnonKey then
    ret (None, Some (JsError "Supabase not configured"))
  else
    try_catch
      (answer <- (fun st =>
                    let '(r, e) := sb_setSession (env st) accessToken refreshToken in
                    (r, mkState (loading st) (error st) e)) ;;
       let '(data_user, answer_error) := answer in
       match answer_error with
       | Some e => ret (None, Some e)
       | None => ret (data_user, None)
       end)
      (fun err => ret (None, Some (if is_Error err then err else JsError "Unknown error"))).

(** [validateProjectId(authSession.accessToken)] on the value found in the
    response.  A value that is not a string has no [split]: the decoder
    throws inside its [try], no claim is extracted, and the token passes. *)
Definition validateProjectId (accessToken : value) : result bool :=
  match accessToken with
  | VStr token => Supabase.validateProjectId expectedProjectId token
  | _ => Ok true
  end.

Definition credentials_request (backendUrl path email password : string) : Request :=
  mkRequest (backendUrl ++ path) "POST"
            {[ "Content-Type" := "application/json" ]}
            (Some (JSON_stringify (VObj [("email", VStr email); ("password", VStr password)])))
            false.

(** [{ success: true }] *)
Definition succeeded : value := VObj [("success", VBool true)].

(** The body shared by [signIn] and [signUp], which differ in the endpoint
    and in the message used when the response names none. *)
Definition submit (path fallback email password : string) : M (State E) value :=
  setLoading true ;;;
  setError VNull ;;;
  try_catch
    (let backendUrl :=
       if AuthService.str_truthy envBackendUrl then default EmptyString envBackendUrl
       else EmptyString in
     response <- fetch (credentials_request backendUrl path email password) ;;
     let '(status, body) := response in
     data <- lift (response_json body) ;;
     failed <- (if negb (response_ok status) then ret true
                else
                  success <- lift (get_prop data "success") ;;
                  ret (negb (truthy success))) ;;
     if (failed : bool) then
       data_error <- lift (get_prop data "error") ;;
       errorMsg <- (if truthy (opt_prop data_error "message")
                    then ret (opt_prop data_error "message")
                    else
                      message <- lift (get_prop data "message") ;;
                      ret (js_or message (VStr fallback))) ;;
       setError errorMsg ;;;
       setLoading false ;;;
       ret (failure errorMsg)
     else
       data_data <- lift (get_prop data "data") ;;
       authSession <- (if truthy (opt_prop data_data "session")
                       then ret (opt_prop data_data "session")
                       else lift (get_prop data "session")) ;;
       if truthy (opt_prop authSession "accessToken")
          && truthy (opt_prop authSession "refreshToken")
       then
         valid <- lift (validateProjectId (opt_prop authSession "accessToken")) ;;
         if negb valid then
           setError (VStr "Invalid project credentials") ;;;
           setLoading false ;;;
           ret (failure (VStr "Invalid project credentials"))
         else
           setSupabaseSession (opt_prop authSession "accessToken")
                              (opt_prop authSession "refreshToken") ;;;
           setLoading false ;;;
           ret succeeded
       else
         setLoading false ;;;
         ret succeeded)
    (fun err =>
       let errorMsg := message_or err "Network error" in
       setError (VStr errorMsg) ;;;
       setLoading false ;;;
       ret (failure (VStr errorMsg))).

(** [signIn] of [src/lib/auth/authContext.tsx] *)
Definition signIn (email password : string) : M (State E) value :=
  submit "/api/v1/auth/signin" "Sign in failed" email password.

(** [signUp] of [src/lib/auth/authContext.tsx] *)
Definition signUp (email password : string) : M (State E) value :=
  submit "/api/v1/auth/signup" "Sign up failed" email password.

End WithEnv.

End SiteSignIn.

(* ===================================================================== *)
(** * Closed forms of the store operations                                *)
(* ===================================================================== *)

Section StoreRuns.
Context `{RT : Runtime}.

(** The world [clearStoredSession] leaves. *)
Definition cleared (w : AuthService.World) : AuthService.World :=
  if AuthService.window_defined w && negb (AuthService.ls_denied w)
  then AuthService.with_items
         (fun m => delete AuthService.REFRESH_TOKEN
                     (delete AuthService.ACCESS_TOKEN (delete AuthService.SESSION m))) w
  else w.

(** What [getStoredSession] returns and the world it leaves, case by case. *)
Definition loaded (w : AuthService.World) : value * AuthService.World :=
  if negb (AuthService.window_defined w) || AuthService.ls_denied w then (VNull, w)
  else
    match AuthService.ls_items w !! AuthService.SESSION with
    | None => (VNull, w)
    | Some blob =>
        if String.eqb blob EmptyString then (VNull, w)
        else
          match JSON_parse blob with
          | None => (VNull, w)
          | Some session =>
              match get_prop session "expiresAt" with
              | Throw _ => (VNull, w)
              | Ok exp =>
                  if num_lt (date_time exp)
                            (Num (AuthService.clock w (AuthService.clock_reads w)))
                  then (VNull, cleared (AuthService.tick w))
                  else (session, AuthService.tick w)
              end
          end
    end.

(** What [storeSession] leaves when the storage takes the three writes. *)
Definition stored (session : value) (w : AuthService.World) : AuthService.World :=
  AuthService.with_items
    (fun m =>
       <[ AuthService.REFRESH_TOKEN := ToString (opt_prop session "refreshToken") ]>
         (<[ AuthService.ACCESS_TOKEN := ToString (opt_prop session "accessToken") ]>
            (<[ AuthService.SESSION := JSON_stringify session ]> m))) w.

End StoreRuns.

(** The part of a world that no operation of the auth service changes. *)
Definition device (w : AuthService.World) : bool * bool :=
  (AuthService.window_defined w, AuthService.ls_denied w).

Definition preserves_device {A} (m : M AuthService.World A) : Prop :=
  forall w r w', m w = (r, w') -> device w' = device w.

Definition example_user : ZyloAppUser :=
  mkUser "u1" "ann@example.com" (Some "Ann") None true "tenant-a"
         "2024-01-01T00:00:00.000Z" "2024-01-02T00:00:00.000Z"
         (Some [("plan", VStr "pro")]).

(** A session that expires on 2030-01-01, i.e. at 1893456000000 ms. *)
Definition example_session : ZyloAuthSession :=
  mkSession example_user tenant_a_token "refresh-1" "2030-01-01T00:00:00.000Z".

(** A browser with working storage holding [items], a clock that always
    reads [t], and the backend [b]. *)
Definition example_world (items : gmap string string) (t : Z)
           (b : list Request -> Request -> FetchOutcome) : AuthService.World :=
  AuthService.mkWorld true false false items (fun _ => t) 0 b [] None None None.

(** A backend that cannot be reached: every [fetch] rejects. *)
Definition unreachable_backend : list Request -> Request -> FetchOutcome :=
  fun _ _ => Rejected (mkExn true "TypeError" "Failed to fetch").

(** A world in which [example_session] has been stored. *)
Definition signed_in_world (t : Z) : AuthService.World :=
  snd (AuthService.storeSession (session_value example_session)
         (example_world ∅ t unreachable_backend)).

(** A world whose session entry is not JSON. *)
Definition corrupted_world : AuthService.World :=
  example_world {[ AuthService.SESSION := "{not json" ]} 0 unreachable_backend.

(** A world whose storage cannot be read. *)
Definition denied_world : AuthService.World :=
  AuthService.mkWorld true true false ∅ (fun _ => 0) 0 unreachable_backend [] None None None.




(* ===================================================================== *)
(** * A scripted environment for the clients                              *)
(* ===================================================================== *)

(** A clock that always reads [sc_now], session providers that always give
    the same answers, and a network that answers the calls with
    [sc_responses], in order (and rejects once the script is used up). *)
Record Script : Type := mkScript {
  sc_now : Z;
  sc_session : option ZyloAuthSession;
  sc_sb_session : option SbSession;
  sc_sb_refreshed : option SbSession * bool;
  sc_responses : list FetchOutcome
}.

Definition script_now (e : Script) : Z * Script := (sc_now e, e).

Definition script_getSession (e : Script) : result (option ZyloAuthSession) * Script :=
  (Ok (sc_session e), e).

Definition script_sb_getSession (e : Script) : result (option SbSession) * Script :=
  (Ok (sc_sb_session e), e).

Definition script_sb_refreshSession (e : Script)
  : result (option SbSession * bool) * Script :=
  (Ok (sc_sb_refreshed e), e).

Definition script_fetch (e : Script) (req : Request) : FetchOutcome * Script :=
  match sc_responses e with
  | [] => (Rejected (mkExn true "TypeError" "Failed to fetch"), e)
  | out :: rest =>
      (out, mkScript (sc_now e) (sc_session e) (sc_sb_session e) (sc_sb_refreshed e) rest)
  end.

(** 2029-12-31T23:00:00Z, one hour before [example_session] expires. *)
Definition example_now : Z := 1893452400000.

Definition example_sb_session : SbSession := mkSbSession tenant_a_token (Some 1893456000).

Definition example_script (responses : list FetchOutcome) : Script :=
  mkScript example_now (Some example_session) (Some example_sb_session)
           (Some (mkSbSession "refreshed-token" (Some 1893459600)), false) responses.

(** A client whose cache holds [old-token], expiring [ms] milliseconds after
    [example_now]. *)
Definition cached_client (ms : Z) (responses : list FetchOutcome) : ClientState Script :=
  mkClient (Some "old-token") (Some (Num (example_now + ms))) (example_script responses) [].

(** A client with an empty cache. *)
Definition fresh_client (responses : list FetchOutcome) : ClientState Script :=
  mkClient None None (example_script responses) [].

(* ===================================================================== *)
(** * Vocabulary for the retry properties                                 *)
(* ===================================================================== *)

(** The [success] member of a result object. *)
Definition success_of (r : value) : value := opt_prop r "success".

(** No property name occurs twice among the own properties of [v]. *)
Definition keys_distinct (v : value) : Prop := NoDup (map fst (own_props v)).

(** The result of a request whose retry could not be completed. *)
Definition retry_failure : value := failure (VStr "Authentication failed after retry").

(** The result of a site request whose session could not be refreshed. *)
Definition session_expired : value := failure (VStr "Session expired. Please sign in again.").

(** Backend answers used in the examples. *)
Definition unauthorized_body : value :=
  VObj [("success", VBool false); ("error", VStr "jwt expired")].

Definition unauthorized : FetchOutcome := Responded 401 (Some unauthorized_body).

(** The state of a client of [example_script] once the token of the example
    session is cached. *)
Definition resolved_client (responses : list FetchOutcome) : ClientState Script :=
  mkClient (Some tenant_a_token) (Some (Num 1893456000000)) (example_script responses) [].


Definition accepted_body : value := VObj [("success", VBool true); ("data", VNum 7 0)].

Definition accepted : FetchOutcome := Responded 200 (Some accepted_body).

Definition no_options : RequestOptions := mkOptions None None None.

(** A session provider that gives the session of the script once, and no
    session afterwards (the user signed out in between). *)
Definition script_getSession_once (e : Script) : result (option ZyloAuthSession) * Script :=
  (Ok (sc_session e),
   mkScript (sc_now e) None (sc_sb_session e) (sc_sb_refreshed e) (sc_responses e)).

(** A script whose Supabase client cannot refresh the session. *)
Definition unrefreshable_script (responses : list FetchOutcome) : Script :=
  mkScript example_now (Some example_session) (Some example_sb_session) (None, true) responses.

(** The SDK guard configured as the site configures its own: the site's
    public routes, login path and authenticated home, and the router as
    redirect callback. *)
Definition site_props : SdkGuard.Props :=
  SdkGuard.mkProps (Some SiteGuard.PUBLIC_ROUTES) (Some "/login")
                   (Some SiteGuard.AUTHENTICATED_HOME) true true.

(* ===================================================================== *)
(** * Vocabulary for the client properties                                *)
(* ===================================================================== *)

(** A result object of the SDK client: an object with a [success] member. *)
Definition is_response (v : value) : Prop :=
  exists props s, v = VObj props /\ assoc "success" props = Some s.

(** A result object of the site client: its [success] member is a boolean. *)
Definition is_site_response (v : value) : Prop :=
  exists props b, v = VObj props /\ assoc "success" props = Some (VBool b).

(** [q] is the request for [url], [method] and [payload], with [headers]
    apart from its [Authorization] header. *)
Definition same_request (url method : string) (headers : gmap string string)
           (payload : option string) (q : Request) : Prop :=
  req_url q = url /\ req_method q = method /\ req_body q = payload
  /\ forall k, k <> "Authorization" -> req_headers q !! k = headers !! k.

(** [q] carries a bearer token. *)
Definition has_bearer (q : Request) : Prop :=
  exists token, req_headers q !! "Authorization" = Some ("Bearer " ++ token).

(** The backend never answers a call with a 2xx status and a body whose
    [success] member is truthy. *)
Definition never_succeeds {E : Type} (env_fetch : E -> Request -> FetchOutcome * E) : Prop :=
  forall e q status d e' s,
    env_fetch e q = (Responded status (Some d), e') ->
    response_ok status = true -> get_prop d "success" = Ok s -> truthy s = false.

(** Options that skip authentication. *)
Definition public_options : RequestOptions := mkOptions None (Some true) None.

(** A call that is aborted by the timeout. *)
Definition aborted : FetchOutcome := Rejected AbortError.

(** A backend answer that fails and yet carries [success: true]. *)
Definition contradictory_body : value :=
  VObj [("success", VBool true); ("error", VStr "quota exceeded")].

Definition contradictory : FetchOutcome := Responded 500 (Some contradictory_body).

(** A client whose cache is empty and whose session provider has no
    session. *)
Definition signed_out_client (responses : list FetchOutcome) : ClientState Script :=
  mkClient None None (mkScript example_now None None (None, false) responses) [].

(* ===================================================================== *)
(** * Closed forms for the calls of the auth service                      *)
(* ===================================================================== *)

(** The call [apiRequest] makes in world [w] when the stored session it
    finds is [session]. *)
Definition api_call `{RT : Runtime} (w : AuthService.World) (endpoint method : string)
           (body session : value) : Request :=
  mkRequest (AuthService.getApiUrl w ++ endpoint) method
            (if truthy session
             then <[ "Authorization" := "Bearer " ++ ToString (opt_prop session "accessToken") ]>
                    {[ "Content-Type" := "application/json" ]}
             else {[ "Content-Type" := "application/json" ]})
            (if truthy body && String.eqb method "POST" then Some (JSON_stringify body)
             else None)
            false.

(** Everything of a world but its storage entries, its clock position and
    its call log. *)
Definition surroundings (w : AuthService.World)
  : bool * bool * bool * (nat -> Z) * (list Request -> Request -> FetchOutcome)
    * option string * option string * option string :=
  (AuthService.window_defined w, AuthService.ls_denied w, AuthService.ls_full w,
   AuthService.clock w, AuthService.backend w,
   AuthService.configuredApiUrl w, AuthService.windowConfigApiUrl w,
   AuthService.envBackendUrl w).

(** Storage [m'] holds nothing that [m] did not hold. *)
Definition no_new_entries (m m' : gmap string string) : Prop :=
  forall k v, m' !! k = Some v -> m !! k = Some v.

(** A backend that gives the same answer to every call. *)
Definition answering (out : FetchOutcome) : list Request -> Request -> FetchOutcome :=
  fun _ _ => out.

(** The answer of a backend that accepts a sign-in. *)
Definition sign_in_response : value :=
  VObj [("success", VBool true); ("session", session_value example_session)].

(** The answer of a backend that turns a sign-in down. *)
Definition bad_login_response : value :=
  VObj [("success", VBool false);
        ("error", VObj [("code", VStr "INVALID_CREDENTIALS");
                        ("message", VStr "Invalid login credentials")])].

(** A 2xx answer that reports no success and names no error. *)
Definition bare_failure_response : value := VObj [("success", VBool false)].

(* ===================================================================== *)
(** * Vocabulary for the provider properties                              *)
(* ===================================================================== *)

(** The provider holds no session and no user, or a session and that
    session's user. *)
Definition coherent (st : ZyloProvider.State) : Prop :=
  (ZyloProvider.session st = VNull /\ ZyloProvider.user st = VNull)
  \/ (truthy (ZyloProvider.session st) = true
      /\ ZyloProvider.user st = opt_prop (ZyloProvider.session st) "user").

(** The three session entries are gone from the storage of [w]. *)
Definition no_session_entries (w : AuthService.World) : Prop :=
  AuthService.ls_items w !! AuthService.SESSION = None
  /\ AuthService.ls_items w !! AuthService.ACCESS_TOKEN = None
  /\ AuthService.ls_items w !! AuthService.REFRESH_TOKEN = None.

(** A token whose payload carries the tenant claim [tenant-b]. *)
Definition tenant_b_token : string :=
  "h.eyJhcHBfbWV0YWRhdGEiOnsicHJvamVjdF9pZCI6InRlbmFudC1iIn19.s".

(** A session of another tenant, and the answer of a backend that hands it
    out. *)
Definition foreign_session : ZyloAuthSession :=
  mkSession example_user tenant_b_token "refresh-b" "2030-01-01T00:00:00.000Z".

Definition foreign_response : value :=
  VObj [("success", VBool true); ("session", session_value foreign_session)].

(* ===================================================================== *)
(** * Words for the site's auth context                                   *)
(* ===================================================================== *)

(** The context holds a user only together with a session, a session only
    if its token passes the tenant check, and the user carries the project
    read from that token. *)
Definition in_step `{Runtime} {E : Type} (expectedProjectId : option string)
           (st : SiteAuth.AuthState E) : Prop :=
  match SiteAuth.session st with
  | None => SiteAuth.user st = None
  | Some s =>
      Supabase.validateProjectId expectedProjectId (access_token s) = Ok true
      /\ forall u, SiteAuth.user st = Some u ->
                   Supabase.getProjectIdFromToken (access_token s)
                   = Ok (SiteAuth.au_projectId u)
  end.

(** The session found in an accepted response:
    [data.data?.session || data.session]. *)
Definition authSession_of (data : value) : value :=
  js_or (opt_prop (opt_prop data "data") "session") (opt_prop data "session").

(** An environment that is the list of the calls made so far, oldest
    first. *)
Definition answering_fetch (out : FetchOutcome)
  : list string -> Request -> FetchOutcome * list string :=
  fun e req => (out, app e ["fetch " ++ req_url req]).

(** A Supabase client that turns the tokens down. *)
Definition refusing_setSession
  : list string -> value -> value
    -> result (option SiteAuth.SbUser * option exn) * list string :=
  fun e _ _ =>
    (Ok (None, Some (mkExn true "AuthApiError" "Invalid Refresh Token")),
     app e ["setSession"]).

(** A Supabase client whose sign-out fails. *)
Definition failing_signOut : list string -> result unit * list string :=
  fun e => (Throw (mkExn true "AuthApiError" "Network request failed"), app e ["signOut"]).

(** A Supabase client that holds the session [s]. *)
Definition holding (s : option SiteAuth.Session)
  : list string -> result (option SiteAuth.Session) * list string :=
  fun e => (Ok s, app e ["getSession"]).

Definition refreshing (s : option SiteAuth.Session)
  : list string -> result (option SiteAuth.Session * option exn) * list string :=
  fun e => (Ok (s, None), app e ["refreshSession"]).

(** Sessions of the two tenants as Supabase hands them out. *)
Definition site_session_a : SiteAuth.Session :=
  SiteAuth.mkSiteSession (mkSbSession tenant_a_token (Some 1893456000))
                         (Some (SiteAuth.mkSbUser "u1" (Some "ann@example.com"))).

Definition site_session_b : SiteAuth.Session :=
  SiteAuth.mkSiteSession (mkSbSession tenant_b_token (Some 1893456000))
                         (Some (SiteAuth.mkSbUser "u2" (Some "eve@example.com"))).

(** The state of an [AuthProvider] that has just been rendered. *)
Definition site_initial : SiteAuth.AuthState (list string) :=
  SiteAuth.mkAuth None None true None [].

(* ===================================================================== *)
(** * The axios client of the site ([src/utils/api-client.ts])            *)
(* ===================================================================== *)

Module AxiosClient.

(** The browser as the interceptors see it: [localStorage], with the
    storage model of the auth service, and the assignments made to
    [window.location.href], oldest first. *)
Record Browser : Type := mkBrowser {
  storage : AuthService.World;
  visited : list navigation
}.

(** The members of an [AxiosError] the response interceptor reads:
    [error.response] with its [status] and [data], whether [error.request]
    is set, and [error.message]. *)
Record AxiosError : Type := mkAxiosError {
  ax_response : option (Z * value);
  ax_request : bool;
  ax_message : string
}.

(** [ApiError]; [errors] is [undefined] until it is assigned. *)
Record ApiError : Type := mkApiError {
  message : value;
  status : option Z;
  errors : value
}.

Definition AUTH_TOKEN : string := "auth_token".

Local Open Scope m_scope.

Definition in_storage {A : Type} (m : M AuthService.World A) : M Browser A :=
  fun b =>
    let '(r, w) := m (storage b) in
    (r, mkBrowser w (visited b)).

(** [typeof window !== 'undefined'] *)
Definition has_window : M Browser bool :=
  gets (fun b => AuthService.window_defined (storage b)).

(** [window.location.href = path] *)
Definition set_location (path : string) : M Browser unit :=
  modify (fun b => mkBrowser (storage b) (visited b ++ [ViaLocation path])).

(** The request interceptor, on the headers of the request configuration;
    it returns the configuration. *)
Definition on_request (headers : gmap string string) : M Browser (gmap string string) :=
  w <- has_window ;;
  if (w : bool) then
    token <- in_storage (AuthService.getItem AUTH_TOKEN) ;;
    if AuthService.str_truthy token
    then ret (<[ "Authorization" := "Bearer " ++ default EmptyString token ]> headers)
    else ret headers
  else ret headers.

(** The error handler of the response interceptor.  It ends in
    [Promise.reject(apiError)]: the value returned here is the [apiError] the
    promise is rejected with, and a [Throw] is an exception raised on the way
    (by [localStorage]). *)
Definition on_response_error (error : AxiosError) : M Browser ApiError :=
  match ax_response error with
  | Some (response_status, data) =>
      let apiError :=
        mkApiError (js_or (opt_prop data "message") (VStr (ax_message error)))
                   (Some response_status) (opt_prop data "errors") in
      if response_status =? 401 then
        w <- has_window ;;
        (if (w : bool) then
           in_storage (AuthService.removeItem AUTH_TOKEN) ;;;
           set_location "/login"
         else ret tt) ;;;
        ret apiError
      else if response_status =? 403 then
        ret (mkApiError (VStr "You do not have permission to perform this action")
                        (status apiError) (errors apiError))
      else if response_status =? 404 then
        ret (mkApiError (VStr "Resource not found") (status apiError) (errors apiError))
      else if response_status =? 500 then
        ret (mkApiError (VStr "Server error. Please try again later.")
                        (status apiError) (errors apiError))
      else ret apiError
  | None =>
      if ax_request error then
        ret (mkApiError (VStr "No response from server. Please check your connection.")
                        None VUndef)
      else ret (mkApiError (VStr "An unexpected error occurred") None VUndef)
  end.

(** [setAuthToken(token)] *)
Definition setAuthToken (token : string) : M Browser unit :=
  w <- has_window ;;
  if (w : bool) then in_storage (AuthService.setItem AUTH_TOKEN token) else ret tt.

(** [clearAuthToken()] *)
Definition clearAuthToken : M Browser unit :=
  w <- has_window ;;
  if (w : bool) then in_storage (AuthService.removeItem AUTH_TOKEN) else ret tt.

End AxiosClient.

(** A browser whose storage can be read and written. *)
Definition working (b : AxiosClient.Browser) : Prop :=
  AuthService.window_defined (AxiosClient.storage b) = true
  /\ AuthService.ls_denied (AxiosClient.storage b) = false
  /\ AuthService.ls_full (AxiosClient.storage b) = false.

(** A browser that holds the token [old]. *)
Definition browser_with (old : string) : AxiosClient.Browser :=
  AxiosClient.mkBrowser
    (example_world {[ AxiosClient.AUTH_TOKEN := old ]} 0 unreachable_backend) [].

(* ===================================================================== *)
(** * Part II: properties                                                 *)
(* ===================================================================== *)

(** ** Token decoder *)

Lemma split_on_length (c : ascii) (s : string) :
  List.length (split_on c s) = S (count_char c s).
Proof.
  induction s as [|a s IH]; simpl; [reflexivity|].
  destruct (Ascii.eqb a c); simpl; [now rewrite IH|].
  destruct (split_on c s) as [|w ws]; simpl in *; [discriminate|exact IH].
Qed.

Section DecoderFacts.
Context `{RT : Runtime}.

Lemma decodeJwtPayload_total (token : string) :
  exists v, decodeJwtPayload token = Ok v.
Proof.
  unfold decodeJwtPayload.
  destruct (decodeJwtPayload_try token) as [v|e]; simpl; eauto.
Qed.

Lemma decode_wrong_arity (token : string) :
  count_char "." token <> 2%nat -> decodeJwtPayload token = Ok VNull.
Proof.
  intros Hn. unfold decodeJwtPayload, decodeJwtPayload_try.
  rewrite split_on_length.
  destruct (Nat.eqb_spec (S (count_char "." token)) 3) as [Heq|Hne]; simpl.
  - exfalso. apply Hn. lia.
  - reflexivity.
Qed.

Lemma decode_three_segments (token : string) :
  count_char "." token = 2%nat ->
  decodeJwtPayload token =
    match atob (payload_base64 token) with
    | None => Ok VNull
    | Some payload =>
        match JSON_parse payload with
        | None => Ok VNull
        | Some v => Ok v
        end
    end.
Proof.
  intros Hn. unfold decodeJwtPayload, decodeJwtPayload_try.
  rewrite split_on_length, Hn. simpl.
  fold (payload_base64 token). unfold js_atob, js_JSON_parse.
  destruct (atob (payload_base64 token)) as [p|]; simpl; [|reflexivity].
  destruct (JSON_parse p); reflexivity.
Qed.

(** C8. A token splits on the dot into exactly three segments iff it holds
    exactly two dots.  For a token that does not, [decodeJwtPayload] returns
    [null]; for a three-segment token whose middle segment [atob] rejects, or
    whose decoded middle segment [JSON.parse] rejects, it returns [null] as
    well; and on no input at all does it throw. *)
Theorem decode_malformed_no_claims (token : string) :
  (List.length (split_on "." token) = 3%nat <-> count_char "." token = 2%nat)
  /\ (count_char "." token <> 2%nat -> decodeJwtPayload token = Ok VNull)
  /\ (count_char "." token = 2%nat ->
      atob (payload_base64 token) = None ->
      decodeJwtPayload token = Ok VNull)
  /\ (count_char "." token = 2%nat ->
      forall payload, atob (payload_base64 token) = Some payload ->
      JSON_parse payload = None ->
      decodeJwtPayload token = Ok VNull)
  /\ (exists v, decodeJwtPayload token = Ok v).
Proof.
  repeat split.
  - rewrite split_on_length. lia.
  - rewrite split_on_length. lia.
  - apply decode_wrong_arity.
  - intros Hn Ha. rewrite decode_three_segments, Ha by exact Hn. reflexivity.
  - intros Hn p Ha Hp. rewrite decode_three_segments, Ha, Hp by exact Hn. reflexivity.
  - apply decodeJwtPayload_total.
Qed.

(** ** Tenant validation *)

Lemma get_prop_truthy (v : value) (k : string) :
  truthy v = true -> get_prop v k = Ok (opt_prop v k).
Proof. destruct v; simpl; intros; try discriminate; reflexivity. Qed.

Lemma opt_prop_falsy (v : value) (k : string) :
  truthy v = false -> opt_prop v k = VUndef.
Proof. destruct v; simpl; intros; try discriminate; reflexivity. Qed.

Lemma typeof_string (v : value) :
  String.eqb (typeof v) "string" = match v with VStr _ => true | _ => false end.
Proof. destruct v; reflexivity. Qed.

(** The extractor of the site returns exactly the claim of the
    specification. *)
Lemma site_extractor_spec (token : string) :
  Supabase.getProjectIdFromToken token = Ok (tenant_claim token).
Proof.
  unfold Supabase.getProjectIdFromToken, tenant_claim.
  destruct (decodeJwtPayload_total token) as [p ->]. simpl.
  destruct (truthy p) eqn:Hp; simpl.
  - rewrite (get_prop_truthy _ _ Hp). simpl. rewrite typeof_string.
    destruct (opt_prop (opt_prop p "app_metadata") "project_id"); reflexivity.
  - rewrite (opt_prop_falsy p) by exact Hp. reflexivity.
Qed.

(** The extractor of the SDK returns it unless it is empty. *)
Lemma sdk_extractor_spec (token : string) :
  AuthService.getProjectIdFromToken token =
    Ok (match tenant_claim token with
        | Some claim => if String.eqb claim EmptyString then None else Some claim
        | None => None
        end).
Proof.
  unfold AuthService.getProjectIdFromToken, tenant_claim.
  destruct (decodeJwtPayload_total token) as [p ->]. simpl.
  destruct (truthy p) eqn:Hp; simpl.
  - rewrite (get_prop_truthy _ _ Hp). simpl.
    set (am := opt_prop p "app_metadata").
    destruct (truthy (opt_prop am "project_id")) eqn:Hc.
    + assert (Ham : truthy am = true).
      { destruct (truthy am) eqn:Ham; [reflexivity|].
        rewrite (opt_prop_falsy am) in Hc by exact Ham. discriminate. }
      rewrite (get_prop_truthy _ _ Ham). simpl. rewrite typeof_string.
      destruct (opt_prop am "project_id") eqn:Hv; simpl; try reflexivity.
      simpl in Hc. destruct (String.eqb s EmptyString); [discriminate|reflexivity].
    + destruct (opt_prop am "project_id") eqn:Hv; simpl; try reflexivity.
      simpl in Hc. destruct (String.eqb s EmptyString); [reflexivity|discriminate].
  - rewrite (opt_prop_falsy p) by exact Hp. reflexivity.
Qed.

Lemma str_falsy_disabled (expected : option string) :
  str_falsy expected || bool_decide (expected = Some "dev") = validation_disabled expected.
Proof.
  destruct expected as [e|]; simpl; [|reflexivity].
  destruct (String.eqb_spec e EmptyString) as [->|Hne]; simpl; [reflexivity|].
  destruct (String.eqb_spec e "dev") as [->|Hd].
  - reflexivity.
  - apply bool_decide_eq_false. congruence.
Qed.

Lemma validateProjectId_spec (expected : option string) (token : string) :
  Supabase.validateProjectId expected token = Ok (validate_nonempty expected token).
Proof.
  unfold Supabase.validateProjectId, validate_nonempty.
  rewrite str_falsy_disabled.
  destruct (validation_disabled expected); [reflexivity|].
  rewrite site_extractor_spec. simpl.
  destruct (tenant_claim token) as [c|]; simpl; [|reflexivity].
  destruct (String.eqb c EmptyString); reflexivity.
Qed.

Lemma validateSessionProject_spec (projectId token : string) :
  validateSessionProject projectId token = Ok (validate_nonempty (Some projectId) token).
Proof.
  unfold validateSessionProject, validate_nonempty. simpl.
  destruct (String.eqb projectId EmptyString || String.eqb projectId "dev"); [reflexivity|].
  rewrite sdk_extractor_spec.
  destruct (tenant_claim token) as [c|]; [|reflexivity].
  destruct (String.eqb c EmptyString) eqn:Hc; simpl; [reflexivity|].
  rewrite Hc. simpl.
  destruct (bool_decide (Some c = Some projectId)); reflexivity.
Qed.

(** C2, as amended.  Both validators compute, on every token and without
    throwing, the reference validator in which an empty tenant claim counts as
    an absent one: true when no expected tenant is configured or it is [dev];
    otherwise true iff the decoded claim, when there is a non-empty one, is
    exactly the expected tenant; and true when the claim is absent or
    empty. *)
Theorem validators_refine_nonempty_reference (expected : option string) (token : string) :
  Supabase.validateProjectId expected token = Ok (validate_nonempty expected token)
  /\ (forall projectId : string,
      validateSessionProject projectId token = Ok (validate_nonempty (Some projectId) token))
  /\ (validation_disabled expected = true -> validate_nonempty expected token = true)
  /\ (validation_disabled expected = false ->
      forall claim, tenant_claim token = Some claim -> claim <> EmptyString ->
      (validate_nonempty expected token = true <-> Some claim = expected))
  /\ (validation_disabled expected = false ->
      tenant_claim token = None \/ tenant_claim token = Some EmptyString ->
      validate_nonempty expected token = true).
Proof.
  split; [apply validateProjectId_spec|].
  split; [intros; apply validateSessionProject_spec|].
  unfold validate_nonempty. repeat split.
  - intros ->. reflexivity.
  - rewrite H, H0. destruct (String.eqb_spec claim EmptyString); [contradiction|].
    apply bool_decide_eq_true.
  - rewrite H, H0. destruct (String.eqb_spec claim EmptyString); [contradiction|].
    apply bool_decide_eq_true.
  - intros Hd [Hc|Hc]; rewrite Hd, Hc; reflexivity.
Qed.

(** C10. When the payload of a three-segment token is an object whose
    [app_metadata] is an object with a [project_id] that is not a string, both
    extractors return [null] and both validators return [true], whatever
    tenant is expected. *)
Theorem wrongly_typed_claim_fails_open
  (token text : string) (props meta : list (string * value)) (claim : value)
  (expected : option string) (projectId : string) :
  count_char "." token = 2%nat ->
  atob (payload_base64 token) = Some text ->
  JSON_parse text = Some (VObj props) ->
  assoc "app_metadata" props = Some (VObj meta) ->
  assoc "project_id" meta = Some claim ->
  (forall s, claim <> VStr s) ->
  Supabase.getProjectIdFromToken token = Ok None
  /\ AuthService.getProjectIdFromToken token = Ok None
  /\ Supabase.validateProjectId expected token = Ok true
  /\ validateSessionProject projectId token = Ok true.
Proof.
  intros Hn Ha Hp Hm Hc Hs.
  assert (Ht : tenant_claim token = None).
  { unfold tenant_claim. rewrite decode_three_segments, Ha, Hp by exact Hn.
    simpl. rewrite Hm. simpl. rewrite Hc. simpl.
    destruct claim; try reflexivity. exfalso. eapply Hs. reflexivity. }
  rewrite site_extractor_spec, sdk_extractor_spec, validateProjectId_spec,
    validateSessionProject_spec.
  unfold validate_nonempty. rewrite Ht.
  repeat split.
  - destruct (validation_disabled expected); reflexivity.
  - destruct (validation_disabled (Some projectId)); reflexivity.
Qed.

End DecoderFacts.

Lemma decode_malformed_no_claims_witness :
  decodeJwtPayload "not-a-token" = Ok VNull
  /\ decodeJwtPayload "a.b.c.d" = Ok VNull
  /\ decodeJwtPayload "h.!!!.s" = Ok VNull
  /\ decodeJwtPayload "h.bm90anNvbg.s" = Ok VNull.
Proof.
  split; [|split; [|split]].
  - destruct (decode_malformed_no_claims "not-a-token") as (_ & H & _).
    apply H. simpl. lia.
  - destruct (decode_malformed_no_claims "a.b.c.d") as (_ & H & _).
    apply H. simpl. lia.
  - destruct (decode_malformed_no_claims "h.!!!.s") as (_ & _ & H & _).
    apply H; reflexivity.
  - destruct (decode_malformed_no_claims "h.bm90anNvbg.s") as (_ & _ & _ & H & _).
    apply (H eq_refl "notjson"); reflexivity.
Defined.

Lemma validators_refine_nonempty_reference_witness :
  validation_disabled (Some "tenant-b") = false
  /\ tenant_claim tenant_a_token = Some "tenant-a"
  /\ Supabase.validateProjectId (Some "tenant-b") tenant_a_token = Ok false
  /\ validateSessionProject "tenant-a" tenant_a_token = Ok true
  /\ validate_nonempty (Some "dev") tenant_a_token = true
  /\ validate_nonempty (Some "tenant-b") empty_claim_token = true.
Proof.
  pose proof (validators_refine_nonempty_reference (Some "tenant-b") tenant_a_token)
    as (Hsite & _ & _ & _ & _).
  pose proof (validators_refine_nonempty_reference (Some "dev") tenant_a_token)
    as (_ & Hsdk & Hdev & _ & _).
  pose proof (validators_refine_nonempty_reference (Some "tenant-b") empty_claim_token)
    as (_ & _ & _ & _ & Hempty).
  split; [reflexivity|]. split; [reflexivity|].
  split; [rewrite Hsite; reflexivity|].
  split; [rewrite Hsdk; reflexivity|].
  split; [apply Hdev; reflexivity|].
  apply Hempty; [reflexivity|right; reflexivity].
Defined.

(** C2, as stated, fails: for a token whose tenant claim is the empty
    string and an expected tenant [tenant-a], the reference definition of the
    specification answers false (the decoded claim differs from the expected
    tenant), and both validators answer true. *)
Lemma validators_differ_on_empty_claim :
  tenant_claim empty_claim_token = Some EmptyString
  /\ validate_reference (Some "tenant-a") empty_claim_token = false
  /\ Supabase.validateProjectId (Some "tenant-a") empty_claim_token = Ok true
  /\ validateSessionProject "tenant-a" empty_claim_token = Ok true.
Proof. vm_compute. repeat split; reflexivity. Qed.

Lemma wrongly_typed_claim_fails_open_witness :
  Supabase.getProjectIdFromToken numeric_claim_token = Ok None
  /\ AuthService.getProjectIdFromToken numeric_claim_token = Ok None
  /\ Supabase.validateProjectId (Some "tenant-a") numeric_claim_token = Ok true
  /\ validateSessionProject "tenant-a" numeric_claim_token = Ok true.
Proof.
  eapply (wrongly_typed_claim_fails_open numeric_claim_token _
           [("app_metadata", VObj [("project_id", VNum 42 0)])]
           [("project_id", VNum 42 0)] (VNum 42 0)).
  - reflexivity.
  - reflexivity.
  - reflexivity.
  - reflexivity.
  - reflexivity.
  - intros s. discriminate.
Defined.

(** ** Route guards *)

Lemma append_cons (a : ascii) (p t : string) : String a p ++ t = String a (p ++ t).
Proof. reflexivity. Qed.

Lemma startsWith_spec (s p : string) :
  startsWith s p = true <-> exists t, s = p ++ t.
Proof.
  unfold startsWith. revert s.
  induction p as [|a p IH]; intros s.
  - split; [intros _; exists s; reflexivity|intros _; destruct s; reflexivity].
  - destruct s as [|b s]; simpl.
    + split; [discriminate|intros [t Ht]; rewrite append_cons in Ht; discriminate].
    + destruct (Ascii.ascii_dec a b) as [->|Hne].
      * rewrite IH. split; intros [t Ht]; exists t; rewrite append_cons in *; congruence.
      * split; [discriminate|intros [t Ht]; rewrite append_cons in Ht; congruence].
Qed.

(** The wording of the specification: [path] is one of the configured
    prefixes, or continues a non-root prefix after a slash. *)
Lemma existsb_route (f : string -> bool) (P : string -> Prop) (routes : list string) :
  (forall r, f r = true <-> P r) ->
  existsb f routes = true <-> exists r, In r routes /\ P r.
Proof.
  intros Hf. rewrite existsb_exists.
  split; intros (r & Hin & Hr); exists r; split; auto; apply Hf; exact Hr.
Qed.

(** C4. For every list of public prefixes and every path, both guards
    classify the path as public iff it equals one of the prefixes, or, for
    some prefix other than the root, starts with that prefix followed by a
    slash; the root prefix alone matches no path but the root. *)
Theorem public_route_characterisation (routes : list string) (pathname : string) :
  (SdkGuard.isPublicRoute routes pathname = true <->
     exists r, In r routes /\
       (pathname = r \/ (r <> "/" /\ exists t, pathname = (r ++ "/") ++ t)))
  /\ (SiteGuard.isPublicRouteIn routes pathname = true <->
     exists r, In r routes /\
       (pathname = r \/ (r <> "/" /\ exists t, pathname = (r ++ "/") ++ t)))
  /\ (SdkGuard.isPublicRoute ["/"] pathname = true <-> pathname = "/")
  /\ (SiteGuard.isPublicRouteIn ["/"] pathname = true <-> pathname = "/").
Proof.
  split; [|split; [|split]].
  - apply existsb_route. intros r.
    destruct (String.eqb_spec r "/") as [->|Hr].
    + rewrite String.eqb_eq. split; [auto|intros [H|[H _]]; [exact H|contradiction]].
    + rewrite orb_true_iff, String.eqb_eq, startsWith_spec.
      split; [intros [H|H]; auto|intros [H|[_ H]]; auto].
  - apply existsb_route. intros r.
    rewrite orb_true_iff, andb_true_iff, negb_true_iff, String.eqb_eq, startsWith_spec.
    destruct (String.eqb_spec r "/") as [->|Hr].
    + split; [intros [H|[H _]]; [auto|discriminate]|intros [H|[H _]]; [auto|contradiction]].
    + split; [intros [H|[_ H]]; auto|intros [H|[_ H]]; auto].
  - simpl. rewrite orb_false_r. apply String.eqb_eq.
  - simpl. rewrite orb_false_r, orb_false_r. apply String.eqb_eq.
Qed.

(** C3, as amended.  While the session is loading both guards render the
    placeholder and navigate nowhere.  An anonymous visitor is shown a public
    path and sent to the login path from a protected one.  An authenticated
    user is shown every protected path; the site guard shows the root and
    sends the user to [/home] from every other public path; the SDK guard
    sends the user to the (non-empty) authenticated-home path from every path
    it classifies as public, the root included.  The SDK guard navigates
    through the callback or the location, whichever exists. *)
Theorem route_guard_decisions (p : SdkGuard.Props) (pathname : string) :
  let home := default "/home" (SdkGuard.authenticatedRedirect p) in
  let login := default "/login" (SdkGuard.redirectTo p) in
  let public_sdk := SdkGuard.isPublicRoute (default [] (SdkGuard.publicRoutes p)) pathname in
  (forall isAuthenticated,
      SdkGuard.LayoutProtection p pathname true isAuthenticated = mkOutcome ViewLoading [])
  /\ (forall user, SiteGuard.LayoutProtection pathname user true = mkOutcome ViewLoading [])
  /\ (public_sdk = true ->
      SdkGuard.LayoutProtection p pathname false false = mkOutcome ViewChildren [])
  /\ (SiteGuard.isPublicRoute pathname = true ->
      SiteGuard.LayoutProtection pathname false false = mkOutcome ViewChildren [])
  /\ (public_sdk = false ->
      SdkGuard.LayoutProtection p pathname false false
      = mkOutcome ViewNothing (SdkGuard.redirect p login))
  /\ (SiteGuard.isPublicRoute pathname = false ->
      SiteGuard.LayoutProtection pathname false false
      = mkOutcome ViewNothing [ViaRouter "/login"])
  /\ SiteGuard.LayoutProtection "/" true false = mkOutcome ViewChildren []
  /\ (SiteGuard.isPublicRoute pathname = true -> pathname <> "/" ->
      SiteGuard.LayoutProtection pathname true false
      = mkOutcome ViewNothing [ViaRouter SiteGuard.AUTHENTICATED_HOME])
  /\ (SiteGuard.isPublicRoute pathname = false ->
      SiteGuard.LayoutProtection pathname true false = mkOutcome ViewChildren [])
  /\ (public_sdk = true -> home <> EmptyString ->
      SdkGuard.LayoutProtection p pathname false true
      = mkOutcome ViewNothing (SdkGuard.redirect p home))
  /\ (public_sdk = false ->
      SdkGuard.LayoutProtection p pathname false true = mkOutcome ViewChildren [])
  /\ (SdkGuard.onRedirect p || SdkGuard.has_window p = true ->
      forall target, map nav_path (SdkGuard.redirect p target) = [target]).
Proof.
  intros home login public_sdk.
  repeat match goal with |- _ /\ _ => split end.
  - intros a. reflexivity.
  - intros u. reflexivity.
  - intros H. unfold SdkGuard.LayoutProtection. fold public_sdk. rewrite H. reflexivity.
  - intros H. unfold SiteGuard.LayoutProtection. rewrite H. reflexivity.
  - intros H. unfold SdkGuard.LayoutProtection. fold public_sdk. rewrite H. reflexivity.
  - intros H. unfold SiteGuard.LayoutProtection. rewrite H. reflexivity.
  - reflexivity.
  - intros H Hr. unfold SiteGuard.LayoutProtection. rewrite H.
    destruct (String.eqb_spec pathname "/") as [->|_]; [contradiction|reflexivity].
  - intros H. unfold SiteGuard.LayoutProtection. rewrite H. reflexivity.
  - intros H Hh. unfold SdkGuard.LayoutProtection. fold public_sdk home. rewrite H.
    destruct (String.eqb_spec home EmptyString) as [Heq|_]; [contradiction|reflexivity].
  - intros H. unfold SdkGuard.LayoutProtection. fold public_sdk. rewrite H. reflexivity.
  - intros H target. unfold SdkGuard.redirect.
    destruct (SdkGuard.onRedirect p); [reflexivity|].
    destruct (SdkGuard.has_window p); [reflexivity|discriminate].
Qed.

Lemma route_guard_decisions_witness :
  SdkGuard.LayoutProtection root_public_props "/login" false false = mkOutcome ViewChildren []
  /\ SdkGuard.LayoutProtection root_public_props "/dashboard" false false
     = mkOutcome ViewNothing [ViaLocation "/login"]
  /\ SdkGuard.LayoutProtection root_public_props "/login" false true
     = mkOutcome ViewNothing [ViaLocation "/home"]
  /\ SdkGuard.LayoutProtection root_public_props "/dashboard" false true
     = mkOutcome ViewChildren []
  /\ SiteGuard.LayoutProtection "/login" false false = mkOutcome ViewChildren []
  /\ SiteGuard.LayoutProtection "/login" true false = mkOutcome ViewNothing [ViaRouter "/home"]
  /\ SiteGuard.LayoutProtection "/dashboard" false false
     = mkOutcome ViewNothing [ViaRouter "/login"]
  /\ SiteGuard.LayoutProtection "/dashboard" true false = mkOutcome ViewChildren []
  /\ map nav_path (SdkGuard.redirect root_public_props "/home") = ["/home"].
Proof.
  pose proof (route_guard_decisions root_public_props "/login")
    as (_ & _ & H1 & H2 & _ & _ & _ & H3 & _ & H4 & _ & H5).
  pose proof (route_guard_decisions root_public_props "/dashboard")
    as (_ & _ & _ & _ & H6 & H7 & _ & _ & H8 & _ & H9 & _).
  repeat match goal with |- _ /\ _ => split end.
  - apply H1. reflexivity.
  - apply H6. reflexivity.
  - apply H4; [reflexivity|discriminate].
  - apply H9. reflexivity.
  - apply H2. reflexivity.
  - apply H3; [reflexivity|discriminate].
  - apply H7. reflexivity.
  - apply H8. reflexivity.
  - apply H5. reflexivity.
Defined.

(** C3, as stated, fails for the SDK guard: with the root among the public
    routes, an authenticated user on the root is not shown the page but sent
    to the authenticated-home path. *)
Lemma sdk_guard_redirects_from_public_root :
  SdkGuard.isPublicRoute ["/"; "/login"] "/" = true
  /\ SdkGuard.LayoutProtection root_public_props "/" false true
     = mkOutcome ViewNothing [ViaLocation "/home"]
  /\ SdkGuard.LayoutProtection root_public_props "/" false true
     <> mkOutcome ViewChildren [].
Proof. repeat split; [reflexivity ..|discriminate]. Qed.

(** ** Session store *)

Section StoreFacts.
Context `{RT : Runtime}.

Lemma clearStoredSession_run (w : AuthService.World) :
  AuthService.clearStoredSession w = (Ok tt, cleared w).
Proof.
  unfold AuthService.clearStoredSession, cleared, bind, gets, try_catch,
    AuthService.removeItem, ret.
  destruct (AuthService.window_defined w) eqn:Hw; simpl; [|reflexivity].
  destruct (AuthService.ls_denied w) eqn:Hd; simpl; [reflexivity|].
  repeat (rewrite Hd; simpl). reflexivity.
Qed.

Lemma getStoredSession_run (w : AuthService.World) :
  AuthService.getStoredSession w = (Ok (fst (loaded w)), snd (loaded w)).
Proof.
  unfold AuthService.getStoredSession, loaded, bind, gets, try_catch,
    AuthService.getItem, ret, lift, AuthService.now.
  destruct (AuthService.window_defined w) eqn:Hw; simpl; [|reflexivity].
  destruct (AuthService.ls_denied w) eqn:Hd; simpl; [reflexivity|].
  destruct (AuthService.ls_items w !! AuthService.SESSION) as [blob|] eqn:Hb; simpl;
    [|reflexivity].
  destruct (String.eqb blob EmptyString) eqn:He; simpl; [reflexivity|].
  unfold js_JSON_parse.
  destruct (JSON_parse blob) as [session|] eqn:Hp; simpl; [|reflexivity].
  destruct (get_prop session "expiresAt") as [exp|e] eqn:Hx; simpl; [|reflexivity].
  destruct (num_lt (date_time exp) (Num (AuthService.clock w (AuthService.clock_reads w))))
    eqn:Hlt; simpl; [|reflexivity].
  rewrite clearStoredSession_run. reflexivity.
Qed.

Lemma storeSession_run (session : value) (w : AuthService.World) :
  AuthService.window_defined w = true ->
  AuthService.ls_denied w = false ->
  AuthService.ls_full w = false ->
  truthy session = true ->
  AuthService.storeSession session w = (Ok tt, stored session w).
Proof.
  intros Hw Hd Hf Ht.
  unfold AuthService.storeSession, stored, bind, gets, try_catch, AuthService.setItem, ret, lift.
  rewrite Hw. simpl. rewrite Hd, Hf. simpl.
  rewrite !(get_prop_truthy _ _ Ht). simpl.
  repeat (rewrite ?Hd, ?Hf; simpl). reflexivity.
Qed.

Lemma cleared_lookup (w : AuthService.World) :
  AuthService.window_defined w = true ->
  AuthService.ls_denied w = false ->
  AuthService.ls_items (cleared w) !! AuthService.SESSION = None
  /\ AuthService.ls_items (cleared w) !! AuthService.ACCESS_TOKEN = None
  /\ AuthService.ls_items (cleared w) !! AuthService.REFRESH_TOKEN = None.
Proof.
  intros Hw Hd. unfold cleared. rewrite Hw, Hd. simpl.
  repeat split.
  - rewrite lookup_delete_ne by discriminate.
    rewrite lookup_delete_ne by discriminate.
    apply lookup_delete_eq.
  - rewrite lookup_delete_ne by discriminate. apply lookup_delete_eq.
  - apply lookup_delete_eq.
Qed.

Lemma cleared_device (w : AuthService.World) : device (cleared w) = device w.
Proof. unfold cleared. destruct (_ && _); reflexivity. Qed.


Lemma isAuthenticated_run (w : AuthService.World) :
  AuthService.isAuthenticated w
  = (Ok (negb (AuthService.is_null (fst (loaded w)))), snd (loaded w)).
Proof.
  unfold AuthService.isAuthenticated, bind. rewrite getStoredSession_run. reflexivity.
Qed.

Lemma getAccessToken_run (w : AuthService.World) :
  AuthService.getAccessToken w
  = (Ok (match opt_prop (fst (loaded w)) "accessToken" with
         | VUndef | VNull => VNull
         | a => a
         end), snd (loaded w)).
Proof.
  unfold AuthService.getAccessToken, bind. rewrite getStoredSession_run. reflexivity.
Qed.

(** C9. When the session entry is not valid JSON, or the storage cannot be
    read, [getStoredSession] returns [null] without throwing and leaves the
    world as it is; [isAuthenticated] then answers false and
    [getAccessToken] null. *)
Theorem corrupted_store_is_no_session (w : AuthService.World) :
  AuthService.ls_denied w = true
  \/ (exists blob, AuthService.ls_items w !! AuthService.SESSION = Some blob
                   /\ JSON_parse blob = None) ->
  AuthService.getStoredSession w = (Ok VNull, w)
  /\ AuthService.isAuthenticated w = (Ok false, w)
  /\ AuthService.getAccessToken w = (Ok VNull, w).
Proof.
  intros H.
  assert (Hl : loaded w = (VNull, w)).
  { unfold loaded.
    destruct (AuthService.window_defined w); simpl; [|reflexivity].
    destruct H as [->|(blob & Hb & Hp)]; [reflexivity|].
    destruct (AuthService.ls_denied w); [reflexivity|].
    rewrite Hb, Hp. destruct (String.eqb blob EmptyString); reflexivity. }
  rewrite getStoredSession_run, isAuthenticated_run, getAccessToken_run, Hl.
  repeat split.
Qed.

Lemma user_value_inj (u u' : ZyloAppUser) : user_value u = user_value u' -> u = u'.
Proof.
  destruct u as [i e d p v pr c up m], u' as [i' e' d' p' v' pr' c' up' m'].
  unfold user_value. simpl.
  destruct d, d', p, p', m, m'; simpl; intros H; try discriminate H;
    injection H; intros; subst; reflexivity.
Qed.

Lemma session_value_inj (s s' : ZyloAuthSession) :
  session_value s = session_value s' -> s = s'.
Proof.
  destruct s as [u a r x], s' as [u' a' r' x']. intros H.
  pose proof (f_equal (fun v => opt_prop v "user") H) as Hu.
  change (user_value u = user_value u') in Hu.
  pose proof (f_equal (fun v => opt_prop v "accessToken") H) as Ha.
  pose proof (f_equal (fun v => opt_prop v "refreshToken") H) as Hr.
  pose proof (f_equal (fun v => opt_prop v "expiresAt") H) as Hx.
  apply user_value_inj in Hu. simpl in Ha, Hr, Hx. congruence.
Qed.

(** C7. In a browser whose storage takes the writes, a session that was
    stored is loaded back equal to itself, field for field, by any later load
    that finds the storage as the store left it and whose clock does not read
    past the session's expiry ([JSON.stringify] giving a non-empty text for
    the session and [JSON.parse] undoing it).  And whenever the stored entry parses to a session whose expiry
    lies before the clock reading of the load, the load returns [null] and
    removes the three entries. *)
Theorem session_store_round_trip :
  (forall (s : ZyloAuthSession) (w w2 : AuthService.World),
      AuthService.window_defined w = true ->
      AuthService.ls_denied w = false ->
      AuthService.ls_full w = false ->
      JSON_stringify (session_value s) <> EmptyString ->
      JSON_parse (JSON_stringify (session_value s)) = Some (session_value s) ->
      AuthService.window_defined w2 = true ->
      AuthService.ls_denied w2 = false ->
      AuthService.ls_items w2
      = AuthService.ls_items (snd (AuthService.storeSession (session_value s) w)) ->
      num_lt (date_time (VStr (expiresAt s)))
             (Num (AuthService.clock w2 (AuthService.clock_reads w2))) = false ->
      fst (AuthService.getStoredSession w2) = Ok (session_value s)
      /\ forall s', session_value s' = session_value s -> s' = s)
  /\ (forall (w : AuthService.World) (blob : string) (session exp : value),
      AuthService.window_defined w = true ->
      AuthService.ls_denied w = false ->
      AuthService.ls_items w !! AuthService.SESSION = Some blob ->
      blob <> EmptyString ->
      JSON_parse blob = Some session ->
      get_prop session "expiresAt" = Ok exp ->
      num_lt (date_time exp) (Num (AuthService.clock w (AuthService.clock_reads w))) = true ->
      exists w',
        AuthService.getStoredSession w = (Ok VNull, w')
        /\ AuthService.ls_items w' !! AuthService.SESSION = None
        /\ AuthService.ls_items w' !! AuthService.ACCESS_TOKEN = None
        /\ AuthService.ls_items w' !! AuthService.REFRESH_TOKEN = None).
Proof.
  split.
  - intros s w w2 Hw Hd Hf Hne0 Hrt Hw2 Hd2 Hitems Hexp.
    split; [|intros s'; apply session_value_inj].
    rewrite storeSession_run in Hitems by (assumption || reflexivity).
    rewrite getStoredSession_run. simpl. unfold loaded.
    rewrite Hw2, Hd2, Hitems. simpl.
    rewrite lookup_insert_ne by discriminate.
    rewrite lookup_insert_ne by discriminate.
    rewrite lookup_insert_eq.
    assert (Hne : String.eqb (JSON_stringify (session_value s)) EmptyString = false).
    { destruct (String.eqb_spec (JSON_stringify (session_value s)) EmptyString) as [He|];
        [contradiction|reflexivity]. }
    rewrite Hne, Hrt. simpl. rewrite Hexp. reflexivity.
  - intros w blob session exp Hw Hd Hb Hne Hp Hx Hlt.
    exists (cleared (AuthService.tick w)).
    rewrite getStoredSession_run. unfold loaded.
    rewrite Hw, Hd, Hb, Hp, Hx, Hlt. simpl.
    destruct (String.eqb_spec blob EmptyString) as [He|_]; [contradiction|].
    split; [reflexivity|].
    apply cleared_lookup; assumption.
Qed.

End StoreFacts.
(** ** Sign-out *)

Lemma pd_ret {A} (a : A) : preserves_device (ret a).
Proof. intros w r w' H. inversion H. reflexivity. Qed.

Lemma pd_throw {A} (e : exn) : preserves_device (@throw _ A e).
Proof. intros w r w' H. inversion H. reflexivity. Qed.

Lemma pd_lift {A} (x : result A) : preserves_device (lift x).
Proof. intros w r w' H. inversion H. reflexivity. Qed.

Lemma pd_gets {A} (f : AuthService.World -> A) : preserves_device (gets f).
Proof. intros w r w' H. inversion H. reflexivity. Qed.

Lemma pd_bind {A B} (m : M AuthService.World A) (k : A -> M AuthService.World B) :
  preserves_device m -> (forall a, preserves_device (k a)) -> preserves_device (bind m k).
Proof.
  intros Hm Hk w r w' H. unfold bind in H.
  destruct (m w) as [[a|e] w1] eqn:Hmw.
  - rewrite (Hk a _ _ _ H). eapply Hm. exact Hmw.
  - inversion H. subst. eapply Hm. exact Hmw.
Qed.

Lemma pd_try_catch {A} (m : M AuthService.World A) (h : exn -> M AuthService.World A) :
  preserves_device m -> (forall e, preserves_device (h e)) -> preserves_device (try_catch m h).
Proof.
  intros Hm Hh w r w' H. unfold try_catch in H.
  destruct (m w) as [[a|e] w1] eqn:Hmw.
  - inversion H. subst. eapply Hm. exact Hmw.
  - rewrite (Hh e _ _ _ H). eapply Hm. exact Hmw.
Qed.

Lemma pd_now : preserves_device AuthService.now.
Proof. intros w r w' H. inversion H. reflexivity. Qed.

Lemma pd_fetch (req : Request) : preserves_device (AuthService.fetch req).
Proof.
  intros w r w' H. unfold AuthService.fetch in H.
  destruct (AuthService.backend w (AuthService.net_log w) req); inversion H; reflexivity.
Qed.

Section SignOutFacts.
Context `{RT : Runtime}.

Lemma pd_getStoredSession : preserves_device AuthService.getStoredSession.
Proof.
  intros w r w' H. rewrite getStoredSession_run in H. inversion H. subst. clear H.
  unfold loaded.
  repeat match goal with
         | |- context [if ?b then _ else _] => destruct b
         | |- context [match ?x with _ => _ end] => destruct x
         end; simpl; try reflexivity; apply (cleared_device (AuthService.tick w)).
Qed.

Lemma pd_apiRequest (endpoint method : string) (body : value) :
  preserves_device (AuthService.apiRequest endpoint method body).
Proof.
  unfold AuthService.apiRequest.
  repeat first
    [ apply pd_ret | apply pd_throw | apply pd_lift | apply pd_gets | apply pd_fetch
    | apply pd_getStoredSession
    | apply pd_bind; [|intros ?]
    | match goal with
      | |- preserves_device (if ?b then _ else _) => destruct b
      end ].
Qed.

(** [signOut] of the auth service: it returns normally and leaves a world
    cleared of the session entries. *)
Lemma sdk_signOut_run (w : AuthService.World) :
  exists w1,
    AuthService.signOut w = (Ok tt, cleared w1) /\ device w1 = device w.
Proof.
  unfold AuthService.signOut, bind at 1.
  rewrite getStoredSession_run.
  assert (Hl : device (snd (loaded w)) = device w).
  { eapply pd_getStoredSession. apply getStoredSession_run. }
  set (w0 := snd (loaded w)) in *.
  unfold bind at 1.
  destruct (truthy (fst (loaded w))).
  - unfold try_catch.
    match goal with
    | |- context [match ?m w0 with _ => _ end] => destruct (m w0) as [[u|e] w1] eqn:Hm
    end.
    + exists w1. rewrite clearStoredSession_run. split; [reflexivity|].
      rewrite <- Hl. revert Hm. 
      apply pd_bind; [apply pd_lift|intros a].
      apply pd_bind; [apply pd_apiRequest|intros _; apply pd_ret].
    + exists w1. simpl. rewrite clearStoredSession_run. split; [reflexivity|].
      rewrite <- Hl. revert Hm.
      apply pd_bind; [apply pd_lift|intros a].
      apply pd_bind; [apply pd_apiRequest|intros _; apply pd_ret].
  - exists w0. simpl. rewrite clearStoredSession_run. split; [reflexivity|exact Hl].
Qed.

End SignOutFacts.

(** [getSession] of the auth service gives back the stored session as it
    is, without any call to the backend, unless that session is within five
    minutes of its expiry. *)
Lemma getSession_returns_stored `{RT : Runtime}
  (w : AuthService.World) (session exp : value) :
  loaded w = (session, AuthService.tick w) ->
  truthy session = true ->
  get_prop session "expiresAt" = Ok exp ->
  num_lt (date_time exp)
         (Num (AuthService.clock w (S (AuthService.clock_reads w)) + 5 * 60 * 1000)) = false ->
  AuthService.getSession w = (Ok session, AuthService.tick (AuthService.tick w))
  /\ AuthService.net_log (AuthService.tick (AuthService.tick w)) = AuthService.net_log w.
Proof.
  intros Hl Ht Hx Hfar. split; [|reflexivity].
  unfold AuthService.getSession, bind at 1. rewrite getStoredSession_run, Hl.
  cbn [fst snd]. rewrite Ht. cbn [negb].
  unfold bind at 1, lift. rewrite Hx.
  unfold bind, AuthService.now. cbn [AuthService.clock AuthService.clock_reads AuthService.tick].
  rewrite Hfar. reflexivity.
Qed.


Lemma corrupted_store_is_no_session_witness :
  (AuthService.getStoredSession corrupted_world = (Ok VNull, corrupted_world)
   /\ AuthService.isAuthenticated corrupted_world = (Ok false, corrupted_world)
   /\ AuthService.getAccessToken corrupted_world = (Ok VNull, corrupted_world))
  /\ (AuthService.getStoredSession denied_world = (Ok VNull, denied_world)
      /\ AuthService.isAuthenticated denied_world = (Ok false, denied_world)
      /\ AuthService.getAccessToken denied_world = (Ok VNull, denied_world)).
Proof.
  split.
  - apply (corrupted_store_is_no_session corrupted_world).
    right. exists "{not json". split; reflexivity.
  - apply (corrupted_store_is_no_session denied_world).
    left. reflexivity.
Defined.

Lemma session_store_round_trip_witness :
  fst (AuthService.getStoredSession (signed_in_world 1893455000000))
  = Ok (session_value example_session)
  /\ exists w',
      AuthService.getStoredSession (signed_in_world 1893456000001) = (Ok VNull, w')
      /\ AuthService.ls_items w' !! AuthService.SESSION = None
      /\ AuthService.ls_items w' !! AuthService.ACCESS_TOKEN = None
      /\ AuthService.ls_items w' !! AuthService.REFRESH_TOKEN = None.
Proof.
  destruct (@session_store_round_trip RefRuntime) as [Hload Hexpired].
  split.
  - apply (Hload example_session
             (example_world ∅ 1893455000000 unreachable_backend)
             (signed_in_world 1893455000000));
      try reflexivity.
    intros H. vm_compute in H. discriminate H.
  - eapply (Hexpired (signed_in_world 1893456000001)
              (JSON_stringify (session_value example_session))
              (session_value example_session)
              (VStr (expiresAt example_session)));
      try reflexivity.
    intros H. vm_compute in H. discriminate H.
Defined.


(** ** Token cache *)

Section CacheFacts.
Context `{RT : Runtime}.
Context {E : Type}.
Variable env_now : E -> Z * E.
Variable auth_getSession : E -> result (option ZyloAuthSession) * E.
Variable sb_getSession : E -> result (option SbSession) * E.
Variable sb_refreshSession : E -> result (option SbSession * bool) * E.

Lemma cache_valid_fresh (st : ClientState E) (token : string) (expiry t : Z) :
  cachedToken st = Some token ->
  token <> EmptyString ->
  tokenExpiry st = Some (Num expiry) ->
  0 <= t ->
  t + EXPIRY_BUFFER < expiry ->
  cache_valid st t = true.
Proof.
  intros Hc Hne He Ht Hlt. unfold cache_valid. rewrite Hc, He. simpl.
  destruct (String.eqb_spec token EmptyString) as [Heq|_]; [contradiction|]. simpl.
  unfold EXPIRY_BUFFER in *.
  destruct (Z.eqb_spec expiry 0) as [H0|_]; [lia|]. simpl.
  apply Z.ltb_lt. lia.
Qed.

Lemma cache_valid_stale (st : ClientState E) (expiry t : Z) :
  tokenExpiry st = Some (Num expiry) ->
  expiry <= t + EXPIRY_BUFFER ->
  cache_valid st t = false.
Proof.
  intros He Hle. unfold cache_valid. rewrite He. simpl.
  replace (t <? expiry - EXPIRY_BUFFER) with false
    by (symmetry; apply Z.ltb_ge; lia).
  rewrite !andb_false_r. reflexivity.
Qed.

(** C5. With a cached token, a clock that reads [t] and a cached expiry
    [expiry]: when [expiry] is strictly more than five minutes after [t] (the
    token being a non-empty string and [t] not before the epoch), both clients
    return the cached token, leave
    the cache alone and do not touch the session provider (the environment
    only sees the clock reading); when [expiry] is five minutes after [t] or
    less, the cache is not used: the session provider is asked, and the token
    and expiry of the session it gives are returned and cached (the site
    client first refreshes a session that is itself within five minutes of
    its expiry, and takes an hour from now when a session tells no expiry). *)
Theorem token_cache_buffer
  (st : ClientState E) (token : string) (expiry t : Z) (e1 : E) :
  cachedToken st = Some token ->
  tokenExpiry st = Some (Num expiry) ->
  env_now (env st) = (t, e1) ->
  (token <> EmptyString -> 0 <= t -> t + 5 * 60 * 1000 < expiry ->
     SdkClient.getValidToken env_now auth_getSession st = (Ok token, with_env e1 st)
     /\ SiteClient.getValidToken env_now sb_getSession sb_refreshSession st
        = (Ok token, with_env e1 st))
  /\ (expiry <= t + 5 * 60 * 1000 ->
      (forall (s : ZyloAuthSession) (e2 : E),
          auth_getSession e1 = (Ok (Some s), e2) ->
          SdkClient.getValidToken env_now auth_getSession st
          = (Ok (accessToken s),
             mkClient (Some (accessToken s)) (Some (date_time (VStr (expiresAt s))))
                      e2 (calls st)))
      /\ (forall (s : SbSession) (e2 : E),
          sb_getSession e1 = (Ok (Some s), e2) ->
          SiteClient.expiry_ms (expires_at s) = 0 \/ t + 5 * 60 * 1000 <= SiteClient.expiry_ms (expires_at s) ->
          SiteClient.getValidToken env_now sb_getSession sb_refreshSession st
          = (Ok (access_token s),
             mkClient (Some (access_token s))
                      (Some (Num (if SiteClient.expiry_ms (expires_at s) =? 0 then t + 3600000
                                  else SiteClient.expiry_ms (expires_at s))))
                      e2 (calls st)))
      /\ (forall (s r : SbSession) (e2 e3 : E),
          sb_getSession e1 = (Ok (Some s), e2) ->
          SiteClient.expiry_ms (expires_at s) <> 0 ->
          SiteClient.expiry_ms (expires_at s) < t + 5 * 60 * 1000 ->
          sb_refreshSession e2 = (Ok (Some r, false), e3) ->
          SiteClient.getValidToken env_now sb_getSession sb_refreshSession st
          = (Ok (access_token r),
             mkClient (Some (access_token r))
                      (Some (Num (if SiteClient.expiry_ms (expires_at r) =? 0 then t + 3600000
                                  else SiteClient.expiry_ms (expires_at r))))
                      e3 (calls st)))).
Proof.
  intros Hc He Hnow. change (5 * 60 * 1000) with EXPIRY_BUFFER. split.
  - intros Hne Ht Hlt.
    pose proof (cache_valid_fresh st token expiry t Hc Hne He Ht Hlt) as Hv.
    unfold SdkClient.getValidToken, SiteClient.getValidToken, bind, now, gets. rewrite Hnow.
    change (cache_valid (with_env e1 st) t) with (cache_valid st t). rewrite Hv.
    simpl. rewrite Hc. split; reflexivity.
  - intros Hle.
    pose proof (cache_valid_stale st expiry t He Hle) as Hv.
    split; [|split].
    + intros s e2 Hs.
      unfold SdkClient.getValidToken, bind, now, gets, SdkClient.getSession. rewrite Hnow.
      change (cache_valid (with_env e1 st) t) with (cache_valid st t). rewrite Hv.
      simpl. rewrite Hs. reflexivity.
    + intros s e2 Hs Hfar.
      unfold SiteClient.getValidToken, bind, now, gets, SiteClient.supabase_getSession. rewrite Hnow.
      change (cache_valid (with_env e1 st) t) with (cache_valid st t). rewrite Hv.
      simpl. rewrite Hs.
      replace (negb (SiteClient.expiry_ms (expires_at s) =? 0)
               && (SiteClient.expiry_ms (expires_at s) - EXPIRY_BUFFER <? t)) with false; [reflexivity|].
      symmetry. destruct Hfar as [-> | Hfar]; [reflexivity|].
      apply andb_false_iff. right. apply Z.ltb_ge. lia.
    + intros s r e2 e3 Hs Hx0 Hnear Hr.
      unfold SiteClient.getValidToken, bind, now, gets, SiteClient.supabase_getSession,
        SiteClient.supabase_refreshSession. rewrite Hnow.
      change (cache_valid (with_env e1 st) t) with (cache_valid st t). rewrite Hv.
      simpl. rewrite Hs.
      replace (negb (SiteClient.expiry_ms (expires_at s) =? 0)
               && (SiteClient.expiry_ms (expires_at s) - EXPIRY_BUFFER <? t)) with true.
      * simpl. rewrite Hr. reflexivity.
      * symmetry. apply andb_true_iff. split.
        -- apply negb_true_iff, Z.eqb_neq. exact Hx0.
        -- apply Z.ltb_lt. lia.
Qed.

End CacheFacts.

Lemma token_cache_buffer_witness :
  (* six minutes before expiry: the cache answers *)
  (SdkClient.getValidToken script_now script_getSession (cached_client 360000 [])
   = (Ok "old-token", cached_client 360000 [])
   /\ SiteClient.getValidToken script_now script_sb_getSession script_sb_refreshSession
        (cached_client 360000 [])
      = (Ok "old-token", cached_client 360000 []))
  (* four minutes before expiry: the session provider answers *)
  /\ SdkClient.getValidToken script_now script_getSession (cached_client 240000 [])
     = (Ok tenant_a_token,
        mkClient (Some tenant_a_token) (Some (Num 1893456000000)) (example_script []) [])
  /\ SiteClient.getValidToken script_now script_sb_getSession script_sb_refreshSession
       (cached_client 240000 [])
     = (Ok tenant_a_token,
        mkClient (Some tenant_a_token) (Some (Num 1893456000000)) (example_script []) []).
Proof.
  pose proof (token_cache_buffer script_now script_getSession script_sb_getSession
                script_sb_refreshSession (cached_client 360000 []) "old-token"
                (example_now + 360000) example_now (example_script [])
                eq_refl eq_refl eq_refl) as [Hhit _].
  pose proof (token_cache_buffer script_now script_getSession script_sb_getSession
                script_sb_refreshSession (cached_client 240000 []) "old-token"
                (example_now + 240000) example_now (example_script [])
                eq_refl eq_refl eq_refl) as [_ Hmiss].
  split.
  - apply Hhit; [discriminate|unfold example_now; lia|unfold example_now; lia].
  - destruct Hmiss as (Hsdk & Hsite & _); [unfold example_now; lia|].
    split.
    + apply (Hsdk example_session (example_script [])). reflexivity.
    + apply (Hsite example_sb_session (example_script [])); [reflexivity|].
      right. vm_compute. discriminate.
Defined.

(** ** Retry on 401 *)

Lemma assoc_obj_set (props : list (string * value)) (k k' : string) (v : value) :
  assoc k (obj_set props k' v) = if String.eqb k k' then Some v else assoc k props.
Proof.
  induction props as [|[k0 v0] props IH]; simpl.
  - reflexivity.
  - destruct (String.eqb_spec k' k0) as [->|Hne]; simpl.
    + destruct (String.eqb k k0); reflexivity.
    + rewrite IH. destruct (String.eqb_spec k k0) as [->|Hk].
      * destruct (String.eqb_spec k0 k') as [Heq|_]; [congruence|reflexivity].
      * reflexivity.
Qed.

Lemma assoc_not_in (k : string) (props : list (string * value)) :
  k ∉ map fst props -> assoc k props = None.
Proof.
  rewrite list_elem_of_In.
  induction props as [|[k0 v0] props IH]; simpl; [reflexivity|].
  intros Hn. destruct (String.eqb_spec k k0) as [->|_]; [tauto|].
  apply IH. tauto.
Qed.

(** With distinct names, a spread gives each name the value the spread
    object has for it, and leaves the other members as they were. *)
Lemma assoc_fold_set (props base : list (string * value)) (k : string) :
  NoDup (map fst props) ->
  assoc k (fold_left (fun acc kv => obj_set acc (fst kv) (snd kv)) props base)
  = match assoc k props with
    | Some v => Some v
    | None => assoc k base
    end.
Proof.
  revert base. induction props as [|[k0 v0] props IH]; intros base Hnd; simpl.
  - reflexivity.
  - inversion Hnd as [|? ? Hnotin Hnd']. subst.
    rewrite IH by exact Hnd'. rewrite assoc_obj_set.
    destruct (String.eqb_spec k k0) as [->|Hne].
    + rewrite (assoc_not_in k0 props Hnotin). reflexivity.
    + reflexivity.
Qed.


Section RetryFacts.
Context `{RT : Runtime}.
Context {E : Type}.
Variable env_now : E -> Z * E.
Variable env_fetch : E -> Request -> FetchOutcome * E.
Variable auth_getSession : E -> result (option ZyloAuthSession) * E.
Variable sb_getSession : E -> result (option SbSession) * E.
Variable sb_refreshSession : E -> result (option SbSession * bool) * E.

Ltac run_cases H :=
  repeat (cbn [env with_env calls fst snd] in H;
          match type of H with
          | context [match ?x with _ => _ end] =>
              lazymatch x with
              | context [match _ with _ => _ end] => fail
              | _ => destruct x
              end
          end).

Lemma sdk_getValidToken_calls (st st' : ClientState E) (r : result string) :
  SdkClient.getValidToken env_now auth_getSession st = (r, st') -> calls st' = calls st.
Proof.
  unfold SdkClient.getValidToken, bind, now, gets, SdkClient.getSession, throw, modify, ret.
  intros H. run_cases H; inversion H; reflexivity.
Qed.

Lemma site_getValidToken_calls (st st' : ClientState E) (r : result string) :
  SiteClient.getValidToken env_now sb_getSession sb_refreshSession st = (r, st') ->
  calls st' = calls st.
Proof.
  unfold SiteClient.getValidToken, bind, now, gets, SiteClient.supabase_getSession, SiteClient.supabase_refreshSession,
    throw, modify, ret.
  intros H. run_cases H; inversion H; reflexivity.
Qed.

(** With an emptied cache the SDK client takes its token from the session
    provider, whatever the clock reads. *)
Lemma sdk_getValidToken_empty_cache (e : E) (log : list Request) :
  SdkClient.getValidToken env_now auth_getSession (mkClient None None e log)
  = match auth_getSession (snd (env_now e)) with
    | (Ok (Some s), e') =>
        (Ok (accessToken s),
         mkClient (Some (accessToken s)) (Some (date_time (VStr (expiresAt s)))) e' log)
    | (Ok None, e') =>
        (Throw (JsError "No authenticated session. Please sign in first."),
         mkClient None None e' log)
    | (Throw x, e') => (Throw x, mkClient None None e' log)
    end.
Proof.
  unfold SdkClient.getValidToken, bind, now, gets, SdkClient.getSession, throw, modify, ret, cache_valid.
  cbn [env]. destruct (env_now e) as [t e1]. simpl.
  destruct (auth_getSession e1) as [[[s|]|x] e2]; reflexivity.
Qed.

Lemma bearer_bearer (headers : gmap string string) (a b : string) :
  bearer (bearer headers a) b = bearer headers b.
Proof. unfold bearer. apply insert_insert_eq. Qed.


Lemma list_app_two {A} (l : list A) (a b : A) : ((l ++ [a]) ++ [b] = l ++ [a; b])%list.
Proof. rewrite <- app_assoc. reflexivity. Qed.





End RetryFacts.




(** When no token can be had after the 401, the backend has received one
    call, not two, and the request fails. *)
Example one_call_when_no_token_after_401 :
  (exists res stf,
      SdkClient.request script_now script_fetch script_getSession_once EmptyString "GET"
        "/api/items" VUndef no_options (fresh_client [unauthorized; accepted])
      = (Ok res, stf)
      /\ res = retry_failure
      /\ List.length (calls stf) = 1%nat)
  /\ (exists res stf,
      SiteClient.request script_now script_fetch script_sb_getSession script_sb_refreshSession
        EmptyString "GET" "/api/items" VUndef no_options
        (mkClient None None (unrefreshable_script [unauthorized; accepted]) [])
      = (Ok res, stf)
      /\ res = session_expired
      /\ List.length (calls stf) = 1%nat).
Proof.
  split; eexists _, _; (split; [vm_compute; reflexivity|]); repeat split.
Qed.

(** ** Route guards: further properties *)

Lemma public_route_tests_agree (routes : list string) (pathname : string) :
  SdkGuard.isPublicRoute routes pathname = SiteGuard.isPublicRouteIn routes pathname.
Proof.
  unfold SdkGuard.isPublicRoute, SiteGuard.isPublicRouteIn.
  induction routes as [|r routes IH]; simpl; [reflexivity|].
  rewrite IH. f_equal.
  destruct (String.eqb_spec r "/") as [->|Hr]; simpl.
  - rewrite orb_false_r. reflexivity.
  - reflexivity.
Qed.

(** X1. On every path, for every session state, the site's
    [LayoutProtection] renders and navigates as the SDK's does when it is
    given the site's routes, login path and home and the router as callback,
    except for a signed-in user on the root path; and the two public-route
    tests agree on every route list and path. *)
Theorem site_guard_is_configured_sdk_guard (pathname : string) (user loading : bool) :
  (forall routes, SdkGuard.isPublicRoute routes pathname
                  = SiteGuard.isPublicRouteIn routes pathname)
  /\ ((user = true -> pathname <> "/") ->
      rendered (SiteGuard.LayoutProtection pathname user loading)
      = rendered (SdkGuard.LayoutProtection site_props pathname loading user)
      /\ map nav_path (navigations (SiteGuard.LayoutProtection pathname user loading))
         = map nav_path (navigations (SdkGuard.LayoutProtection site_props pathname loading user))).
Proof.
  split; [intros routes; apply public_route_tests_agree|].
  intros Hroot.
  unfold SiteGuard.LayoutProtection, SdkGuard.LayoutProtection, SiteGuard.isPublicRoute.
  cbn [site_props SdkGuard.publicRoutes SdkGuard.authenticatedRedirect default from_option id].
  rewrite public_route_tests_agree.
  generalize (SiteGuard.isPublicRouteIn SiteGuard.PUBLIC_ROUTES pathname). intros pub.
  destruct (String.eqb_spec pathname "/") as [Heq|_].
  - destruct user; [now destruct Hroot|].
    destruct loading, pub; split; reflexivity.
  - destruct loading, pub, user; split; reflexivity.
Qed.

Lemma site_guard_is_configured_sdk_guard_witness :
  rendered (SiteGuard.LayoutProtection "/login/reset" true false)
  = rendered (SdkGuard.LayoutProtection site_props "/login/reset" false true)
  /\ map nav_path (navigations (SiteGuard.LayoutProtection "/login/reset" true false))
     = map nav_path (navigations (SdkGuard.LayoutProtection site_props "/login/reset" false true)).
Proof.
  apply (site_guard_is_configured_sdk_guard "/login/reset" true false).
  intros _. discriminate.
Defined.

Lemma append_assoc3 (a b c : string) : (a ++ b) ++ c = a ++ (b ++ c).
Proof. induction a as [|x a IH]; [reflexivity|]. rewrite !append_cons, IH. reflexivity. Qed.

Lemma sdk_route_test (routes : list string) (pathname : string) :
  SdkGuard.isPublicRoute routes pathname = true <->
  exists r, In r routes /\
    (if String.eqb r "/" then String.eqb pathname "/"
     else String.eqb pathname r || startsWith pathname (r ++ "/")) = true.
Proof. unfold SdkGuard.isPublicRoute. apply existsb_exists. Qed.

(** X2. What is public stays public below it and under a longer list: every
    path under a public path other than the root is public, adding routes
    never makes a public path protected, and an empty route entry makes every
    path that starts with a slash public. *)
Theorem public_routes_closed_under_subpaths (routes more : list string) (pathname rest : string) :
  (SdkGuard.isPublicRoute routes pathname = true -> pathname <> "/" ->
   SdkGuard.isPublicRoute routes (pathname ++ "/" ++ rest) = true)
  /\ (SdkGuard.isPublicRoute routes pathname = true ->
      SdkGuard.isPublicRoute (routes ++ more) pathname = true
      /\ SdkGuard.isPublicRoute (more ++ routes) pathname = true)
  /\ (In EmptyString routes -> startsWith pathname "/" = true ->
      SdkGuard.isPublicRoute routes pathname = true).
Proof.
  split; [|split].
  - intros Hp Hroot. apply sdk_route_test in Hp as (r & Hin & Hr).
    apply sdk_route_test. exists r. split; [exact Hin|].
    destruct (String.eqb_spec r "/") as [->|Hne].
    + apply String.eqb_eq in Hr. contradiction.
    + apply orb_true_iff. right. apply startsWith_spec.
      apply orb_true_iff in Hr as [Hr|Hr].
      * apply String.eqb_eq in Hr. subst r. exists rest.
        symmetry. apply append_assoc3.
      * apply startsWith_spec in Hr as [t ->]. exists (t ++ "/" ++ rest).
        apply append_assoc3.
  - intros Hp. apply sdk_route_test in Hp as (r & Hin & Hr).
    split; apply sdk_route_test; exists r; (split; [|exact Hr]);
      apply in_or_app; auto.
  - intros Hin Hs. apply sdk_route_test. exists EmptyString. split; [exact Hin|].
    change ((String.eqb pathname EmptyString || startsWith pathname "/") = true).
    rewrite Hs. apply orb_true_r.
Qed.

Lemma public_routes_closed_under_subpaths_witness :
  SdkGuard.isPublicRoute ["/"; "/login"] ("/login" ++ "/" ++ "reset/confirm") = true
  /\ SdkGuard.isPublicRoute (["/"; "/login"] ++ ["/docs"]) "/login" = true
  /\ SdkGuard.isPublicRoute [""] "/dashboard" = true.
Proof.
  destruct (public_routes_closed_under_subpaths ["/"; "/login"] ["/docs"] "/login" "reset/confirm")
    as (Hsub & Hmore & _).
  destruct (public_routes_closed_under_subpaths [""] [] "/dashboard" "")
    as (_ & _ & Hempty).
  split; [|split].
  - apply Hsub; [reflexivity|discriminate].
  - apply Hmore. reflexivity.
  - apply Hempty; [left; reflexivity|reflexivity].
Defined.

(** X3. No guard shows its children while the session is loading or to a
    visitor who is not signed in, unless (layout guards) the path is public;
    and a guard that navigates renders nothing. *)
Theorem guards_protect_content :
  (forall p isLoading isAuthenticated,
      let o := SdkGuard.ProtectedRoute p isLoading isAuthenticated in
      (rendered o = ViewChildren -> isLoading = false /\ isAuthenticated = true)
      /\ (navigations o <> [] -> rendered o = ViewNothing))
  /\ (forall p isLoading isAuthenticated,
      let o := SdkGuard.AuthGuard p isLoading isAuthenticated in
      (fst o = SdkGuard.ShowChildren -> isLoading = false /\ isAuthenticated = true)
      /\ (snd o <> [] -> fst o = SdkGuard.ShowNothing))
  /\ (forall p pathname isLoading isAuthenticated,
      let o := SdkGuard.LayoutProtection p pathname isLoading isAuthenticated in
      (rendered o = ViewChildren ->
       isLoading = false
       /\ (isAuthenticated = true
           \/ SdkGuard.isPublicRoute (default [] (SdkGuard.publicRoutes p)) pathname = true))
      /\ (navigations o <> [] -> rendered o = ViewNothing))
  /\ (forall redirectTo user loading,
      let o := SiteGuard.ProtectedRoute redirectTo user loading in
      (rendered o = ViewChildren -> loading = false /\ user = true)
      /\ (navigations o <> [] -> rendered o = ViewNothing))
  /\ (forall pathname user loading,
      let o := SiteGuard.LayoutProtection pathname user loading in
      (rendered o = ViewChildren ->
       loading = false /\ (user = true \/ SiteGuard.isPublicRoute pathname = true))
      /\ (navigations o <> [] -> rendered o = ViewNothing)).
Proof.
  repeat match goal with |- _ /\ _ => split end.
  - intros p [] []; simpl; (split; [intros H|intros H]);
      try discriminate; try (split; reflexivity); try reflexivity; now destruct H.
  - intros p [] []; unfold SdkGuard.AuthGuard; simpl;
      destruct (negb (str_falsy (SdkGuard.ag_redirectTo p)) && SdkGuard.ag_has_window p);
      try destruct (SdkGuard.ag_fallback p); simpl;
      (split; [intros H|intros H]);
      try discriminate; try (split; reflexivity); try reflexivity; now destruct H.
  - intros p pathname isLoading isAuthenticated.
    unfold SdkGuard.LayoutProtection.
    destruct (SdkGuard.isPublicRoute (default [] (SdkGuard.publicRoutes p)) pathname) eqn:Hp;
      destruct isLoading, isAuthenticated; simpl;
      try destruct (negb (default "/home" (SdkGuard.authenticatedRedirect p) =? "")%string);
      simpl; (split; [intros H|intros H]);
      try discriminate; try (split; [reflexivity|auto]); try reflexivity; now destruct H.
  - intros r [] []; simpl; (split; [intros H|intros H]);
      try discriminate; try (split; reflexivity); try reflexivity; now destruct H.
  - intros pathname user loading.
    unfold SiteGuard.LayoutProtection.
    destruct (SiteGuard.isPublicRoute pathname) eqn:Hp;
      destruct loading, user; simpl;
      try destruct (negb (pathname =? "/")%string);
      simpl; (split; [intros H|intros H]);
      try discriminate; try (split; [reflexivity|auto]); try reflexivity; now destruct H.
Qed.

Lemma guards_protect_content_witness :
  rendered (SdkGuard.LayoutProtection root_public_props "/dashboard" false false) = ViewNothing
  /\ (false = false /\ (true = true
      \/ SdkGuard.isPublicRoute (default [] (SdkGuard.publicRoutes root_public_props))
           "/dashboard" = true))
  /\ rendered (SiteGuard.LayoutProtection "/dashboard" false false) = ViewNothing.
Proof.
  destruct guards_protect_content as (_ & _ & Hsdk & _ & Hsite).
  split; [|split].
  - apply (Hsdk root_public_props "/dashboard" false false). discriminate.
  - apply (Hsdk root_public_props "/dashboard" false true). reflexivity.
  - apply (Hsite "/dashboard" false false). discriminate.
Defined.

(** ** The two clients: further properties *)

Lemma assoc_spread_some (base : list (string * value)) (d : value) (k : string) (v : value) :
  assoc k base = Some v -> exists v', assoc k (obj_spread base d) = Some v'.
Proof.
  unfold obj_spread. generalize (own_props d). intros props. revert base v.
  induction props as [|[k0 v0] props IH]; intros base v Hb; simpl.
  - eauto.
  - destruct (String.eqb_spec k k0) as [->|Hne].
    + apply (IH _ v0). rewrite assoc_obj_set, String.eqb_refl. reflexivity.
    + apply (IH _ v). rewrite assoc_obj_set.
      destruct (String.eqb_spec k k0) as [Heq|_]; [contradiction|exact Hb].
Qed.

Lemma is_response_spread (s : value) (rest : list (string * value)) (d : value) :
  is_response (VObj (obj_spread (("success", s) :: rest) d)).
Proof.
  destruct (assoc_spread_some (("success", s) :: rest) d "success" s eq_refl) as [v' Hv].
  eexists _, v'. split; [reflexivity|exact Hv].
Qed.

Lemma is_response_failure (e : value) : is_response (failure e).
Proof. eexists _, (VBool false). split; reflexivity. Qed.

Lemma is_site_response_failure (e : value) : is_site_response (failure e).
Proof. eexists _, false. split; reflexivity. Qed.

Lemma is_site_response_response (v : value) : is_site_response v -> is_response v.
Proof. intros (props & b & -> & H). exists props, (VBool b). auto. Qed.

Ltac run_all H :=
  repeat (cbn [env with_env with_cache calls cachedToken tokenExpiry fst snd negb andb orb] in H;
          match type of H with
          | context [match ?x with _ => _ end] =>
              lazymatch x with
              | context [match _ with _ => _ end] => fail
              | _ => destruct x eqn:?
              end
          end).

Ltac run_goal :=
  repeat (cbn [env with_env with_cache calls cachedToken tokenExpiry fst snd negb];
          match goal with
          | |- context [match ?x with _ => _ end] =>
              lazymatch x with
              | context [match _ with _ => _ end] => fail
              | _ => destruct x eqn:?
              end
          end).

Section ClientFacts.
Context `{RT : Runtime}.
Context {E : Type}.
Variable env_now : E -> Z * E.
Variable env_fetch : E -> Request -> FetchOutcome * E.
Variable auth_getSession : E -> result (option ZyloAuthSession) * E.
Variable sb_getSession : E -> result (option SbSession) * E.
Variable sb_refreshSession : E -> result (option SbSession * bool) * E.

Lemma on_error_run (timeoutMs : Z) (x : exn) (st : ClientState E) :
  exists m, on_error timeoutMs x st = (Ok (failure (VStr m)), st).
Proof.
  unfold on_error. destruct (is_Error x && String.eqb (err_name x) "AbortError"); eauto.
Qed.

Lemma sdk_retry_shape (url method : string) (headers : gmap string string)
      (payload : option string) (st st' : ClientState E) (r : result value) :
  SdkClient.retry env_now env_fetch auth_getSession url method headers payload st = (r, st') ->
  exists res, r = Ok res /\ is_response res.
Proof.
  unfold SdkClient.retry, try_catch, bind, SdkClient.getValidToken, now, gets, SdkClient.getSession,
    fetch, lift, response_json, error_of, throw, modify, ret, bind, lift.
  intros H. run_all H; inversion H; subst; eexists; (split; [reflexivity|]);
    first [apply is_response_failure | apply is_response_spread].
Qed.


Lemma site_retry_shape (url method : string) (headers : gmap string string)
      (payload : option string) (st st' : ClientState E) (r : result value) :
  SiteClient.retry env_now env_fetch sb_refreshSession url method headers payload st = (r, st') ->
  exists res, r = Ok res /\ is_site_response res.
Proof.
  unfold SiteClient.retry, try_catch, bind, SiteClient.supabase_refreshSession, now, gets,
    fetch, lift, response_json, error_of, SiteClient.is_failure, SiteClient.unwrapped,
    throw, modify, ret, bind, lift.
  intros H. run_all H; inversion H; subst; eexists; (split; [reflexivity|]);
    first [apply is_site_response_failure | eexists _, true; split; reflexivity].
Qed.

Lemma sdk_send_shape (url method : string) (headers : gmap string string)
      (payload : option string) (skip : bool) (timeoutMs : Z)
      (st st' : ClientState E) (r : result value) :
  SdkClient.send env_now env_fetch auth_getSession url method headers payload skip timeoutMs st
  = (r, st') ->
  exists res, r = Ok res /\ is_response res.
Proof.
  unfold SdkClient.send, try_catch at 1. intros H.
  match type of H with
  | context [match ?m st with _ => _ end] => destruct (m st) as [[a|x] s1] eqn:Hm
  end.
  - inversion H; subst. exists a. split; [reflexivity|].
    revert Hm. unfold bind, fetch, lift, response_json, clearTokenCache, modify, error_of,
      ret, bind, lift.
    intros Hm. run_all Hm;
      try (inversion Hm; subst;
           first [apply is_response_failure | apply is_response_spread]).
    all: match goal with
         | Hr : SdkClient.retry _ _ _ _ _ _ _ _ = _ |- _ =>
             apply sdk_retry_shape in Hr as (res & Hres & Hshape)
         end.
    all: inversion Hres; subst; exact Hshape.
  - destruct (on_error_run timeoutMs x s1) as [m Hon]. rewrite Hon in H.
    inversion H; subst. eexists. split; [reflexivity|apply is_response_failure].
Qed.


Lemma site_send_shape (url method : string) (headers : gmap string string)
      (payload : option string) (skip : bool) (timeoutMs : Z)
      (st st' : ClientState E) (r : result value) :
  SiteClient.send env_now env_fetch sb_refreshSession url method headers payload skip timeoutMs st
  = (r, st') ->
  exists res, r = Ok res /\ is_site_response res.
Proof.
  unfold SiteClient.send, try_catch at 1. intros H.
  match type of H with
  | context [match ?m st with _ => _ end] => destruct (m st) as [[a|x] s1] eqn:Hm
  end.
  - inversion H; subst. exists a. split; [reflexivity|].
    revert Hm. unfold bind, fetch, lift, response_json, clearTokenCache, modify, error_of,
      SiteClient.is_failure, SiteClient.unwrapped, ret, bind, lift.
    intros Hm. run_all Hm;
      try (inversion Hm; subst;
           first [apply is_site_response_failure | eexists _, true; split; reflexivity]).
    all: match goal with
         | Hr : SiteClient.retry _ _ _ _ _ _ _ _ = _ |- _ =>
             apply site_retry_shape in Hr as (res & Hres & Hshape)
         end.
    all: inversion Hres; subst; exact Hshape.
  - destruct (on_error_run timeoutMs x s1) as [m Hon]. rewrite Hon in H.
    inversion H; subst. eexists. split; [reflexivity|apply is_site_response_failure].
Qed.

Lemma sdk_request_shape (baseUrl method path : string) (body : value)
      (options : RequestOptions) (st st' : ClientState E) (r : result value) :
  SdkClient.request env_now env_fetch auth_getSession baseUrl method path body options st
  = (r, st') ->
  exists res, r = Ok res /\ is_response res.
Proof.
  unfold SdkClient.request, bind at 1. intros H.
  destruct (negb (default false (skipAuth options))).
  - unfold try_catch, bind, ret in H.
    destruct (SdkClient.getValidToken env_now auth_getSession st) as [[token|x] s1].
    + apply sdk_send_shape in H. exact H.
    + inversion H; subst. eexists. split; [reflexivity|apply is_response_failure].
  - unfold ret in H. apply sdk_send_shape in H. exact H.
Qed.

Lemma site_request_shape (baseUrl method path : string) (body : value)
      (options : RequestOptions) (st st' : ClientState E) (r : result value) :
  SiteClient.request env_now env_fetch sb_getSession sb_refreshSession
    baseUrl method path body options st = (r, st') ->
  exists res, r = Ok res /\ is_site_response res.
Proof.
  unfold SiteClient.request, bind at 1. intros H.
  destruct (negb (default false (skipAuth options))).
  - unfold try_catch, bind, ret in H.
    destruct (SiteClient.getValidToken env_now sb_getSession sb_refreshSession st)
      as [[token|x] s1].
    + apply site_send_shape in H. exact H.
    + inversion H; subst. eexists. split; [reflexivity|apply is_site_response_failure].
  - unfold ret in H. apply site_send_shape in H. exact H.
Qed.

(** X4. A request of either client never throws: whatever the clock, the
    session provider and the network do, it returns an object with a
    [success] member, which for the site client is a boolean. *)
Theorem requests_never_throw
  (baseUrl method path : string) (body : value) (options : RequestOptions)
  (st : ClientState E) :
  (exists res st',
      SdkClient.request env_now env_fetch auth_getSession baseUrl method path body options st
      = (Ok res, st')
      /\ is_response res)
  /\ (exists res st',
      SiteClient.request env_now env_fetch sb_getSession sb_refreshSession
        baseUrl method path body options st = (Ok res, st')
      /\ is_site_response res).
Proof.
  split.
  - destruct (SdkClient.request env_now env_fetch auth_getSession baseUrl method path body
                options st) as [r st'] eqn:H.
    destruct (sdk_request_shape _ _ _ _ _ _ _ _ H) as (res & -> & Hs). eauto.
  - destruct (SiteClient.request env_now env_fetch sb_getSession sb_refreshSession
                baseUrl method path body options st) as [r st'] eqn:H.
    destruct (site_request_shape _ _ _ _ _ _ _ _ H) as (res & -> & Hs). eauto.
Qed.


(** *** The calls a request issues *)

Lemma sdk_retry_calls (url method : string) (headers : gmap string string)
      (payload : option string) (st st' : ClientState E) (r : result value) :
  SdkClient.retry env_now env_fetch auth_getSession url method headers payload st = (r, st') ->
  calls st' = calls st
  \/ exists fresh,
      calls st' = (calls st ++ [mkRequest url method (bearer headers fresh) payload false])%list.
Proof.
  unfold SdkClient.retry, try_catch, bind at 1. intros H.
  destruct (SdkClient.getValidToken env_now auth_getSession st) as [[fresh|x] s1] eqn:Hg.
  - pose proof (sdk_getValidToken_calls _ _ _ _ _ Hg) as Hc.
    right. exists fresh. rewrite <- Hc.
    revert H. unfold bind, fetch, lift, response_json, error_of, ret, bind, lift.
    intros H. run_all H; inversion H; subst; reflexivity.
  - left. unfold ret in H. inversion H; subst.
    apply (sdk_getValidToken_calls _ _ _ _ _ Hg).
Qed.

Lemma site_retry_calls (url method : string) (headers : gmap string string)
      (payload : option string) (st st' : ClientState E) (r : result value) :
  SiteClient.retry env_now env_fetch sb_refreshSession url method headers payload st = (r, st') ->
  calls st' = calls st
  \/ exists fresh,
      calls st' = (calls st ++ [mkRequest url method (bearer headers fresh) payload false])%list.
Proof.
  unfold SiteClient.retry, try_catch, bind, SiteClient.supabase_refreshSession, now, fetch, lift,
    response_json, error_of, SiteClient.is_failure, SiteClient.unwrapped, modify, ret, bind, lift.
  intros H. run_all H; inversion H; subst;
    first [left; reflexivity | right; eexists; reflexivity].
Qed.


Lemma sdk_send_calls (url method : string) (headers : gmap string string)
      (payload : option string) (skip : bool) (timeoutMs : Z)
      (st st' : ClientState E) (r : result value) :
  SdkClient.send env_now env_fetch auth_getSession url method headers payload skip timeoutMs st
  = (r, st') ->
  calls st' = (calls st ++ [mkRequest url method headers payload true])%list
  \/ (skip = false
      /\ exists fresh,
          calls st' = (calls st ++ [mkRequest url method headers payload true;
                                    mkRequest url method (bearer headers fresh) payload false])%list).
Proof.
  unfold SdkClient.send, try_catch at 1. intros H.
  match type of H with
  | context [match ?m st with _ => _ end] => destruct (m st) as [[a|x] s1] eqn:Hm
  end.
  - inversion H; subst. clear H.
    revert Hm. unfold bind, fetch, lift, response_json, clearTokenCache, modify, error_of,
      ret, bind, lift.
    intros Hm. run_all Hm; try (inversion Hm; subst; left; reflexivity).
    all: match goal with
         | Hr : SdkClient.retry _ _ _ _ _ _ _ _ = _ |- _ =>
             apply sdk_retry_calls in Hr as [Hc | [fresh Hc]]
         end.
    all: cbn [calls with_cache] in Hc; rewrite Hc.
    all: try (left; reflexivity).
    all: right; split;
      [ first [ reflexivity
              | match goal with
                | Hb : _ && negb ?s = true |- ?s = false =>
                    apply andb_true_iff in Hb as [_ Hb]; apply negb_true_iff in Hb; exact Hb
                end ]
      | exists fresh; apply list_app_two ].
  - destruct (on_error_run timeoutMs x s1) as [m Hon]. rewrite Hon in H.
    inversion H; subst. clear H Hon. left.
    revert Hm. unfold bind, fetch, lift, response_json, clearTokenCache, modify, error_of,
      ret, bind, lift.
    intros Hm. run_all Hm; try (inversion Hm; subst; reflexivity).
    all: match goal with
         | Hr : SdkClient.retry _ _ _ _ _ _ _ _ = _ |- _ =>
             apply sdk_retry_shape in Hr as (res & Hres & _); discriminate Hres
         end.
Qed.


Lemma site_send_calls (url method : string) (headers : gmap string string)
      (payload : option string) (skip : bool) (timeoutMs : Z)
      (st st' : ClientState E) (r : result value) :
  SiteClient.send env_now env_fetch sb_refreshSession url method headers payload skip timeoutMs st
  = (r, st') ->
  calls st' = (calls st ++ [mkRequest url method headers payload true])%list
  \/ (skip = false
      /\ exists fresh,
          calls st' = (calls st ++ [mkRequest url method headers payload true;
                                    mkRequest url method (bearer headers fresh) payload false])%list).
Proof.
  unfold SiteClient.send, try_catch at 1. intros H.
  match type of H with
  | context [match ?m st with _ => _ end] => destruct (m st) as [[a|x] s1] eqn:Hm
  end.
  - inversion H; subst. clear H.
    revert Hm. unfold bind, fetch, lift, response_json, clearTokenCache, modify, error_of,
      SiteClient.is_failure, SiteClient.unwrapped, ret, bind, lift.
    intros Hm. run_all Hm; try (inversion Hm; subst; left; reflexivity).
    all: match goal with
         | Hr : SiteClient.retry _ _ _ _ _ _ _ _ = _ |- _ =>
             apply site_retry_calls in Hr as [Hc | [fresh Hc]]
         end.
    all: cbn [calls with_cache] in Hc; rewrite Hc.
    all: try (left; reflexivity).
    all: right; split;
      [ first [ reflexivity
              | match goal with
                | Hb : _ && negb ?s = true |- ?s = false =>
                    apply andb_true_iff in Hb as [_ Hb]; apply negb_true_iff in Hb; exact Hb
                end ]
      | exists fresh; apply list_app_two ].
  - destruct (on_error_run timeoutMs x s1) as [m Hon]. rewrite Hon in H.
    inversion H; subst. clear H Hon. left.
    revert Hm. unfold bind, fetch, lift, response_json, clearTokenCache, modify, error_of,
      SiteClient.is_failure, SiteClient.unwrapped, ret, bind, lift.
    intros Hm. run_all Hm; try (inversion Hm; subst; reflexivity).
    all: match goal with
         | Hr : SiteClient.retry _ _ _ _ _ _ _ _ = _ |- _ =>
             apply site_retry_shape in Hr as (res & Hres & _); discriminate Hres
         end.
Qed.

(** The calls of a whole request: none when no token can be had, else the
    request itself and at most one repetition of it under a new bearer
    token. *)
Lemma sdk_request_calls (baseUrl method path : string) (body : value)
      (options : RequestOptions) (st st' : ClientState E) (r : result value) :
  SdkClient.request env_now env_fetch auth_getSession baseUrl method path body options st
  = (r, st') ->
  let url := request_url baseUrl path in
  let payload := request_body body in
  (default false (skipAuth options) = true /\
   calls st' = (calls st ++ [mkRequest url method (request_headers options) payload true])%list)
  \/ (default false (skipAuth options) = false /\
      (calls st' = calls st
       \/ exists token,
           let first := mkRequest url method (bearer (request_headers options) token)
                                  payload true in
           calls st' = (calls st ++ [first])%list
           \/ exists fresh,
               calls st'
               = (calls st ++ [first; mkRequest url method
                                       (bearer (request_headers options) fresh)
                                       payload false])%list)).
Proof.
  intros H url payload. unfold SdkClient.request, bind at 1 in H.
  destruct (default false (skipAuth options)) eqn:Hskip; cbn [negb] in H.
  - left. split; [reflexivity|].
    unfold ret in H. apply sdk_send_calls in H as [H | [Hs _]]; [exact H|discriminate Hs].
  - right. split; [reflexivity|].
    unfold try_catch, bind, ret in H.
    destruct (SdkClient.getValidToken env_now auth_getSession st) as [[token|x] s1] eqn:Hg.
    + pose proof (sdk_getValidToken_calls _ _ _ _ _ Hg) as Hc.
      right. exists token. rewrite <- Hc.
      apply sdk_send_calls in H as [H | [_ [fresh H]]].
      * left. exact H.
      * right. exists fresh. rewrite bearer_bearer in H. exact H.
    + left. inversion H; subst. apply (sdk_getValidToken_calls _ _ _ _ _ Hg).
Qed.

Lemma site_request_calls (baseUrl method path : string) (body : value)
      (options : RequestOptions) (st st' : ClientState E) (r : result value) :
  SiteClient.request env_now env_fetch sb_getSession sb_refreshSession
    baseUrl method path body options st = (r, st') ->
  let url := request_url baseUrl path in
  let payload := request_body body in
  (default false (skipAuth options) = true /\
   calls st' = (calls st ++ [mkRequest url method (request_headers options) payload true])%list)
  \/ (default false (skipAuth options) = false /\
      (calls st' = calls st
       \/ exists token,
           let first := mkRequest url method (bearer (request_headers options) token)
                                  payload true in
           calls st' = (calls st ++ [first])%list
           \/ exists fresh,
               calls st'
               = (calls st ++ [first; mkRequest url method
                                       (bearer (request_headers options) fresh)
                                       payload false])%list)).
Proof.
  intros H url payload. unfold SiteClient.request, bind at 1 in H.
  destruct (default false (skipAuth options)) eqn:Hskip; cbn [negb] in H.
  - left. split; [reflexivity|].
    unfold ret in H. apply site_send_calls in H as [H | [Hs _]]; [exact H|discriminate Hs].
  - right. split; [reflexivity|].
    unfold try_catch, bind, ret in H.
    destruct (SiteClient.getValidToken env_now sb_getSession sb_refreshSession st)
      as [[token|x] s1] eqn:Hg.
    + pose proof (site_getValidToken_calls _ _ _ _ _ _ Hg) as Hc.
      right. exists token. rewrite <- Hc.
      apply site_send_calls in H as [H | [_ [fresh H]]].
      * left. exact H.
      * right. exists fresh. rewrite bearer_bearer in H. exact H.
    + left. inversion H; subst. apply (site_getValidToken_calls _ _ _ _ _ _ Hg).
Qed.


Lemma same_request_plain (url method : string) (headers : gmap string string)
      (payload : option string) (signal : bool) :
  same_request url method headers payload (mkRequest url method headers payload signal).
Proof. repeat split. Qed.

Lemma same_request_bearer (url method : string) (headers : gmap string string)
      (payload : option string) (signal : bool) (token : string) :
  same_request url method headers payload
    (mkRequest url method (bearer headers token) payload signal).
Proof.
  repeat split. intros k Hk. cbn [req_headers]. unfold bearer.
  apply lookup_insert_ne. congruence.
Qed.

Lemma has_bearer_bearer (url method : string) (headers : gmap string string)
      (payload : option string) (signal : bool) (token : string) :
  has_bearer (mkRequest url method (bearer headers token) payload signal).
Proof. exists token. cbn [req_headers]. unfold bearer. apply lookup_insert_eq. Qed.

Lemma request_calls_summary (url method : string) (headers : gmap string string)
      (payload : option string) (skip : bool) (old fresh : list Request) :
  (skip = true /\ fresh = (old ++ [mkRequest url method headers payload true])%list)
  \/ (skip = false /\
      (fresh = old
       \/ exists token,
           let first := mkRequest url method (bearer headers token) payload true in
           fresh = (old ++ [first])%list
           \/ exists again,
               fresh = (old ++ [first; mkRequest url method (bearer headers again)
                                        payload false])%list)) ->
  exists new,
    fresh = (old ++ new)%list
    /\ (List.length new <= 2)%nat
    /\ Forall (same_request url method headers payload) new
    /\ map req_signal new = firstn (List.length new) [true; false]
    /\ (skip = true -> List.length new = 1%nat /\ Forall (fun q => req_headers q = headers) new)
    /\ (skip = false -> Forall has_bearer new).
Proof.
  intros [[-> ->] | [-> [-> | [token [-> | [again ->]]]]]].
  - eexists. split; [reflexivity|]. cbn [List.length]. split; [lia|].
    split; [repeat constructor|]. split; [reflexivity|].
    split; [intros _; split; [reflexivity|repeat constructor]|discriminate].
  - exists []. rewrite app_nil_r. split; [reflexivity|]. cbn [List.length]. split; [lia|].
    split; [constructor|]. split; [reflexivity|]. split; [discriminate|constructor].
  - eexists. split; [reflexivity|]. cbn [List.length]. split; [lia|].
    split; [repeat constructor; apply same_request_bearer|]. split; [reflexivity|].
    split; [discriminate|intros _; repeat constructor; apply has_bearer_bearer].
  - eexists. split; [reflexivity|]. cbn [List.length]. split; [lia|].
    split; [repeat constructor; apply same_request_bearer|]. split; [reflexivity|].
    split; [discriminate|intros _; repeat constructor; apply has_bearer_bearer].
Qed.



(** X6. With [skipAuth] set, neither client looks at its token cache, the
    clock or the session provider: it makes the one call, with the caller's
    headers and no bearer token, never repeats it (not even after a 401), and
    leaves the cache as it was. *)
Theorem skip_auth_bypasses_tokens
  (baseUrl method path : string) (body : value) (options : RequestOptions)
  (st : ClientState E) (out : FetchOutcome) (e1 : E) :
  let req := mkRequest (request_url baseUrl path) method (request_headers options)
                       (request_body body) true in
  skipAuth options = Some true ->
  env_fetch (env st) req = (out, e1) ->
  (exists res,
      SdkClient.request env_now env_fetch auth_getSession baseUrl method path body options st
      = (Ok res, mkClient (cachedToken st) (tokenExpiry st) e1 (calls st ++ [req])))
  /\ (exists res,
      SiteClient.request env_now env_fetch sb_getSession sb_refreshSession
        baseUrl method path body options st
      = (Ok res, mkClient (cachedToken st) (tokenExpiry st) e1 (calls st ++ [req]))).
Proof.
  intros req Hskip Hfetch. subst req. split.
  - unfold SdkClient.request. rewrite Hskip.
    cbn [default from_option id negb]. unfold bind at 1, ret at 1.
    unfold SdkClient.send, try_catch, bind, fetch. rewrite Hfetch.
    unfold lift, response_json, error_of, on_error, bind, lift, ret.
    destruct out as [x|status [d|]]; cbn [fst snd negb]; rewrite ?andb_false_r;
      run_goal; eexists; reflexivity.
  - unfold SiteClient.request. rewrite Hskip.
    cbn [default from_option id negb]. unfold bind at 1, ret at 1.
    unfold SiteClient.send, try_catch, bind, fetch. rewrite Hfetch.
    unfold lift, response_json, error_of, SiteClient.is_failure, SiteClient.unwrapped,
      on_error, bind, lift, ret.
    destruct out as [x|status [d|]]; cbn [fst snd negb]; rewrite ?andb_false_r;
      run_goal; eexists; reflexivity.
Qed.



(** The verbs, as the calls they come to. *)
Lemma request_body_falsy (body : value) : truthy body = false -> request_body body = None.
Proof. intros H. unfold request_body. rewrite H. reflexivity. Qed.

(** X8. The calls made by [get] and [delete] carry no body; the calls made
    by [post], [put] and [patch] carry [JSON.stringify(body)] when [body] is
    truthy and no body at all when it is falsy ([undefined], [null], [false],
    [0], the empty string).  In each case the method is the verb's own. *)
Theorem verbs_and_bodies
  (baseUrl path : string) (body : value) (options : option RequestOptions)
  (st st' : ClientState E) (r : result value) (verb : string) :
  (verb = "GET" /\
   (SdkClient.get env_now env_fetch auth_getSession baseUrl path options st = (r, st')
    \/ SiteClient.get env_now env_fetch sb_getSession sb_refreshSession baseUrl path options st
       = (r, st'))
   \/ verb = "DELETE" /\
      (SdkClient.delete env_now env_fetch auth_getSession baseUrl path options st = (r, st')
       \/ SiteClient.delete env_now env_fetch sb_getSession sb_refreshSession
            baseUrl path options st = (r, st')) ->
   exists new,
     calls st' = (calls st ++ new)%list
     /\ Forall (fun q => req_method q = verb /\ req_body q = None) new)
  /\ (verb = "POST" /\
      (SdkClient.post env_now env_fetch auth_getSession baseUrl path body options st = (r, st')
       \/ SiteClient.post env_now env_fetch sb_getSession sb_refreshSession
            baseUrl path body options st = (r, st'))
      \/ verb = "PUT" /\
         (SdkClient.put env_now env_fetch auth_getSession baseUrl path body options st = (r, st')
          \/ SiteClient.put env_now env_fetch sb_getSession sb_refreshSession
               baseUrl path body options st = (r, st'))
      \/ verb = "PATCH" /\
         (SdkClient.patch env_now env_fetch auth_getSession baseUrl path body options st
          = (r, st')
          \/ SiteClient.patch env_now env_fetch sb_getSession sb_refreshSession
               baseUrl path body options st = (r, st')) ->
      exists new,
        calls st' = (calls st ++ new)%list
        /\ Forall (fun q => req_method q = verb
                            /\ req_body q = if truthy body then Some (JSON_stringify body)
                                            else None) new).
Proof.
  assert (Hall : forall method b opts,
             SdkClient.request env_now env_fetch auth_getSession baseUrl method path b opts st
             = (r, st')
             \/ SiteClient.request env_now env_fetch sb_getSession sb_refreshSession
                  baseUrl method path b opts st = (r, st') ->
             exists new,
               calls st' = (calls st ++ new)%list
               /\ Forall (fun q => req_method q = method /\ req_body q = request_body b) new).
  { intros method b opts H.
    assert (Hsum : exists new,
               calls st' = (calls st ++ new)%list
               /\ Forall (same_request (request_url baseUrl path) method (request_headers opts)
                                       (request_body b)) new).
    { destruct H as [H | H].
      - destruct (request_calls_summary _ _ _ _ _ _ _ (sdk_request_calls _ _ _ _ _ _ _ _ H))
          as (new & Hc & _ & Hf & _). eauto.
      - destruct (request_calls_summary _ _ _ _ _ _ _ (site_request_calls _ _ _ _ _ _ _ _ H))
          as (new & Hc & _ & Hf & _). eauto. }
    destruct Hsum as (new & Hc & Hf). exists new. split; [exact Hc|].
    eapply Forall_impl; [exact Hf|].
    intros q (_ & Hm & Hb & _). auto. }
  split.
  - intros [[-> H] | [-> H]]; apply (Hall _ VUndef _ H).
  - intros [[-> H] | [[-> H] | [-> H]]]; apply (Hall _ body _ H).
Qed.



(** X10. A first call that is rejected (network failure, abort) is not
    repeated and not rethrown: the request ends with [success: false] and, for
    an abort, the timeout in whole seconds, else the error's message.  The
    timeout is [options.timeout ?? 30000] in the SDK client and
    [options.timeout || 30000] in the site client. *)
Theorem rejected_call_is_reported
  (baseUrl method path : string) (body : value) (options : RequestOptions)
  (st st1 : ClientState E) (token : string) (x : exn) (e2 : E) :
  let first := mkRequest (request_url baseUrl path) method
                         (bearer (request_headers options) token) (request_body body) true in
  let message (timeoutMs : Z) :=
    if is_Error x && String.eqb (err_name x) "AbortError"
    then "Request timed out after " ++ pretty (round_seconds timeoutMs) ++ " seconds"
    else message_or x "Network error" in
  default false (skipAuth options) = false ->
  env_fetch (env st1) first = (Rejected x, e2) ->
  (SdkClient.getValidToken env_now auth_getSession st = (Ok token, st1) ->
   SdkClient.request env_now env_fetch auth_getSession baseUrl method path body options st
   = (Ok (failure (VStr (message (default 30000 (timeout options))))),
      mkClient (cachedToken st1) (tokenExpiry st1) e2 (calls st ++ [first])))
  /\ (SiteClient.getValidToken env_now sb_getSession sb_refreshSession st = (Ok token, st1) ->
      SiteClient.request env_now env_fetch sb_getSession sb_refreshSession
        baseUrl method path body options st
      = (Ok (failure (VStr (message (match timeout options with
                                     | Some t => if t =? 0 then 30000 else t
                                     | None => 30000
                                     end)))),
         mkClient (cachedToken st1) (tokenExpiry st1) e2 (calls st ++ [first]))).
Proof.
  intros first message Hskip Hfetch. subst first message. split; intros Hg.
  - pose proof (sdk_getValidToken_calls _ _ _ _ _ Hg) as Hc.
    unfold SdkClient.request. rewrite Hskip. cbn [negb].
    unfold bind at 1, try_catch at 1, bind at 1. rewrite Hg. unfold ret at 1.
    unfold SdkClient.send, try_catch, bind at 1, fetch. rewrite Hfetch, Hc.
    unfold on_error.
    destruct (is_Error x && String.eqb (err_name x) "AbortError"); reflexivity.
  - pose proof (site_getValidToken_calls _ _ _ _ _ _ Hg) as Hc.
    unfold SiteClient.request. rewrite Hskip. cbn [negb].
    unfold bind at 1, try_catch at 1, bind at 1. rewrite Hg. unfold ret at 1.
    unfold SiteClient.send, try_catch, bind at 1, fetch. rewrite Hfetch, Hc.
    unfold on_error, SiteClient.timeout_of.
    destruct (is_Error x && String.eqb (err_name x) "AbortError"); reflexivity.
Qed.


Lemma opt_prop_spread (base : list (string * value)) (d : value) (k : string) :
  keys_distinct d ->
  opt_prop (VObj (obj_spread base d)) k
  = match assoc k (own_props d) with
    | Some v => v
    | None => default VUndef (assoc k base)
    end.
Proof.
  intros Hd. unfold obj_spread, opt_prop.
  rewrite assoc_fold_set by exact Hd.
  destruct (assoc k (own_props d)); reflexivity.
Qed.

(** X11. In the SDK client the members of the response body are spread over
    the result: for a first answer that is JSON and not a 401, every member
    of the body is a member of the result with the same value, also
    [success], [error] and [data]; only where the body has no such member is
    [success] whether the status is 2xx, and [data] on a 2xx the body
    itself. *)
Theorem sdk_result_carries_body
  (baseUrl method path : string) (body d : value) (options : RequestOptions)
  (st st1 : ClientState E) (token : string) (status : Z) (e2 : E) :
  let first := mkRequest (request_url baseUrl path) method
                         (bearer (request_headers options) token) (request_body body) true in
  default false (skipAuth options) = false ->
  SdkClient.getValidToken env_now auth_getSession st = (Ok token, st1) ->
  env_fetch (env st1) first = (Responded status (Some d), e2) ->
  status <> 401 ->
  keys_distinct d ->
  exists res,
    SdkClient.request env_now env_fetch auth_getSession baseUrl method path body options st
    = (Ok res, mkClient (cachedToken st1) (tokenExpiry st1) e2 (calls st ++ [first]))
    /\ (forall k v, assoc k (own_props d) = Some v -> opt_prop res k = v)
    /\ (assoc "success" (own_props d) = None -> success_of res = VBool (response_ok status))
    /\ (response_ok status = true -> assoc "data" (own_props d) = None ->
        opt_prop res "data" = d).
Proof.
  intros first Hskip Hg Hfetch Hstatus Hd. subst first.
  pose proof (sdk_getValidToken_calls _ _ _ _ _ Hg) as Hc.
  unfold SdkClient.request. rewrite Hskip. cbn [negb].
  unfold bind at 1, try_catch at 1, bind at 1. rewrite Hg. unfold ret at 1.
  unfold SdkClient.send, try_catch, bind at 1, fetch. rewrite Hfetch, Hc.
  unfold bind at 1, lift, response_json. cbn [fst snd].
  destruct (Z.eqb_spec status 401) as [Heq|_]; [contradiction|]. cbn [andb].
  assert (Hspread : forall base,
             (forall k v, assoc k (own_props d) = Some v ->
                          opt_prop (VObj (obj_spread base d)) k = v)).
  { intros base k v Hk. rewrite opt_prop_spread by exact Hd. rewrite Hk. reflexivity. }
  destruct (response_ok status) eqn:Hok; cbn [negb].
  - eexists. split; [reflexivity|]. split; [apply Hspread|]. split.
    + intros Hs. unfold success_of. rewrite opt_prop_spread by exact Hd. rewrite Hs. reflexivity.
    + intros _ Hdata. rewrite opt_prop_spread by exact Hd. rewrite Hdata. reflexivity.
  - unfold error_of, bind, lift, ret, on_error.
    destruct (get_prop d "error") as [e|x] eqn:He.
    + destruct (truthy e).
      * eexists. split; [reflexivity|]. split; [apply Hspread|]. split; [|discriminate].
        intros Hs. unfold success_of. rewrite opt_prop_spread by exact Hd. rewrite Hs.
        reflexivity.
      * destruct (get_prop d "message") as [m|x] eqn:Hm.
        -- eexists. split; [reflexivity|]. split; [apply Hspread|]. split; [|discriminate].
           intros Hs. unfold success_of. rewrite opt_prop_spread by exact Hd. rewrite Hs.
           reflexivity.
        -- destruct d; discriminate Hm || discriminate He.
    + assert (Hnone : own_props d = []) by (destruct d; (discriminate He || reflexivity)).
      destruct (is_Error x && String.eqb (err_name x) "AbortError");
        (eexists; split; [reflexivity|]; rewrite Hnone; split; [discriminate|];
         split; [reflexivity|discriminate]).
Qed.

(** What a property read gives on a value that can be read from. *)
Lemma get_prop_opt_prop (v : value) (k k' : string) (x : value) :
  get_prop v k = Ok x -> get_prop v k' = Ok (opt_prop v k').
Proof. destruct v; simpl; intros H; (discriminate H || reflexivity). Qed.


Lemma site_retry_fails (url method : string) (headers : gmap string string)
      (payload : option string) (st st' : ClientState E) (r : result value) :
  never_succeeds env_fetch ->
  SiteClient.retry env_now env_fetch sb_refreshSession url method headers payload st = (r, st') ->
  exists e, r = Ok (failure e).
Proof.
  intros Hnever.
  unfold SiteClient.retry, try_catch, bind, SiteClient.supabase_refreshSession, now, gets,
    fetch, lift, response_json, error_of, SiteClient.is_failure, SiteClient.unwrapped,
    throw, modify, ret, bind, lift.
  intros H. run_all H; inversion H; subst; try (eexists; reflexivity).
  all: exfalso.
  all: repeat match goal with
         | Hx : ?a = ?b |- _ => is_var a; subst a
         | Hx : ?a = ?b |- _ => is_var b; subst b
         end.
  all: match goal with
       | Hf : env_fetch _ _ = (Responded ?status (Some ?d), _),
         Hok : negb (response_ok ?status) = false,
         Hs : get_prop ?d "success" = Ok ?s,
         Ht : negb (truthy ?s) = false |- _ =>
           apply negb_false_iff in Hok, Ht;
           rewrite (Hnever _ _ _ _ _ _ Hf Hok Hs) in Ht; discriminate Ht
       end.
Qed.


Lemma site_send_fails (url method : string) (headers : gmap string string)
      (payload : option string) (skip : bool) (timeoutMs : Z)
      (st st' : ClientState E) (r : result value) :
  never_succeeds env_fetch ->
  SiteClient.send env_now env_fetch sb_refreshSession url method headers payload skip timeoutMs st
  = (r, st') ->
  exists e, r = Ok (failure e).
Proof.
  intros Hnever. unfold SiteClient.send, try_catch at 1. intros H.
  match type of H with
  | context [match ?m st with _ => _ end] => destruct (m st) as [[a|x] s1] eqn:Hm
  end.
  - inversion H; subst. clear H.
    revert Hm. unfold bind, fetch, lift, response_json, clearTokenCache, modify, error_of,
      SiteClient.is_failure, SiteClient.unwrapped, ret, bind, lift.
    intros Hm. run_all Hm; try (inversion Hm; subst; eexists; reflexivity).
    all: try match goal with
         | Hr : SiteClient.retry _ _ _ _ _ _ _ _ = _ |- _ =>
             apply (site_retry_fails _ _ _ _ _ _ _ Hnever) in Hr as (e0 & Hres);
             inversion Hres; subst; eexists; reflexivity
         end.
    all: exfalso.
    all: inversion Hm; subst.
    all: repeat match goal with
           | Hx : ?a = ?b |- _ => is_var a; subst a
           | Hx : ?a = ?b |- _ => is_var b; subst b
           end.
    all: match goal with
         | Hf : env_fetch _ _ = (Responded ?status (Some ?d), _),
           Hok : negb (response_ok ?status) = false,
           Hs : get_prop ?d "success" = Ok ?s,
           Ht : negb (truthy ?s) = false |- _ =>
             apply negb_false_iff in Hok, Ht;
             rewrite (Hnever _ _ _ _ _ _ Hf Hok Hs) in Ht; discriminate Ht
         end.
  - destruct (on_error_run timeoutMs x s1) as [m Hon]. rewrite Hon in H.
    inversion H; subst. eexists. reflexivity.
Qed.

(** X12. The site client reports success only on the backend's word: a
    first answer with a 2xx status and a truthy [success] member gives
    exactly [success: true] with the body's [data] and [message], after that
    one call; and against a backend that never gives such an answer every
    request ends in [success: false]. *)
Theorem site_success_is_backend_success
  (baseUrl method path : string) (body : value) (options : RequestOptions)
  (st : ClientState E) :
  (forall (st1 : ClientState E) (token : string) (status : Z) (d s : value) (e2 : E),
      let first := mkRequest (request_url baseUrl path) method
                             (bearer (request_headers options) token) (request_body body) true in
      default false (skipAuth options) = false ->
      SiteClient.getValidToken env_now sb_getSession sb_refreshSession st = (Ok token, st1) ->
      env_fetch (env st1) first = (Responded status (Some d), e2) ->
      response_ok status = true ->
      get_prop d "success" = Ok s ->
      truthy s = true ->
      SiteClient.request env_now env_fetch sb_getSession sb_refreshSession
        baseUrl method path body options st
      = (Ok (VObj [("success", VBool true); ("data", opt_prop d "data");
                   ("message", opt_prop d "message")]),
         mkClient (cachedToken st1) (tokenExpiry st1) e2 (calls st ++ [first])))
  /\ (never_succeeds env_fetch ->
      exists e st',
        SiteClient.request env_now env_fetch sb_getSession sb_refreshSession
          baseUrl method path body options st = (Ok (failure e), st')).
Proof.
  split.
  - intros st1 token status d s e2 first Hskip Hg Hfetch Hok Hs Ht. subst first.
    pose proof (site_getValidToken_calls _ _ _ _ _ _ Hg) as Hc.
    unfold SiteClient.request. rewrite Hskip. cbn [negb].
    unfold bind at 1, try_catch at 1, bind at 1. rewrite Hg. unfold ret at 1.
    unfold SiteClient.send, try_catch, bind at 1, fetch. rewrite Hfetch, Hc.
    unfold bind at 1, lift, response_json. cbn [fst snd].
    assert (H401 : (status =? 401) = false).
    { apply Z.eqb_neq. intros ->. discriminate Hok. }
    rewrite H401. cbn [andb].
    unfold SiteClient.is_failure, SiteClient.unwrapped, bind, lift, ret.
    rewrite Hok. cbn [negb]. rewrite Hs, Ht. cbn [negb].
    rewrite (get_prop_opt_prop d "success" "data" s Hs).
    rewrite (get_prop_opt_prop d "success" "message" s Hs). reflexivity.
  - intros Hnever.
    destruct (SiteClient.request env_now env_fetch sb_getSession sb_refreshSession
                baseUrl method path body options st) as [r st'] eqn:H.
    revert H. unfold SiteClient.request, bind at 1.
    destruct (negb (default false (skipAuth options))).
    + unfold try_catch, bind, ret.
      destruct (SiteClient.getValidToken env_now sb_getSession sb_refreshSession st)
        as [[token|x] s1].
      * intros H. apply (site_send_fails _ _ _ _ _ _ _ _ _ Hnever) in H as [e ->]. eauto.
      * intros H. inversion H; subst. eauto.
    + unfold ret. intros H.
      apply (site_send_fails _ _ _ _ _ _ _ _ _ Hnever) in H as [e ->]. eauto.
Qed.

End ClientFacts.


Lemma skip_auth_bypasses_tokens_witness :
  (exists res,
      SdkClient.request script_now script_fetch script_getSession EmptyString "GET"
        "/api/public/health" VUndef public_options (signed_out_client [unauthorized; accepted])
      = (Ok res,
         mkClient None None (mkScript example_now None None (None, false) [accepted])
           [mkRequest "/api/public/health" "GET" {[ "Content-Type" := "application/json" ]}
                      None true]))
  /\ (exists res,
      SiteClient.request script_now script_fetch script_sb_getSession script_sb_refreshSession
        EmptyString "GET" "/api/public/health" VUndef public_options
        (signed_out_client [unauthorized; accepted])
      = (Ok res,
         mkClient None None (mkScript example_now None None (None, false) [accepted])
           [mkRequest "/api/public/health" "GET" {[ "Content-Type" := "application/json" ]}
                      None true])).
Proof.
  apply (skip_auth_bypasses_tokens script_now script_fetch script_getSession
           script_sb_getSession script_sb_refreshSession EmptyString "GET" "/api/public/health"
           VUndef public_options (signed_out_client [unauthorized; accepted])
           unauthorized (mkScript example_now None None (None, false) [accepted]));
    reflexivity.
Defined.


Lemma verbs_and_bodies_witness :
  let run := SdkClient.post script_now script_fetch script_getSession EmptyString "/api/counter"
               (VNum 0 0) None (fresh_client [accepted]) in
  exists new,
    calls (snd run) = new
    /\ Forall (fun q => req_method q = "POST" /\ req_body q = None) new.
Proof.
  intros run.
  destruct (verbs_and_bodies script_now script_fetch script_getSession script_sb_getSession
              script_sb_refreshSession EmptyString "/api/counter" (VNum 0 0) None
              (fresh_client [accepted]) (snd run) (fst run) "POST") as [_ Hpost].
  destruct Hpost as (new & Hc & Hf).
  - left. split; [reflexivity|]. left. apply surjective_pairing.
  - exists new. split; [exact Hc|exact Hf].
Defined.


Lemma rejected_call_is_reported_witness :
  SdkClient.request script_now script_fetch script_getSession EmptyString "GET" "/api/items"
    VUndef (mkOptions None None (Some 0)) (resolved_client [aborted; accepted])
  = (Ok (failure (VStr "Request timed out after 0 seconds")),
     mkClient (Some tenant_a_token) (Some (Num 1893456000000)) (example_script [accepted])
       [mkRequest "/api/items" "GET"
          (bearer {[ "Content-Type" := "application/json" ]} tenant_a_token) None true])
  /\ SiteClient.request script_now script_fetch script_sb_getSession script_sb_refreshSession
       EmptyString "GET" "/api/items" VUndef (mkOptions None None (Some 0))
       (resolved_client [aborted; accepted])
     = (Ok (failure (VStr "Request timed out after 30 seconds")),
        mkClient (Some tenant_a_token) (Some (Num 1893456000000)) (example_script [accepted])
          [mkRequest "/api/items" "GET"
             (bearer {[ "Content-Type" := "application/json" ]} tenant_a_token) None true]).
Proof.
  destruct (rejected_call_is_reported script_now script_fetch script_getSession
              script_sb_getSession script_sb_refreshSession EmptyString "GET" "/api/items"
              VUndef (mkOptions None None (Some 0)) (resolved_client [aborted; accepted])
              (resolved_client [aborted; accepted]) tenant_a_token AbortError
              (example_script [accepted]) eq_refl eq_refl) as [Hsdk Hsite].
  split; [apply Hsdk|apply Hsite]; reflexivity.
Defined.

Lemma keys_distinct_contradictory : keys_distinct contradictory_body.
Proof.
  unfold keys_distinct. simpl. repeat constructor; rewrite ?list_elem_of_In; simpl; intuition congruence.
Qed.

Lemma sdk_result_carries_body_witness :
  exists res st',
    SdkClient.request script_now script_fetch script_getSession EmptyString "GET" "/api/items"
      VUndef no_options (resolved_client [contradictory]) = (Ok res, st')
    /\ success_of res = VBool true
    /\ opt_prop res "error" = VStr "quota exceeded".
Proof.
  destruct (sdk_result_carries_body script_now script_fetch script_getSession EmptyString
              "GET" "/api/items" VUndef contradictory_body no_options
              (resolved_client [contradictory]) (resolved_client [contradictory])
              tenant_a_token 500 (example_script []) eq_refl eq_refl eq_refl)
    as (res & Hrun & Hmembers & _).
  - discriminate.
  - exact keys_distinct_contradictory.
  - eexists res, _. split; [exact Hrun|].
    split; [apply (Hmembers "success")|apply (Hmembers "error")]; reflexivity.
Defined.

Lemma never_succeeds_example :
  never_succeeds (fun (e : unit) (_ : Request) => (contradictory, e)).
Proof.
  intros e q status d e' s H Hok _. inversion H; subst. discriminate Hok.
Qed.

Lemma site_success_is_backend_success_witness :
  SiteClient.request script_now script_fetch script_sb_getSession script_sb_refreshSession
    EmptyString "GET" "/api/items" VUndef no_options (resolved_client [accepted])
  = (Ok (VObj [("success", VBool true); ("data", VNum 7 0); ("message", VUndef)]),
     mkClient (Some tenant_a_token) (Some (Num 1893456000000)) (example_script [])
       [mkRequest "/api/items" "GET"
          (bearer {[ "Content-Type" := "application/json" ]} tenant_a_token) None true])
  /\ exists e st',
      SiteClient.request (fun e : unit => (0, e)) (fun (e : unit) _ => (contradictory, e))
        (fun e => (Ok (Some example_sb_session), e))
        (fun e => (Ok (Some example_sb_session, false), e))
        EmptyString "GET" "/api/items" VUndef no_options (mkClient None None tt [])
      = (Ok (failure e), st').
Proof.
  split.
  - destruct (site_success_is_backend_success script_now script_fetch script_sb_getSession
                script_sb_refreshSession EmptyString "GET" "/api/items" VUndef no_options
                (resolved_client [accepted])) as [Hpos _].
    apply (Hpos (resolved_client [accepted]) tenant_a_token 200 accepted_body (VBool true)
             (example_script [])); reflexivity.
  - destruct (site_success_is_backend_success (fun e : unit => (0, e))
                (fun (e : unit) _ => (contradictory, e))
                (fun e => (Ok (Some example_sb_session), e))
                (fun e => (Ok (Some example_sb_session, false), e))
                EmptyString "GET" "/api/items" VUndef no_options (mkClient None None tt []))
      as [_ Hneg].
    apply Hneg. exact never_succeeds_example.
Defined.

(** ** The auth service: further properties *)

Section ServiceFacts.
Context `{RT : Runtime}.

Lemma cleared_frame (w : AuthService.World) :
  surroundings (cleared w) = surroundings w
  /\ AuthService.net_log (cleared w) = AuthService.net_log w
  /\ AuthService.clock_reads (cleared w) = AuthService.clock_reads w
  /\ no_new_entries (AuthService.ls_items w) (AuthService.ls_items (cleared w)).
Proof.
  unfold cleared. destruct (_ && _); repeat split; try (intros k v H; exact H).
  intros k v. cbn [AuthService.ls_items AuthService.with_items].
  rewrite !lookup_delete_Some. tauto.
Qed.

Lemma loaded_frame (w : AuthService.World) :
  surroundings (snd (loaded w)) = surroundings w
  /\ AuthService.net_log (snd (loaded w)) = AuthService.net_log w
  /\ no_new_entries (AuthService.ls_items w) (AuthService.ls_items (snd (loaded w))).
Proof.
  unfold loaded.
  repeat match goal with
         | |- context [if ?b then _ else _] => destruct b
         | |- context [match ?x with _ => _ end] => destruct x
         end; cbn [snd].
  all: try (split; [reflexivity|split; [reflexivity|intros ? ? Hk; exact Hk]]).
  all: destruct (cleared_frame (AuthService.tick w)) as (H1 & H2 & _ & H3).
  all: split; [exact H1|split; [exact H2|exact H3]].
Qed.

Lemma getApiUrl_surroundings (w w' : AuthService.World) :
  surroundings w' = surroundings w -> AuthService.getApiUrl w' = AuthService.getApiUrl w.
Proof.
  unfold surroundings, AuthService.getApiUrl. intros H. injection H as -> _ _ _ _ -> -> ->.
  reflexivity.
Qed.

(** [apiRequest], run: one call, made after the stored session was read. *)
Lemma apiRequest_run (endpoint method : string) (body : value) (w : AuthService.World) :
  let session := fst (loaded w) in
  let w1 := snd (loaded w) in
  let req := api_call w endpoint method body session in
  exists r,
    AuthService.apiRequest endpoint method body w = (r, AuthService.logged req w1)
    /\ match AuthService.backend w (AuthService.net_log w) req with
       | Rejected x => r = Throw x
       | Responded status None => exists x, r = Throw x
       | Responded status (Some data) =>
           if response_ok status then r = Ok data else exists x, r = Throw x
       end.
Proof.
  intros session w1 req.
  destruct (loaded_frame w) as (Hsur & Hlog & _). fold w1 in Hsur, Hlog.
  assert (Hb : AuthService.backend w1 = AuthService.backend w).
  { unfold surroundings in Hsur. congruence. }
  unfold AuthService.apiRequest, bind at 1, gets.
  unfold bind at 1. rewrite getStoredSession_run. fold session w1.
  assert (Hurl : (if negb (String.eqb (AuthService.getApiUrl w) EmptyString)
                  then AuthService.getApiUrl w ++ endpoint else endpoint)
                 = AuthService.getApiUrl w ++ endpoint).
  { destruct (String.eqb_spec (AuthService.getApiUrl w) EmptyString) as [->|_]; reflexivity. }
  rewrite Hurl.
  assert (Hhead : forall (k : gmap string string -> M AuthService.World value),
             bind (if truthy session
                   then bind (lift (get_prop session "accessToken"))
                          (fun a => ret (<[ "Authorization" := "Bearer " ++ ToString a ]>
                                           ({[ "Content-Type" := "application/json" ]}
                                              : gmap string string)))
                   else ret {[ "Content-Type" := "application/json" ]}) k w1
             = k (req_headers req) w1).
  { intros k. unfold req, api_call. cbn [req_headers].
    destruct (truthy session) eqn:Ht; [|reflexivity].
    unfold bind, lift, ret. rewrite (get_prop_truthy _ _ Ht). reflexivity. }
  rewrite Hhead.
  change (mkRequest (AuthService.getApiUrl w ++ endpoint) method (req_headers req)
            (if truthy body && String.eqb method "POST" then Some (JSON_stringify body)
             else None) false) with req.
  unfold bind at 1, AuthService.fetch. rewrite Hb, Hlog.
  destruct (AuthService.backend w (AuthService.net_log w) req) as [x|status [data|]].
  - eexists. split; reflexivity.
  - unfold bind at 1, lift, response_json. cbn [fst snd].
    destruct (response_ok status); cbn [negb].
    + eexists. split; reflexivity.
    + unfold bind, lift, ret, throw.
      repeat match goal with
             | |- context [match ?x with _ => _ end] =>
                 lazymatch x with
                 | context [match _ with _ => _ end] => fail
                 | _ => destruct x
                 end
             end; eexists; (split; [reflexivity|]); eexists; reflexivity.
  - eexists. split; [reflexivity|]. eexists. reflexivity.
Qed.


Lemma apiRequest_world (endpoint method : string) (body : value)
      (w w' : AuthService.World) (r : result value) :
  AuthService.apiRequest endpoint method body w = (r, w') ->
  surroundings w' = surroundings w
  /\ AuthService.ls_items w' = AuthService.ls_items (snd (loaded w))
  /\ no_new_entries (AuthService.ls_items w) (AuthService.ls_items w').
Proof.
  intros H. destruct (apiRequest_run endpoint method body w) as (r0 & Hrun & _).
  rewrite Hrun in H. inversion H; subst. clear H.
  destruct (loaded_frame w) as (Hsur & _ & Hsub).
  split; [exact Hsur|]. split; [reflexivity|exact Hsub].
Qed.

(** X13. [apiRequest] makes exactly one call, whatever it is asked: to the
    configured base URL followed by the endpoint, with the JSON content type,
    with the stored session's access token as bearer token when (and only
    when) a session that has not expired is stored, and with a body only for
    a truthy body on a [POST].  It returns the parsed answer on a 2xx status
    and throws in every other case; the storage is what reading the session
    left. *)
Theorem apiRequest_makes_one_call
  (endpoint method : string) (body session : value) (w w1 : AuthService.World) :
  AuthService.getStoredSession w = (Ok session, w1) ->
  let req :=
    mkRequest (AuthService.getApiUrl w ++ endpoint) method
      (if truthy session
       then <[ "Authorization" := "Bearer " ++ ToString (opt_prop session "accessToken") ]>
              {[ "Content-Type" := "application/json" ]}
       else {[ "Content-Type" := "application/json" ]})
      (if truthy body && String.eqb method "POST" then Some (JSON_stringify body) else None)
      false in
  exists r w',
    AuthService.apiRequest endpoint method body w = (r, w')
    /\ AuthService.net_log w' = (AuthService.net_log w ++ [req])%list
    /\ AuthService.ls_items w' = AuthService.ls_items w1
    /\ match AuthService.backend w (AuthService.net_log w) req with
       | Rejected x => r = Throw x
       | Responded status None => exists x, r = Throw x
       | Responded status (Some data) =>
           if response_ok status then r = Ok data else exists x, r = Throw x
       end.
Proof.
  intros Hs. rewrite getStoredSession_run in Hs. inversion Hs as [[Hsession Hw1]].
  clear Hs. intros req.
  destruct (apiRequest_run endpoint method body w) as (r & Hrun & Hr).
  destruct (loaded_frame w) as (_ & Hlog & _).
  exists r, (AuthService.logged req (snd (loaded w))).
  split; [exact Hrun|].
  cbn [AuthService.net_log AuthService.logged AuthService.ls_items].
  rewrite Hlog. split; [reflexivity|]. split; [reflexivity|]. exact Hr.
Qed.

Lemma storeSession_ok (session : value) (w : AuthService.World) :
  exists w', AuthService.storeSession session w = (Ok tt, w')
             /\ surroundings w' = surroundings w.
Proof.
  unfold AuthService.storeSession, bind, gets, try_catch, AuthService.setItem, lift, ret.
  repeat match goal with
         | |- context [match ?x with _ => _ end] =>
             lazymatch x with
             | context [match _ with _ => _ end] => fail
             | _ => destruct x eqn:?
             end
         end; eexists; split; reflexivity.
Qed.


Lemma session_of_run (response : value) (w : AuthService.World) :
  truthy (opt_prop response "success") = true ->
  AuthService.session_of response w = (Ok (opt_prop response "session"), w).
Proof.
  intros Hs. unfold AuthService.session_of, bind, lift.
  assert (Hr : forall k, get_prop response k = Ok (opt_prop response k)).
  { intros k. destruct response; try discriminate Hs. reflexivity. }
  rewrite Hr, Hs, Hr. reflexivity.
Qed.

(** X14. A sign-in or sign-up that the backend answers with [success] and a
    session stores that session and returns it: in a browser whose storage
    takes the writes, the three entries hold the session's JSON text and its
    two tokens; and a later read that finds them, before the session expires,
    gives the session back, so that [isAuthenticated] answers true. *)
Theorem sign_in_stores_the_session
  (email password : string) (displayName : option string)
  (metadata : option (list (string * value)))
  (response session : value) (w w1 : AuthService.World) :
  AuthService.window_defined w = true ->
  AuthService.ls_denied w = false ->
  AuthService.ls_full w = false ->
  truthy (opt_prop response "success") = true ->
  opt_prop response "session" = session ->
  truthy session = true ->
  AuthService.apiRequest AuthService.SIGNIN "POST"
    (VObj [("email", VStr email); ("password", VStr password)]) w = (Ok response, w1)
  \/ AuthService.apiRequest AuthService.SIGNUP "POST"
       (VObj [("email", VStr email); ("password", VStr password);
              ("displayName", default VUndef (VStr <$> displayName));
              ("metadata", default VUndef (VObj <$> metadata))]) w = (Ok response, w1) ->
  exists w',
    (AuthService.apiRequest AuthService.SIGNIN "POST"
       (VObj [("email", VStr email); ("password", VStr password)]) w = (Ok response, w1) ->
     AuthService.signIn email password w = (Ok session, w'))
    /\ (AuthService.apiRequest AuthService.SIGNUP "POST"
         (VObj [("email", VStr email); ("password", VStr password);
                ("displayName", default VUndef (VStr <$> displayName));
                ("metadata", default VUndef (VObj <$> metadata))]) w = (Ok response, w1) ->
        AuthService.signUp email password displayName metadata w = (Ok session, w'))
    /\ AuthService.ls_items w' !! AuthService.SESSION = Some (JSON_stringify session)
    /\ AuthService.ls_items w' !! AuthService.ACCESS_TOKEN
       = Some (ToString (opt_prop session "accessToken"))
    /\ AuthService.ls_items w' !! AuthService.REFRESH_TOKEN
       = Some (ToString (opt_prop session "refreshToken"))
    /\ (JSON_stringify session <> EmptyString ->
        JSON_parse (JSON_stringify session) = Some session ->
        (forall n, num_lt (date_time (opt_prop session "expiresAt"))
                          (Num (AuthService.clock w n)) = false) ->
        AuthService.getStoredSession w' = (Ok session, AuthService.tick w')
        /\ AuthService.isAuthenticated w' = (Ok true, AuthService.tick w')).
Proof.
  intros Hw Hd Hf Hsucc Hsess Ht Hreq.
  assert (Hw1 : surroundings w1 = surroundings w).
  { destruct Hreq as [H | H]; apply (apiRequest_world _ _ _ _ _ _ H). }
  unfold surroundings in Hw1. injection Hw1 as Hw1 Hd1 Hf1 Hclock _ _ _ _.
  rewrite Hw in Hw1. rewrite Hd in Hd1. rewrite Hf in Hf1.
  exists (stored session w1).
  split; [|split].
  - intros H. unfold AuthService.signIn, bind at 1. rewrite H.
    unfold bind at 1. rewrite (session_of_run _ _ Hsucc), Hsess, Ht. cbn [negb].
    unfold bind. rewrite (storeSession_run session w1 Hw1 Hd1 Hf1 Ht). reflexivity.
  - intros H. unfold AuthService.signUp, bind at 1. rewrite H.
    unfold bind at 1. rewrite (session_of_run _ _ Hsucc), Hsess, Ht. cbn [negb].
    unfold bind. rewrite (storeSession_run session w1 Hw1 Hd1 Hf1 Ht). reflexivity.
  - assert (Hsession_entry :
              AuthService.ls_items (stored session w1) !! AuthService.SESSION
              = Some (JSON_stringify session)).
    { unfold stored. cbn [AuthService.ls_items AuthService.with_items].
      rewrite lookup_insert_ne by discriminate.
      rewrite lookup_insert_ne by discriminate.
      apply lookup_insert_eq. }
    split; [exact Hsession_entry|]. split; [|split].
    + unfold stored. cbn [AuthService.ls_items AuthService.with_items].
      rewrite lookup_insert_ne by discriminate. apply lookup_insert_eq.
    + unfold stored. cbn [AuthService.ls_items AuthService.with_items].
      apply lookup_insert_eq.
    + intros Hne Hrt Hexp.
      assert (Hl : loaded (stored session w1)
                   = (session, AuthService.tick (stored session w1))).
      { unfold loaded. rewrite Hsession_entry.
        change (AuthService.window_defined (stored session w1))
          with (AuthService.window_defined w1).
        change (AuthService.ls_denied (stored session w1)) with (AuthService.ls_denied w1).
        rewrite Hw1, Hd1. cbn [negb orb].
        destruct (String.eqb_spec (JSON_stringify session) EmptyString) as [He|_];
          [contradiction|].
        rewrite Hrt, (get_prop_truthy _ _ Ht).
        change (AuthService.clock (stored session w1)) with (AuthService.clock w1).
        rewrite Hclock, Hexp. reflexivity. }
      rewrite getStoredSession_run, isAuthenticated_run, Hl. cbn [fst snd].
      split; [reflexivity|].
      destruct session; try discriminate Ht; reflexivity.
Qed.


(** X15. A sign-in, a sign-up or a password-reset request that fails writes
    nothing to the storage: whatever it throws, the storage afterwards holds
    no entry it did not hold before (an expired session may have been
    removed).  The password-reset request never writes at all. *)
Theorem failed_sign_in_stores_nothing
  (email password : string) (displayName : option string)
  (metadata : option (list (string * value)))
  (w w' : AuthService.World) (x : exn) :
  AuthService.signIn email password w = (Throw x, w')
  \/ AuthService.signUp email password displayName metadata w = (Throw x, w')
  \/ (exists r, AuthService.sendPasswordResetEmail email w = (r, w')) ->
  no_new_entries (AuthService.ls_items w) (AuthService.ls_items w').
Proof.
  assert (Hcore : forall endpoint request fallback code,
             bind (AuthService.apiRequest endpoint "POST" request) (fun response =>
               bind (AuthService.session_of response) (fun session =>
                 if negb (truthy session) then
                   throw (AuthService.AuthServiceError
                            (AuthService.error_message response fallback)
                            (AuthService.error_code response code))
                 else bind (AuthService.storeSession session) (fun _ => ret session))) w
             = (Throw x, w') ->
             no_new_entries (AuthService.ls_items w) (AuthService.ls_items w')).
  { intros endpoint request fallback code H. unfold bind at 1 in H.
    destruct (AuthService.apiRequest endpoint "POST" request w) as [[response|x0] w1] eqn:Hreq.
    - destruct (apiRequest_world _ _ _ _ _ _ Hreq) as (_ & _ & Hsub).
      unfold bind at 1, AuthService.session_of, bind, lift, ret, throw in H.
      destruct (get_prop response "success") as [s0|x0]; [|inversion H; subst; exact Hsub].
      destruct (truthy s0).
      + destruct (get_prop response "session") as [session|x0];
          [|inversion H; subst; exact Hsub].
        destruct (truthy session); cbn [negb] in H; [|inversion H; subst; exact Hsub].
        destruct (storeSession_ok session w1) as (w2 & Hst & _). rewrite Hst in H.
        discriminate H.
      + cbn [truthy negb] in H. inversion H; subst; exact Hsub.
    - inversion H; subst. apply (apiRequest_world _ _ _ _ _ _ Hreq). }
  intros [H | [H | [r H]]].
  - exact (Hcore _ _ _ _ H).
  - exact (Hcore _ _ _ _ H).
  - unfold AuthService.sendPasswordResetEmail, bind at 1 in H.
    destruct (AuthService.apiRequest AuthService.RESET_PASSWORD "POST" _ w)
      as [[response|x0] w1] eqn:Hreq.
    + destruct (apiRequest_world _ _ _ _ _ _ Hreq) as (_ & _ & Hsub).
      unfold bind, lift, ret, throw in H.
      destruct (get_prop response "success") as [s0|x0]; [|inversion H; subst; exact Hsub].
      destruct (truthy s0); cbn [negb] in H; inversion H; subst; exact Hsub.
    + inversion H; subst. apply (apiRequest_world _ _ _ _ _ _ Hreq).
Qed.


(** X16. When the backend answers a sign-in with a 2xx status but without
    success or without a session, and names no error, the user is told that
    the email or password is invalid: the fallback code [INVALID_CREDENTIALS]
    decides the message, and the fallback text [Sign in failed] is never
    shown.  A sign-up in the same situation says [Sign up failed], a
    password reset [Failed to send password reset email]. *)
Theorem sign_in_failure_messages
  (email password : string) (displayName : option string)
  (metadata : option (list (string * value)))
  (response : value) (w w1 : AuthService.World) :
  (forall s, ToString (VStr s) = s) ->
  truthy (opt_prop response "error") = false ->
  (exists s, get_prop response "success" = Ok s
             /\ (truthy s = true -> truthy (opt_prop response "session") = false)) ->
  (AuthService.apiRequest AuthService.SIGNIN "POST"
     (VObj [("email", VStr email); ("password", VStr password)]) w = (Ok response, w1) ->
   AuthService.signIn email password w
   = (Throw (mkExn true "AuthServiceError" "Invalid email or password. Please try again."),
      w1))
  /\ (AuthService.apiRequest AuthService.SIGNUP "POST"
       (VObj [("email", VStr email); ("password", VStr password);
              ("displayName", default VUndef (VStr <$> displayName));
              ("metadata", default VUndef (VObj <$> metadata))]) w = (Ok response, w1) ->
      AuthService.signUp email password displayName metadata w
      = (Throw (mkExn true "AuthServiceError" "Sign up failed"), w1))
  /\ (AuthService.apiRequest AuthService.RESET_PASSWORD "POST"
       (VObj [("email", VStr email)]) w = (Ok response, w1) ->
      truthy (opt_prop response "success") = false ->
      AuthService.sendPasswordResetEmail email w
      = (Throw (mkExn true "AuthServiceError" "Failed to send password reset email"), w1)).
Proof.
  intros Hstr Herr (s0 & Hs & Hsess).
  assert (Hr : forall k, get_prop response k = Ok (opt_prop response k)).
  { intros k. apply (get_prop_opt_prop _ _ _ _ Hs). }
  assert (Hmsg : forall fallback, AuthService.error_message response fallback = VStr fallback).
  { intros fallback. unfold AuthService.error_message, js_or.
    rewrite (opt_prop_falsy _ _ Herr). reflexivity. }
  assert (Hcode : forall fallback, AuthService.error_code response fallback = VStr fallback).
  { intros fallback. unfold AuthService.error_code, js_or.
    rewrite (opt_prop_falsy _ _ Herr). reflexivity. }
  assert (Hno : AuthService.session_of response w1 = (Ok VUndef, w1)
                \/ exists session, AuthService.session_of response w1 = (Ok session, w1)
                                   /\ truthy session = false).
  { unfold AuthService.session_of, bind, lift, ret. rewrite Hs.
    destruct (truthy s0) eqn:Ht; [|left; reflexivity].
    right. exists (opt_prop response "session"). rewrite Hr. split; [reflexivity|auto]. }
  assert (Hthrow : forall fallback code,
             bind (AuthService.session_of response) (fun session =>
               if negb (truthy session) then
                 throw (AuthService.AuthServiceError
                          (AuthService.error_message response fallback)
                          (AuthService.error_code response code))
               else bind (AuthService.storeSession session) (fun _ => ret session)) w1
             = (Throw (AuthService.AuthServiceError (VStr fallback) (VStr code)), w1)).
  { intros fallback code. unfold bind at 1.
    destruct Hno as [-> | (session & -> & Ht)]; [|rewrite Ht]; cbn [truthy negb];
      rewrite Hmsg, Hcode; reflexivity. }
  split; [|split].
  - intros H. unfold AuthService.signIn, bind at 1. rewrite H.
    rewrite Hthrow. unfold AuthService.AuthServiceError. cbn. rewrite Hstr. reflexivity.
  - intros H. unfold AuthService.signUp, bind at 1. rewrite H.
    rewrite Hthrow. unfold AuthService.AuthServiceError. cbn. rewrite Hstr. reflexivity.
  - intros H Hf. unfold AuthService.sendPasswordResetEmail, bind at 1. rewrite H.
    unfold bind, lift, throw. rewrite Hr, Hf. cbn [negb].
    rewrite Hmsg, Hcode. unfold AuthService.AuthServiceError. cbn. rewrite Hstr. reflexivity.
Qed.


(** [refreshSession], case by case. *)
Lemma refreshSession_run (w : AuthService.World) :
  let stored_session := fst (loaded w) in
  let w1 := snd (loaded w) in
  (truthy (opt_prop stored_session "refreshToken") = false
   /\ AuthService.refreshSession w = (Ok VNull, w1))
  \/ (truthy (opt_prop stored_session "refreshToken") = true
      /\ exists r w2,
          AuthService.apiRequest AuthService.REFRESH "POST"
            (VObj [("refreshToken", opt_prop stored_session "refreshToken")]) w1 = (r, w2)
          /\ (AuthService.refreshSession w = (Ok VNull, cleared w2)
              \/ exists response session w3,
                  r = Ok response
                  /\ truthy (opt_prop response "success") = true
                  /\ opt_prop response "session" = session
                  /\ truthy session = true
                  /\ AuthService.storeSession session w2 = (Ok tt, w3)
                  /\ AuthService.refreshSession w = (Ok session, w3))).
Proof.
  intros stored_session w1.
  destruct (AuthService.refreshSession w) as [r0 w0] eqn:Href.
  unfold AuthService.refreshSession, bind at 1 in Href.
  rewrite getStoredSession_run in Href. fold stored_session w1 in Href.
  destruct (truthy (opt_prop stored_session "refreshToken")) eqn:Hrt; cbn [negb] in Href.
  - right. split; [reflexivity|].
    assert (Hst : truthy stored_session = true).
    { destruct stored_session; try discriminate Hrt; reflexivity. }
    unfold try_catch, bind at 1, lift in Href. rewrite (get_prop_truthy _ _ Hst) in Href.
    unfold bind at 1 in Href.
    destruct (AuthService.apiRequest AuthService.REFRESH "POST" _ w1)
      as [[response|x] w2] eqn:Hreq.
    + exists (Ok response), w2. split; [reflexivity|].
      unfold bind at 1, lift in Href.
      destruct (get_prop response "success") as [s0|x] eqn:Hs.
      * destruct (truthy s0) eqn:Ht0.
        -- unfold bind at 1, lift in Href.
           rewrite (get_prop_opt_prop _ _ "session" _ Hs) in Href.
           destruct (truthy (opt_prop response "session")) eqn:Hts; cbn [negb orb] in Href.
           ++ right. destruct (storeSession_ok (opt_prop response "session") w2)
                as (w3 & Hstore & _).
              exists response, (opt_prop response "session"), w3.
              assert (Hsucc : truthy (opt_prop response "success") = true).
              { pose proof (get_prop_opt_prop _ _ "success" _ Hs) as Hs'.
                rewrite Hs in Hs'. inversion Hs'. subst. exact Ht0. }
              repeat (split; [reflexivity || assumption|]).
              unfold bind in Href. rewrite Hstore in Href. symmetry. exact Href.
           ++ left. unfold bind in Href. rewrite clearStoredSession_run in Href.
              symmetry. exact Href.
        -- left. unfold bind at 1, ret in Href. cbn [negb orb] in Href.
           unfold bind in Href. rewrite clearStoredSession_run in Href.
           symmetry. exact Href.
      * left. unfold bind in Href. rewrite clearStoredSession_run in Href.
        symmetry. exact Href.
    + exists (Throw x), w2. split; [reflexivity|]. left.
      unfold bind in Href. rewrite clearStoredSession_run in Href. symmetry. exact Href.
  - left. split; [reflexivity|]. symmetry. exact Href.
Qed.

Lemma truthy_or_null (v : value) : truthy v = true -> v <> VNull.
Proof. intros H ->. discriminate H. Qed.



Lemma storeSession_log (session : value) (w w' : AuthService.World) (r : result unit) :
  AuthService.storeSession session w = (r, w') ->
  AuthService.net_log w' = AuthService.net_log w.
Proof.
  unfold AuthService.storeSession, bind, gets, try_catch, AuthService.setItem, lift, ret.
  intros H.
  repeat match type of H with
         | context [match ?x with _ => _ end] =>
             lazymatch x with
             | context [match _ with _ => _ end] => fail
             | _ => destruct x eqn:?
             end
         end; inversion H; subst; reflexivity.
Qed.

Lemma cleared_log (w : AuthService.World) :
  AuthService.net_log (cleared w) = AuthService.net_log w.
Proof. apply cleared_frame. Qed.

(** A stored session that has not expired is read as it is. *)
Lemma loaded_valid (w : AuthService.World) (blob : string) (session : value) (expiry : Z) :
  AuthService.window_defined w = true ->
  AuthService.ls_denied w = false ->
  AuthService.ls_items w !! AuthService.SESSION = Some blob ->
  blob <> EmptyString ->
  JSON_parse blob = Some session ->
  truthy session = true ->
  date_time (opt_prop session "expiresAt") = Num expiry ->
  AuthService.clock w (AuthService.clock_reads w) <= expiry ->
  loaded w = (session, AuthService.tick w).
Proof.
  intros Hw Hd Hb Hne Hp Ht Hx Hle. unfold loaded.
  rewrite Hw, Hd, Hb, Hp. cbn [negb orb].
  destruct (String.eqb_spec blob EmptyString) as [He|_]; [contradiction|].
  rewrite (get_prop_truthy _ _ Ht), Hx. unfold num_lt.
  destruct (Z.ltb_spec expiry (AuthService.clock w (AuthService.clock_reads w)));
    [lia|reflexivity].
Qed.

(** X18. [getSession] refreshes a stored session that is within five
    minutes of its expiry, with exactly one call: a [POST] of the stored
    refresh token to the refresh endpoint, under the stored access token.  A
    session further from its expiry is returned as it is, without any
    call. *)
Theorem getSession_refreshes_near_expiry
  (w : AuthService.World) (blob : string) (session : value) (expiry : Z) :
  AuthService.window_defined w = true ->
  AuthService.ls_denied w = false ->
  AuthService.ls_items w !! AuthService.SESSION = Some blob ->
  blob <> EmptyString ->
  JSON_parse blob = Some session ->
  truthy session = true ->
  date_time (opt_prop session "expiresAt") = Num expiry ->
  (forall n, AuthService.clock w n <= expiry) ->
  let t := AuthService.clock w (S (AuthService.clock_reads w)) in
  (expiry < t + 5 * 60 * 1000 ->
   truthy (opt_prop session "refreshToken") = true ->
   exists v w',
     AuthService.getSession w = (Ok v, w')
     /\ AuthService.net_log w'
        = app (AuthService.net_log w)
            [mkRequest (AuthService.getApiUrl w ++ AuthService.REFRESH) "POST"
               (<[ "Authorization" := "Bearer " ++ ToString (opt_prop session "accessToken") ]>
                  {[ "Content-Type" := "application/json" ]})
               (Some (JSON_stringify
                        (VObj [("refreshToken", opt_prop session "refreshToken")])))
               false])
  /\ (t + 5 * 60 * 1000 <= expiry ->
      exists w',
        AuthService.getSession w = (Ok session, w')
        /\ AuthService.net_log w' = AuthService.net_log w).
Proof.
  intros Hw Hd Hb Hne Hp Ht Hx Hclock t.
  pose proof (loaded_valid w blob session expiry Hw Hd Hb Hne Hp Ht Hx (Hclock _)) as Hl0.
  assert (Hstart : AuthService.getSession w
                   = (if num_lt (Num expiry) (Num (t + 5 * 60 * 1000))
                      then AuthService.refreshSession
                      else ret session) (AuthService.tick (AuthService.tick w))).
  { unfold AuthService.getSession, bind at 1. rewrite getStoredSession_run, Hl0.
    cbn [fst snd]. rewrite Ht. cbn [negb].
    unfold bind at 1, lift. rewrite (get_prop_truthy _ _ Ht).
    unfold bind, AuthService.now. rewrite Hx. reflexivity. }
  split.
  - intros Hnear Hrt.
    assert (Hlt : num_lt (Num expiry) (Num (t + 5 * 60 * 1000)) = true).
    { unfold num_lt. apply Z.ltb_lt. exact Hnear. }
    rewrite Hstart, Hlt.
    set (w2 := AuthService.tick (AuthService.tick w)).
    pose proof (loaded_valid w2 blob session expiry Hw Hd Hb Hne Hp Ht Hx (Hclock _)) as Hl2.
    set (w3 := AuthService.tick w2) in *.
    pose proof (loaded_valid w3 blob session expiry Hw Hd Hb Hne Hp Ht Hx (Hclock _)) as Hl3.
    destruct (apiRequest_run AuthService.REFRESH "POST"
                (VObj [("refreshToken", opt_prop session "refreshToken")]) w3)
      as (r & Hreq & _).
    rewrite Hl3 in Hreq. cbn [fst snd] in Hreq.
    destruct (refreshSession_run w2)
      as [[Hno _] | (_ & r' & w4 & Hreq' &
                     [H | (response & s' & w5 & _ & _ & _ & _ & Hstore & H)])];
      rewrite Hl2 in *; cbn [fst snd] in *.
    + rewrite Hrt in Hno. discriminate Hno.
    + fold w3 in Hreq'. rewrite Hreq in Hreq'. inversion Hreq'; subst r' w4.
      eexists _, _. split; [exact H|]. rewrite cleared_log.
      cbn [AuthService.net_log AuthService.logged AuthService.tick].
      unfold api_call. rewrite Ht. reflexivity.
    + fold w3 in Hreq'. rewrite Hreq in Hreq'. inversion Hreq'; subst r' w4.
      eexists _, _. split; [exact H|]. rewrite (storeSession_log _ _ _ _ Hstore).
      cbn [AuthService.net_log AuthService.logged AuthService.tick].
      unfold api_call. rewrite Ht. reflexivity.
  - intros Hfar.
    assert (Hlt : num_lt (Num expiry) (Num (t + 5 * 60 * 1000)) = false).
    { unfold num_lt. apply Z.ltb_ge. exact Hfar. }
    rewrite Hstart, Hlt. eexists. split; reflexivity.
Qed.


(** X19. Where the backend is looked for.  A non-empty URL given to
    [configureAuth] is the base URL of the auth service from then on.
    Without one, the auth service prefers the browser's
    [window.__ZYLO_CONFIG__.apiUrl] to the environment's backend URL, and the
    authenticated client the environment's to the browser's: the two agree
    unless both are set.  An explicit empty base URL is kept by the SDK
    client's constructor and replaced by the site client's. *)
Theorem base_url_priority (w : AuthService.World) (url : string) :
  let env_url := AuthService.envBackendUrl w in
  let window_url := AuthService.windowConfigApiUrl w in
  let both := AuthService.window_defined w && AuthService.str_truthy window_url
              && AuthService.str_truthy env_url in
  (url <> EmptyString ->
   AuthService.getApiUrl (snd (AuthService.configureAuth url w)) = url)
  /\ (AuthService.str_truthy (AuthService.configuredApiUrl w) = false ->
      (both = true ->
       AuthService.getApiUrl w = default EmptyString window_url
       /\ SdkClient.getBaseUrl env_url (AuthService.window_defined w) window_url
          = default EmptyString env_url)
      /\ (both = false ->
          AuthService.getApiUrl w
          = SdkClient.getBaseUrl env_url (AuthService.window_defined w) window_url))
  /\ SdkClient.constructor (Some EmptyString) env_url (AuthService.window_defined w) window_url
     = EmptyString
  /\ SiteClient.constructor (Some EmptyString) env_url
     = SiteClient.constructor None env_url.
Proof.
  intros env_url window_url both. subst env_url window_url both.
  split; [|split; [|split]].
  - intros Hne. unfold AuthService.configureAuth, modify, AuthService.getApiUrl.
    cbn [snd AuthService.configuredApiUrl AuthService.str_truthy default from_option id].
    destruct (String.eqb_spec url EmptyString) as [He|_]; [contradiction|reflexivity].
  - intros Hc. unfold AuthService.getApiUrl, SdkClient.getBaseUrl. rewrite Hc.
    destruct (AuthService.window_defined w), (AuthService.str_truthy (AuthService.windowConfigApiUrl w)),
      (AuthService.str_truthy (AuthService.envBackendUrl w)); cbn [andb];
      split; intros H; try discriminate H; try reflexivity; split; reflexivity.
  - reflexivity.
  - reflexivity.
Qed.

End ServiceFacts.

Lemma apiRequest_makes_one_call_witness :
  exists r w',
    AuthService.apiRequest AuthService.SIGNOUT "GET" (VObj [("accessToken", VStr "t")])
      (signed_in_world 1893455000000) = (r, w')
    /\ AuthService.net_log w'
       = [mkRequest "/api/v1/auth/signout" "GET"
            (<[ "Authorization" := "Bearer " ++ tenant_a_token ]>
               {[ "Content-Type" := "application/json" ]})
            None false]
    /\ r = Throw (mkExn true "TypeError" "Failed to fetch").
Proof.
  destruct (apiRequest_makes_one_call AuthService.SIGNOUT "GET"
              (VObj [("accessToken", VStr "t")]) (session_value example_session)
              (signed_in_world 1893455000000)
              (AuthService.tick (signed_in_world 1893455000000)))
    as (r & w' & Hrun & Hlog & _ & Hr).
  - vm_compute. reflexivity.
  - exists r, w'. split; [exact Hrun|]. split; [exact Hlog|exact Hr].
Defined.

Lemma sign_in_stores_the_session_witness :
  exists w',
    AuthService.signIn "ann@example.com" "correct horse"
      (example_world ∅ 1893455000000 (answering (Responded 200 (Some sign_in_response))))
    = (Ok (session_value example_session), w')
    /\ AuthService.ls_items w' !! AuthService.ACCESS_TOKEN = Some tenant_a_token
    /\ AuthService.isAuthenticated w' = (Ok true, AuthService.tick w').
Proof.
  set (w := example_world ∅ 1893455000000 (answering (Responded 200 (Some sign_in_response)))).
  destruct (sign_in_stores_the_session "ann@example.com" "correct horse" None None
              sign_in_response (session_value example_session) w
              (snd (AuthService.apiRequest AuthService.SIGNIN "POST"
                      (VObj [("email", VStr "ann@example.com");
                             ("password", VStr "correct horse")]) w))
              eq_refl eq_refl eq_refl eq_refl eq_refl eq_refl (or_introl eq_refl))
    as (w' & Hin & _ & _ & Ha & _ & Hlater).
  exists w'. split; [apply Hin; reflexivity|]. split; [exact Ha|].
  apply Hlater.
  - intros H. vm_compute in H. discriminate H.
  - reflexivity.
  - intros n. reflexivity.
Defined.

Lemma failed_sign_in_stores_nothing_witness :
  no_new_entries
    (AuthService.ls_items (signed_in_world 1893455000000))
    (AuthService.ls_items
       (snd (AuthService.signIn "ann@example.com" "wrong"
               (signed_in_world 1893455000000)))).
Proof.
  apply (failed_sign_in_stores_nothing "ann@example.com" "wrong" None None
           (signed_in_world 1893455000000)
           (snd (AuthService.signIn "ann@example.com" "wrong" (signed_in_world 1893455000000)))
           (mkExn true "TypeError" "Failed to fetch")).
  left. vm_compute. reflexivity.
Defined.

Lemma sign_in_failure_messages_witness :
  AuthService.signIn "ann@example.com" "pw"
    (example_world ∅ 0 (answering (Responded 200 (Some bare_failure_response))))
  = (Throw (mkExn true "AuthServiceError" "Invalid email or password. Please try again."),
     snd (AuthService.apiRequest AuthService.SIGNIN "POST"
            (VObj [("email", VStr "ann@example.com"); ("password", VStr "pw")])
            (example_world ∅ 0 (answering (Responded 200 (Some bare_failure_response))))))
  /\ AuthService.signUp "ann@example.com" "pw" None None
       (example_world ∅ 0 (answering (Responded 200 (Some bare_failure_response))))
     = (Throw (mkExn true "AuthServiceError" "Sign up failed"),
        snd (AuthService.apiRequest AuthService.SIGNUP "POST"
               (VObj [("email", VStr "ann@example.com"); ("password", VStr "pw");
                      ("displayName", VUndef); ("metadata", VUndef)])
               (example_world ∅ 0 (answering (Responded 200 (Some bare_failure_response)))))).
Proof.
  set (w := example_world ∅ 0 (answering (Responded 200 (Some bare_failure_response)))).
  split.
  - destruct (sign_in_failure_messages "ann@example.com" "pw" None None bare_failure_response w
                (snd (AuthService.apiRequest AuthService.SIGNIN "POST"
                        (VObj [("email", VStr "ann@example.com"); ("password", VStr "pw")]) w)))
      as (Hin & _ & _).
    + intros s. reflexivity.
    + reflexivity.
    + exists (VBool false). split; [reflexivity|discriminate].
    + apply Hin. reflexivity.
  - destruct (sign_in_failure_messages "ann@example.com" "pw" None None bare_failure_response w
                (snd (AuthService.apiRequest AuthService.SIGNUP "POST"
                        (VObj [("email", VStr "ann@example.com"); ("password", VStr "pw");
                               ("displayName", VUndef); ("metadata", VUndef)]) w)))
      as (_ & Hup & _).
    + intros s. reflexivity.
    + reflexivity.
    + exists (VBool false). split; [reflexivity|discriminate].
    + apply Hup. reflexivity.
Defined.


Lemma getSession_refreshes_near_expiry_witness :
  (exists v w',
      AuthService.getSession (signed_in_world 1893455800000) = (Ok v, w')
      /\ AuthService.net_log w'
         = [mkRequest "/api/v1/auth/refresh" "POST"
              (<[ "Authorization" := "Bearer " ++ tenant_a_token ]>
                 {[ "Content-Type" := "application/json" ]})
              (Some (JSON_stringify (VObj [("refreshToken", VStr "refresh-1")])))
              false])
  /\ (exists w',
      AuthService.getSession (signed_in_world 1893455000000)
      = (Ok (session_value example_session), w')
      /\ AuthService.net_log w' = []).
Proof.
  split.
  - destruct (getSession_refreshes_near_expiry (signed_in_world 1893455800000)
                (JSON_stringify (session_value example_session))
                (session_value example_session) 1893456000000) as [Hnear _];
      try reflexivity.
    + intros H. vm_compute in H. discriminate H.
    + intros n. vm_compute. discriminate.
    + apply Hnear; [vm_compute; reflexivity|reflexivity].
  - destruct (getSession_refreshes_near_expiry (signed_in_world 1893455000000)
                (JSON_stringify (session_value example_session))
                (session_value example_session) 1893456000000) as [_ Hfar];
      try reflexivity.
    + intros H. vm_compute in H. discriminate H.
    + intros n. vm_compute. discriminate.
    + apply Hfar. vm_compute. discriminate.
Defined.

Lemma base_url_priority_witness :
  AuthService.getApiUrl
    (snd (AuthService.configureAuth "https://api.example.com"
            (AuthService.mkWorld true false false ∅ (fun _ => 0) 0 unreachable_backend []
               None (Some "https://window.example.com") (Some "https://env.example.com"))))
  = "https://api.example.com"
  /\ AuthService.getApiUrl
       (AuthService.mkWorld true false false ∅ (fun _ => 0) 0 unreachable_backend []
          None (Some "https://window.example.com") (Some "https://env.example.com"))
     = "https://window.example.com"
  /\ SdkClient.getBaseUrl (Some "https://env.example.com") true
       (Some "https://window.example.com")
     = "https://env.example.com".
Proof.
  destruct (base_url_priority
              (AuthService.mkWorld true false false ∅ (fun _ => 0) 0 unreachable_backend []
                 None (Some "https://window.example.com") (Some "https://env.example.com"))
              "https://api.example.com") as (Hconf & Hboth & _).
  split; [apply Hconf; discriminate|].
  destruct (Hboth eq_refl) as [Hdiff _]. apply Hdiff. reflexivity.
Defined.

(** ** The SDK provider *)

Section ProviderFacts.
Context `{RT : Runtime}.

Lemma refreshSession_ok (w : AuthService.World) :
  exists v w', AuthService.refreshSession w = (Ok v, w') /\ (v = VNull \/ truthy v = true).
Proof.
  destruct (refreshSession_run w)
    as [[_ H] | (_ & r & w2 & _ & [H | (response & session & w3 & _ & _ & _ & Ht & _ & H)])];
    eauto 6.
Qed.

Lemma getSession_ok (w : AuthService.World) :
  exists v w', AuthService.getSession w = (Ok v, w') /\ (v = VNull \/ truthy v = true).
Proof.
  unfold AuthService.getSession, bind at 1. rewrite getStoredSession_run.
  destruct (truthy (fst (loaded w))) eqn:Ht; cbn [negb].
  - unfold bind at 1, lift. rewrite (get_prop_truthy _ _ Ht).
    unfold bind at 1, AuthService.now.
    match goal with
    | |- context [if ?b then _ else _] => destruct b
    end.
    + apply refreshSession_ok.
    + eexists _, _. split; [reflexivity|]. right. exact Ht.
  - eexists _, _. split; [reflexivity|]. left. reflexivity.
Qed.

Lemma service_signOut_ok (w : AuthService.World) :
  exists w',
    AuthService.signOut w = (Ok tt, w')
    /\ (AuthService.window_defined w = true -> AuthService.ls_denied w = false ->
        no_session_entries w').
Proof.
  destruct (sdk_signOut_run w) as (w1 & Hrun & Hdev).
  exists (cleared w1). split; [exact Hrun|].
  intros Hw Hd. unfold device in Hdev. injection Hdev as Hw1 Hd1.
  apply cleared_lookup; congruence.
Qed.

(** [accept] on a truthy session. *)
Lemma accept_run (s : value) (st : ZyloProvider.State) :
  truthy s = true ->
  ZyloProvider.accept s st
  = (Ok tt, ZyloProvider.mkState (opt_prop s "user") s (ZyloProvider.isLoading st)
              (ZyloProvider.world st)).
Proof.
  intros Ht. unfold ZyloProvider.accept, bind, ZyloProvider.setSession, ZyloProvider.setUser,
    modify, lift.
  rewrite (get_prop_truthy _ _ Ht). reflexivity.
Qed.

Lemma validates_ok (projectId : string) (s : value) :
  truthy s = true -> exists b, ZyloProvider.validates projectId s = Ok b.
Proof.
  intros Ht. unfold ZyloProvider.validates.
  destruct (String.eqb projectId EmptyString || String.eqb projectId "dev"); [eauto|].
  rewrite (get_prop_truthy _ _ Ht). cbn [rbind].
  destruct (opt_prop s "accessToken"); eauto.
  rewrite validateSessionProject_spec. eauto.
Qed.


Lemma session_of_truthy (response session : value) (w w' : AuthService.World) :
  AuthService.session_of response w = (Ok session, w') -> w' = w.
Proof.
  unfold AuthService.session_of, bind, lift, ret. intros H.
  destruct (get_prop response "success") as [s0|x]; [|discriminate H].
  destruct (truthy s0); [|inversion H; reflexivity].
  destruct (get_prop response "session"); inversion H; reflexivity.
Qed.

Lemma service_sign_truthy (endpoint : string) (request : value) (fallback code : string)
      (w w' : AuthService.World) (s : value) :
  bind (AuthService.apiRequest endpoint "POST" request) (fun response =>
    bind (AuthService.session_of response) (fun session =>
      if negb (truthy session) then
        throw (AuthService.AuthServiceError
                 (AuthService.error_message response fallback)
                 (AuthService.error_code response code))
      else bind (AuthService.storeSession session) (fun _ => ret session))) w
  = (Ok s, w') ->
  truthy s = true.
Proof.
  unfold bind at 1. intros H.
  destruct (AuthService.apiRequest endpoint "POST" request w) as [[response|x] w1];
    [|discriminate H].
  unfold bind at 1 in H.
  destruct (AuthService.session_of response w1) as [[session|x] w2]; [|discriminate H].
  destruct (truthy session) eqn:Ht; cbn [negb] in H; [|discriminate H].
  unfold bind, ret in H.
  destruct (AuthService.storeSession session w2) as [[u|x] w3]; inversion H; subst.
  exact Ht.
Qed.

(** A sign-in or sign-up of the provider, case by case on what the auth
    service returns and on the tenant check. *)
Lemma provider_sign_run (m : M AuthService.World value) (message projectId : string)
      (st : ZyloProvider.State) :
  (forall w s w', m w = (Ok s, w') -> truthy s = true) ->
  let op :=
    bind (ZyloProvider.setIsLoading true) (fun _ =>
      try_finally
        (bind (ZyloProvider.in_world m) (fun newSession =>
           bind (lift (ZyloProvider.validates projectId newSession)) (fun valid =>
             if negb valid then
               bind (ZyloProvider.in_world AuthService.signOut) (fun _ =>
                 throw (JsError message))
             else ZyloProvider.accept newSession)))
        (ZyloProvider.setIsLoading false)) in
  match m (ZyloProvider.world st) with
  | (Throw x, w1) =>
      op st = (Throw x, ZyloProvider.mkState (ZyloProvider.user st) (ZyloProvider.session st)
                          false w1)
  | (Ok s, w1) =>
      exists valid,
        ZyloProvider.validates projectId s = Ok valid
        /\ if valid then
             op st = (Ok tt, ZyloProvider.mkState (opt_prop s "user") s false w1)
           else
             exists w2,
               AuthService.signOut w1 = (Ok tt, w2)
               /\ (AuthService.window_defined w1 = true -> AuthService.ls_denied w1 = false ->
                   no_session_entries w2)
               /\ op st = (Throw (JsError message),
                           ZyloProvider.mkState (ZyloProvider.user st)
                             (ZyloProvider.session st) false w2)
  end.
Proof.
  intros Htruthy op. subst op.
  destruct (m (ZyloProvider.world st)) as [[s|x] w1] eqn:Hm.
  - pose proof (Htruthy _ _ _ Hm) as Ht.
    destruct (validates_ok projectId s Ht) as [valid Hv]. exists valid. split; [exact Hv|].
    destruct valid.
    + unfold bind at 1, ZyloProvider.setIsLoading at 1, modify, try_finally.
      unfold bind at 1, ZyloProvider.in_world.
      cbn [ZyloProvider.world ZyloProvider.user ZyloProvider.session ZyloProvider.isLoading].
      rewrite Hm. unfold bind at 1, lift. rewrite Hv. cbn [negb].
      rewrite (accept_run _ _ Ht). reflexivity.
    + destruct (service_signOut_ok w1) as (w2 & Hout & Hgone).
      exists w2. split; [exact Hout|]. split; [exact Hgone|].
      unfold bind at 1, ZyloProvider.setIsLoading at 1, modify, try_finally.
      unfold bind at 1, ZyloProvider.in_world at 1.
      cbn [ZyloProvider.world ZyloProvider.user ZyloProvider.session ZyloProvider.isLoading].
      rewrite Hm. unfold bind at 1, lift. rewrite Hv. cbn [negb].
      unfold bind, ZyloProvider.in_world.
      cbn [ZyloProvider.world ZyloProvider.user ZyloProvider.session ZyloProvider.isLoading].
      rewrite Hout. reflexivity.
  - unfold bind at 1, ZyloProvider.setIsLoading at 1, modify, try_finally.
    unfold bind at 1, ZyloProvider.in_world.
    cbn [ZyloProvider.world ZyloProvider.user ZyloProvider.session ZyloProvider.isLoading].
    rewrite Hm. reflexivity.
Qed.


Lemma provider_signIn_unfold (projectId email password : string) :
  ZyloProvider.signIn projectId email password
  = bind (ZyloProvider.setIsLoading true) (fun _ =>
      try_finally
        (bind (ZyloProvider.in_world (AuthService.signIn email password)) (fun newSession =>
           bind (lift (ZyloProvider.validates projectId newSession)) (fun valid =>
             if negb valid then
               bind (ZyloProvider.in_world AuthService.signOut) (fun _ =>
                 throw (JsError "Authentication failed: Invalid project credentials"))
             else ZyloProvider.accept newSession)))
        (ZyloProvider.setIsLoading false)).
Proof. reflexivity. Qed.

Lemma provider_signUp_unfold (projectId email password : string)
      (metadata : option (list (string * value))) :
  ZyloProvider.signUp projectId email password metadata
  = bind (ZyloProvider.setIsLoading true) (fun _ =>
      try_finally
        (bind (ZyloProvider.in_world (AuthService.signUp email password None metadata))
           (fun newSession =>
           bind (lift (ZyloProvider.validates projectId newSession)) (fun valid =>
             if negb valid then
               bind (ZyloProvider.in_world AuthService.signOut) (fun _ =>
                 throw (JsError "Registration failed: Invalid project credentials"))
             else ZyloProvider.accept newSession)))
        (ZyloProvider.setIsLoading false)).
Proof. reflexivity. Qed.

Lemma service_signIn_truthy (email password : string) (w w' : AuthService.World) (s : value) :
  AuthService.signIn email password w = (Ok s, w') -> truthy s = true.
Proof. apply service_sign_truthy. Qed.

Lemma service_signUp_truthy (email password : string) (displayName : option string)
      (metadata : option (list (string * value))) (w w' : AuthService.World) (s : value) :
  AuthService.signUp email password displayName metadata w = (Ok s, w') -> truthy s = true.
Proof. apply service_sign_truthy. Qed.

(** The mount effect, case by case. *)
Lemma provider_initAuth_run (projectId : string) (st : ZyloProvider.State) :
  exists v w1,
    AuthService.getSession (ZyloProvider.world st) = (Ok v, w1)
    /\ ((v = VNull
         /\ ZyloProvider.initAuth projectId st
            = (Ok tt, ZyloProvider.mkState (ZyloProvider.user st) (ZyloProvider.session st)
                        false w1))
        \/ (truthy v = true
            /\ exists valid,
                ZyloProvider.validates projectId v = Ok valid
                /\ if valid then
                     ZyloProvider.initAuth projectId st
                     = (Ok tt, ZyloProvider.mkState (opt_prop v "user") v false w1)
                   else
                     exists w2,
                       AuthService.signOut w1 = (Ok tt, w2)
                       /\ (AuthService.window_defined w1 = true ->
                           AuthService.ls_denied w1 = false -> no_session_entries w2)
                       /\ ZyloProvider.initAuth projectId st
                          = (Ok tt, ZyloProvider.mkState (ZyloProvider.user st)
                                      (ZyloProvider.session st) false w2))).
Proof.
  destruct (getSession_ok (ZyloProvider.world st)) as (v & w1 & Hget & Hv).
  exists v, w1. split; [exact Hget|].
  destruct (ZyloProvider.initAuth projectId st) as [r0 st0] eqn:Hinit.
  unfold ZyloProvider.initAuth, try_finally, try_catch, bind at 1,
    ZyloProvider.in_world at 1 in Hinit.
  rewrite Hget in Hinit.
  destruct Hv as [-> | Ht].
  - left. split; [reflexivity|]. symmetry. exact Hinit.
  - right. split; [exact Ht|]. rewrite Ht in Hinit.
    destruct (validates_ok projectId v Ht) as [valid Hvalid]. exists valid.
    split; [exact Hvalid|].
    unfold bind at 1, lift in Hinit. rewrite Hvalid in Hinit.
    destruct valid.
    + rewrite (accept_run _ _ Ht) in Hinit. symmetry. exact Hinit.
    + destruct (service_signOut_ok w1) as (w2 & Hout & Hgone).
      exists w2. split; [exact Hout|]. split; [exact Hgone|].
      unfold ZyloProvider.in_world in Hinit.
      cbn [ZyloProvider.world ZyloProvider.user ZyloProvider.session ZyloProvider.isLoading]
        in Hinit.
      rewrite Hout in Hinit. symmetry. exact Hinit.
Qed.

(** What a sign-in or sign-up of the provider leaves behind, for the
    service call [m] they make and the message they throw. *)
Lemma provider_sign_effect
  (m : M AuthService.World value) (message projectId : string)
  (st st' : ZyloProvider.State) (r : result unit) :
  (forall w s w', m w = (Ok s, w') -> truthy s = true) ->
  bind (ZyloProvider.setIsLoading true) (fun _ =>
    try_finally
      (bind (ZyloProvider.in_world m) (fun newSession =>
         bind (lift (ZyloProvider.validates projectId newSession)) (fun valid =>
           if negb valid then
             bind (ZyloProvider.in_world AuthService.signOut) (fun _ =>
               throw (JsError message))
           else ZyloProvider.accept newSession)))
      (ZyloProvider.setIsLoading false)) st = (r, st') ->
  ZyloProvider.isLoading st' = false
  /\ ((ZyloProvider.user st' = ZyloProvider.user st
       /\ ZyloProvider.session st' = ZyloProvider.session st)
      \/ (r = Ok tt
          /\ truthy (ZyloProvider.session st') = true
          /\ ZyloProvider.validates projectId (ZyloProvider.session st') = Ok true
          /\ ZyloProvider.user st' = opt_prop (ZyloProvider.session st') "user")).
Proof.
  intros Htruthy H.
  pose proof (provider_sign_run m message projectId st Htruthy) as Hrun.
  cbv zeta in Hrun.
  destruct (m (ZyloProvider.world st)) as [[s|x] w1] eqn:Hm.
  - destruct Hrun as (valid & Hv & Hrun). destruct valid.
    + rewrite Hrun in H. inversion H; subst. split; [reflexivity|]. right.
      cbn [ZyloProvider.session ZyloProvider.user].
      repeat split; [exact (Htruthy _ _ _ Hm)|exact Hv].
    + destruct Hrun as (w2 & _ & _ & Hrun). rewrite Hrun in H. inversion H; subst.
      split; [reflexivity|]. left. split; reflexivity.
  - rewrite Hrun in H. inversion H; subst. split; [reflexivity|]. left. split; reflexivity.
Qed.

(** What the mount effect of the provider leaves behind. *)
Lemma provider_mount_effect
  (projectId : string) (enabled : option bool) (st st' : ZyloProvider.State)
  (r : result unit) :
  ZyloProvider.mount projectId enabled st = (r, st') ->
  ZyloProvider.isLoading st' = false
  /\ ((ZyloProvider.user st' = ZyloProvider.user st
       /\ ZyloProvider.session st' = ZyloProvider.session st)
      \/ (r = Ok tt
          /\ truthy (ZyloProvider.session st') = true
          /\ ZyloProvider.validates projectId (ZyloProvider.session st') = Ok true
          /\ ZyloProvider.user st' = opt_prop (ZyloProvider.session st') "user")).
Proof.
  intros H. unfold ZyloProvider.mount in H.
  destruct (default false enabled).
  - destruct (provider_initAuth_run projectId st)
      as (v & w1 & _ & [[_ Hrun] | (Ht & valid & Hv & Hrun)]).
    + rewrite Hrun in H. inversion H; subst. split; [reflexivity|]. left. split; reflexivity.
    + destruct valid.
      * rewrite Hrun in H. inversion H; subst. split; [reflexivity|]. right.
        cbn [ZyloProvider.session ZyloProvider.user]. repeat split; assumption.
      * destruct Hrun as (w2 & _ & _ & Hrun). rewrite Hrun in H. inversion H; subst.
        split; [reflexivity|]. left. split; reflexivity.
  - unfold ZyloProvider.setIsLoading, modify in H. inversion H; subst.
    split; [reflexivity|]. left. split; reflexivity.
Qed.

(** X20. The provider ends every sign-in, sign-up and mount with
    [isLoading] off, whether it throws or not, and installs a session only
    after it passed the tenant check: afterwards either user and session are
    what they were, or the operation returned normally and the session is
    one that validates, with its own user as the user. *)
Theorem provider_installs_validated_sessions
  (projectId email password : string) (metadata : option (list (string * value)))
  (enabled : option bool) (st st' : ZyloProvider.State) (r : result unit) :
  ZyloProvider.signIn projectId email password st = (r, st')
  \/ ZyloProvider.signUp projectId email password metadata st = (r, st')
  \/ ZyloProvider.mount projectId enabled st = (r, st') ->
  ZyloProvider.isLoading st' = false
  /\ ((ZyloProvider.user st' = ZyloProvider.user st
       /\ ZyloProvider.session st' = ZyloProvider.session st)
      \/ (r = Ok tt
          /\ truthy (ZyloProvider.session st') = true
          /\ ZyloProvider.validates projectId (ZyloProvider.session st') = Ok true
          /\ ZyloProvider.user st' = opt_prop (ZyloProvider.session st') "user")).
Proof.
  intros [H | [H | H]].
  - rewrite provider_signIn_unfold in H.
    apply (provider_sign_effect (AuthService.signIn email password)
             "Authentication failed: Invalid project credentials" projectId st st' r);
      [|exact H].
    intros w s w'. apply service_signIn_truthy.
  - rewrite provider_signUp_unfold in H.
    apply (provider_sign_effect (AuthService.signUp email password None metadata)
             "Registration failed: Invalid project credentials" projectId st st' r);
      [|exact H].
    intros w s w'. apply service_signUp_truthy.
  - exact (provider_mount_effect projectId enabled st st' r H).
Qed.

(** X21. A session of another tenant never reaches the provider's state.
    When the auth service returns a session that fails the tenant check, a
    sign-in or sign-up throws the credentials error and the mount returns
    quietly; in each case the auth service has been signed out (the session
    entries are gone from a readable storage), user and session are what they
    were and [isLoading] is off. *)
Theorem provider_rejects_foreign_sessions
  (projectId email password : string) (metadata : option (list (string * value)))
  (st : ZyloProvider.State) (s : value) (w1 : AuthService.World) :
  ZyloProvider.validates projectId s = Ok false ->
  let rejected (w2 : AuthService.World) :=
    ZyloProvider.mkState (ZyloProvider.user st) (ZyloProvider.session st) false w2 in
  let signed_out (w2 : AuthService.World) :=
    AuthService.signOut w1 = (Ok tt, w2)
    /\ (AuthService.window_defined w1 = true -> AuthService.ls_denied w1 = false ->
        no_session_entries w2) in
  (AuthService.signIn email password (ZyloProvider.world st) = (Ok s, w1) ->
   exists w2,
     signed_out w2
     /\ ZyloProvider.signIn projectId email password st
        = (Throw (JsError "Authentication failed: Invalid project credentials"), rejected w2))
  /\ (AuthService.signUp email password None metadata (ZyloProvider.world st) = (Ok s, w1) ->
      exists w2,
        signed_out w2
        /\ ZyloProvider.signUp projectId email password metadata st
           = (Throw (JsError "Registration failed: Invalid project credentials"),
              rejected w2))
  /\ (AuthService.getSession (ZyloProvider.world st) = (Ok s, w1) ->
      exists w2,
        signed_out w2
        /\ ZyloProvider.mount projectId (Some true) st = (Ok tt, rejected w2)).
Proof.
  intros Hv rejected signed_out. subst rejected signed_out. cbv beta.
  split; [|split].
  - intros Hm. rewrite provider_signIn_unfold.
    pose proof (provider_sign_run (AuthService.signIn email password)
                  "Authentication failed: Invalid project credentials" projectId st
                  (fun w s w' => service_signIn_truthy email password w w' s)) as Hrun.
    cbv zeta in Hrun. rewrite Hm in Hrun.
    destruct Hrun as (valid & Hv' & Hrun). rewrite Hv in Hv'. inversion Hv'; subst valid.
    destruct Hrun as (w2 & Hout & Hgone & Hrun). exists w2. auto.
  - intros Hm. rewrite provider_signUp_unfold.
    pose proof (provider_sign_run (AuthService.signUp email password None metadata)
                  "Registration failed: Invalid project credentials" projectId st
                  (fun w s w' => service_signUp_truthy email password None metadata w w' s))
      as Hrun.
    cbv zeta in Hrun. rewrite Hm in Hrun.
    destruct Hrun as (valid & Hv' & Hrun). rewrite Hv in Hv'. inversion Hv'; subst valid.
    destruct Hrun as (w2 & Hout & Hgone & Hrun). exists w2. auto.
  - intros Hm. unfold ZyloProvider.mount. cbn [default from_option id].
    destruct (provider_initAuth_run projectId st)
      as (v & w1' & Hget & [[Hnull Hrun] | (Ht & valid & Hv' & Hrun)]);
      rewrite Hm in Hget; inversion Hget; subst v w1'.
    + subst s. unfold ZyloProvider.validates in Hv.
      destruct (String.eqb projectId EmptyString || String.eqb projectId "dev");
        discriminate Hv.
    + rewrite Hv in Hv'. inversion Hv'; subst valid.
      destruct Hrun as (w2 & Hout & Hgone & Hrun). exists w2. auto.
Qed.

(** X22. [signOut] of the provider always returns, with user and session
    reset and [isLoading] off; [refreshSession] of the provider always
    returns too, and installs whatever session the auth service hands back,
    without the tenant check that guards sign-in, sign-up and mount. *)
Theorem provider_signOut_and_refresh (st : ZyloProvider.State) :
  (exists w',
      ZyloProvider.signOut st = (Ok tt, ZyloProvider.mkState VNull VNull false w')
      /\ (AuthService.window_defined (ZyloProvider.world st) = true ->
          AuthService.ls_denied (ZyloProvider.world st) = false -> no_session_entries w'))
  /\ (exists s w1,
      AuthService.refreshSession (ZyloProvider.world st) = (Ok s, w1)
      /\ ZyloProvider.refreshSession st
         = (Ok tt,
            if truthy s
            then ZyloProvider.mkState (opt_prop s "user") s (ZyloProvider.isLoading st) w1
            else ZyloProvider.mkState VNull VNull (ZyloProvider.isLoading st) w1)).
Proof.
  split.
  - destruct (service_signOut_ok (ZyloProvider.world st)) as (w' & Hout & Hgone).
    exists w'. split; [|exact Hgone].
    unfold ZyloProvider.signOut, bind at 1, ZyloProvider.setIsLoading at 1, modify, try_finally.
    unfold bind at 1, ZyloProvider.in_world.
    cbn [ZyloProvider.world ZyloProvider.user ZyloProvider.session ZyloProvider.isLoading].
    rewrite Hout. reflexivity.
  - destruct (refreshSession_ok (ZyloProvider.world st)) as (s & w1 & Hrun & Hs).
    exists s, w1. split; [exact Hrun|].
    unfold ZyloProvider.refreshSession, bind at 1, ZyloProvider.in_world. rewrite Hrun.
    destruct Hs as [-> | Ht].
    + reflexivity.
    + rewrite Ht. rewrite (accept_run _ _ Ht). reflexivity.
Qed.

(** X23. Every operation of the provider keeps user and session in step:
    starting from a state that holds no session and no user, or a session
    and that session's user, it ends in such a state. *)
Theorem provider_state_stays_coherent
  (projectId email password : string) (metadata : option (list (string * value)))
  (enabled : option bool) (st st' : ZyloProvider.State) (r : result unit) :
  coherent st ->
  ZyloProvider.mount projectId enabled st = (r, st')
  \/ ZyloProvider.signIn projectId email password st = (r, st')
  \/ ZyloProvider.signUp projectId email password metadata st = (r, st')
  \/ ZyloProvider.signOut st = (r, st')
  \/ ZyloProvider.refreshSession st = (r, st') ->
  coherent st'.
Proof.
  intros Hc H.
  assert (Hkeep : ZyloProvider.user st' = ZyloProvider.user st
                  /\ ZyloProvider.session st' = ZyloProvider.session st -> coherent st').
  { intros [Hu Hs]. unfold coherent. rewrite Hu, Hs. exact Hc. }
  assert (Hnew : truthy (ZyloProvider.session st') = true
                 /\ ZyloProvider.user st' = opt_prop (ZyloProvider.session st') "user" ->
                 coherent st').
  { intros [Ht Hu]. right. split; assumption. }
  destruct H as [H | [H | [H | [H | H]]]].
  - destruct (provider_mount_effect projectId enabled st st' r H)
      as (_ & [Hk | (_ & Ht & _ & Hu)]); auto.
  - rewrite provider_signIn_unfold in H.
    destruct (provider_sign_effect (AuthService.signIn email password)
                "Authentication failed: Invalid project credentials" projectId st st' r
                (fun w s w' => service_signIn_truthy email password w w' s) H)
      as (_ & [Hk | (_ & Ht & _ & Hu)]); auto.
  - rewrite provider_signUp_unfold in H.
    destruct (provider_sign_effect (AuthService.signUp email password None metadata)
                "Registration failed: Invalid project credentials" projectId st st' r
                (fun w s w' => service_signUp_truthy email password None metadata w w' s) H)
      as (_ & [Hk | (_ & Ht & _ & Hu)]); auto.
  - destruct (service_signOut_ok (ZyloProvider.world st)) as (w' & Hout & _).
    revert H.
    unfold ZyloProvider.signOut, bind at 1, ZyloProvider.setIsLoading at 1, modify, try_finally.
    unfold bind at 1, ZyloProvider.in_world.
    cbn [ZyloProvider.world ZyloProvider.user ZyloProvider.session ZyloProvider.isLoading].
    rewrite Hout. intros H. inversion H; subst. left. split; reflexivity.
  - destruct (refreshSession_ok (ZyloProvider.world st)) as (s & w1 & Hrun & Hs).
    revert H.
    unfold ZyloProvider.refreshSession, bind at 1, ZyloProvider.in_world. rewrite Hrun.
    destruct Hs as [-> | Ht].
    + intros H. inversion H; subst. left. split; reflexivity.
    + rewrite Ht, (accept_run _ _ Ht). intros H. inversion H; subst.
      apply Hnew. split; [exact Ht|reflexivity].
Qed.

End ProviderFacts.

Lemma provider_installs_validated_sessions_witness :
  let st' :=
    snd (ZyloProvider.signIn "tenant-a" "ann@example.com" "correct horse"
           (ZyloProvider.initial
              (example_world ∅ 1893455000000
                 (answering (Responded 200 (Some sign_in_response)))))) in
  ZyloProvider.isLoading st' = false
  /\ ZyloProvider.session st' = session_value example_session
  /\ ZyloProvider.validates "tenant-a" (ZyloProvider.session st') = Ok true.
Proof.
  cbv zeta.
  set (st := ZyloProvider.initial
               (example_world ∅ 1893455000000
                  (answering (Responded 200 (Some sign_in_response))))).
  destruct (provider_installs_validated_sessions "tenant-a" "ann@example.com" "correct horse"
              None None st
              (snd (ZyloProvider.signIn "tenant-a" "ann@example.com" "correct horse" st))
              (fst (ZyloProvider.signIn "tenant-a" "ann@example.com" "correct horse" st)))
    as (Hl & [(_ & Hs) | (_ & _ & Hv & _)]).
  - left. vm_compute. reflexivity.
  - vm_compute in Hs. discriminate Hs.
  - split; [exact Hl|]. split; [vm_compute; reflexivity | exact Hv].
Defined.

Lemma provider_rejects_foreign_sessions_witness :
  exists w2,
    ZyloProvider.signIn "tenant-a" "eve@example.com" "pw"
      (ZyloProvider.initial
         (example_world ∅ 1893455000000 (answering (Responded 200 (Some foreign_response)))))
    = (Throw (JsError "Authentication failed: Invalid project credentials"),
       ZyloProvider.mkState VNull VNull false w2)
    /\ no_session_entries w2.
Proof.
  set (w := example_world ∅ 1893455000000 (answering (Responded 200 (Some foreign_response)))).
  assert (Hv : ZyloProvider.validates "tenant-a" (session_value foreign_session) = Ok false)
    by (vm_compute; reflexivity).
  destruct (provider_rejects_foreign_sessions "tenant-a" "eve@example.com" "pw" None
              (ZyloProvider.initial w) (session_value foreign_session)
              (snd (AuthService.signIn "eve@example.com" "pw" w)) Hv)
    as (Hin & _ & _).
  destruct Hin as (w2 & (_ & Hgone) & Hrun); [vm_compute; reflexivity|].
  exists w2. split; [exact Hrun|]. apply Hgone; reflexivity.
Defined.

Lemma provider_state_stays_coherent_witness :
  coherent
    (snd (ZyloProvider.refreshSession
            (ZyloProvider.mkState (opt_prop (session_value example_session) "user")
               (session_value example_session) false (signed_in_world 1893455000000)))).
Proof.
  set (st := ZyloProvider.mkState (opt_prop (session_value example_session) "user")
               (session_value example_session) false (signed_in_world 1893455000000)).
  apply (provider_state_stays_coherent "tenant-a" "" "" None None st
           (snd (ZyloProvider.refreshSession st)) (fst (ZyloProvider.refreshSession st))).
  - right. split; vm_compute; reflexivity.
  - right. right. right. right. vm_compute. reflexivity.
Defined.

(** ** The site's auth context *)

Section SiteContextFacts.
Context `{RT : Runtime}.
Context {E : Type}.
Variable env_fetch : E -> Request -> FetchOutcome * E.
Variable sb_signOut : E -> result unit * E.
Variable sb_getSession : E -> result (option SiteAuth.Session) * E.
Variable sb_refreshSession : E -> result (option SiteAuth.Session * option exn) * E.
Variable envBackendUrl expectedProjectId : option string.

Abbreviation handleSessionUpdate := (SiteAuth.handleSessionUpdate sb_signOut expectedProjectId).
Abbreviation initializeAuth := (SiteAuth.initializeAuth sb_signOut sb_getSession expectedProjectId).
Abbreviation onAuthStateChange := (SiteAuth.onAuthStateChange sb_signOut expectedProjectId).
Abbreviation refreshSession :=
  (SiteAuth.refreshSession sb_signOut sb_refreshSession expectedProjectId).
Abbreviation site_signOut := (SiteAuth.signOut env_fetch sb_signOut envBackendUrl).

(** The token decoder of the site never throws. *)
Lemma site_decoder_returns (token : string) :
  exists p, Supabase.getProjectIdFromToken token = Ok p.
Proof.
  unfold Supabase.getProjectIdFromToken, decodeJwtPayload, rcatch, rbind.
  destruct (decodeJwtPayload_try token) as [payload|e]; cbn [truthy negb].
  - destruct payload; cbn [truthy negb get_prop]; eauto.
    + destruct b; cbn [negb]; eauto.
    + destruct (negb (negb (m =? 0))); eauto.
    + destruct (negb (negb (s =? "")%string)); eauto.
  - eauto.
Qed.

Lemma site_validator_returns (token : string) :
  exists b, Supabase.validateProjectId expectedProjectId token = Ok b.
Proof.
  unfold Supabase.validateProjectId.
  destruct (str_falsy expectedProjectId || bool_decide (expectedProjectId = Some "dev"));
    [eauto|].
  destruct (site_decoder_returns token) as [p ->]. cbn [rbind].
  destruct (str_falsy p); eauto.
Qed.

Lemma transformUser_run (u : option SiteAuth.SbUser) (token : string) :
  exists r, SiteAuth.transformUser u (Some token) = Ok r
            /\ forall a, r = Some a ->
                         Supabase.getProjectIdFromToken token = Ok (SiteAuth.au_projectId a).
Proof.
  destruct u as [u|]; cbn [SiteAuth.transformUser].
  - cbn [AuthService.str_truthy default from_option id].
    destruct (site_decoder_returns token) as [p Hp].
    destruct (negb (token =? "")%string) eqn:Ht.
    + rewrite Hp. cbn [rbind]. eexists. split; [reflexivity|].
      intros a Ha. inversion Ha; subst. reflexivity.
    + cbn [rbind]. eexists. split; [reflexivity|].
      intros a Ha. inversion Ha; subst. cbn [SiteAuth.au_projectId].
      apply negb_false_iff, String.eqb_eq in Ht. subst token. reflexivity.
  - exists None. split; [reflexivity|]. intros a Ha. discriminate Ha.
Qed.

(** Closed form of [handleSessionUpdate]. *)
Lemma handleSessionUpdate_run (newSession : option SiteAuth.Session)
      (st : SiteAuth.AuthState E) :
  match newSession with
  | None =>
      handleSessionUpdate None st
      = (Ok tt, SiteAuth.mkAuth None None (SiteAuth.loading st) (SiteAuth.error st)
                  (SiteAuth.auth_env st))
  | Some s =>
      exists valid,
        Supabase.validateProjectId expectedProjectId (access_token (SiteAuth.sess_fields s))
        = Ok valid
        /\ if valid then
             exists u,
               SiteAuth.transformUser (SiteAuth.sess_user s)
                 (Some (access_token (SiteAuth.sess_fields s))) = Ok u
               /\ handleSessionUpdate (Some s) st
                  = (Ok tt, SiteAuth.mkAuth u (Some (SiteAuth.sess_fields s))
                              (SiteAuth.loading st) None (SiteAuth.auth_env st))
           else
             handleSessionUpdate (Some s) st
             = (Ok tt, SiteAuth.mkAuth None None (SiteAuth.loading st)
                         (Some "Invalid project credentials")
                         (snd (sb_signOut (SiteAuth.auth_env st))))
  end.
Proof.
  destruct newSession as [s|]; [|reflexivity].
  destruct (site_validator_returns (access_token (SiteAuth.sess_fields s))) as [valid Hv].
  exists valid. split; [exact Hv|].
  unfold SiteAuth.handleSessionUpdate, bind at 1, lift. rewrite Hv.
  destruct valid; cbn [negb].
  - destruct (transformUser_run (SiteAuth.sess_user s) (access_token (SiteAuth.sess_fields s)))
      as (u & Hu & _).
    exists u. split; [exact Hu|].
    unfold bind, SiteAuth.setSession, SiteAuth.setUser, SiteAuth.setError, modify, lift.
    rewrite Hu. reflexivity.
  - unfold bind, SiteAuth.not_awaited, SiteAuth.clearSupabaseSession, SiteAuth.setSession,
      SiteAuth.setUser, SiteAuth.setError, modify.
    cbn. destruct (sb_signOut (SiteAuth.auth_env st)) as [r e]. reflexivity.
Qed.

Lemma handleSessionUpdate_in_step (newSession : option SiteAuth.Session)
      (st st' : SiteAuth.AuthState E) (r : result unit) :
  handleSessionUpdate newSession st = (r, st') ->
  r = Ok tt /\ in_step expectedProjectId st' /\ SiteAuth.loading st' = SiteAuth.loading st.
Proof.
  intros H. pose proof (handleSessionUpdate_run newSession st) as Hrun.
  destruct newSession as [s|].
  - destruct Hrun as (valid & Hv & Hrun). destruct valid.
    + destruct Hrun as (u & Hu & Hrun). rewrite Hrun in H. inversion H; subst.
      split; [reflexivity|]. split; [|reflexivity].
      unfold in_step. cbn [SiteAuth.session SiteAuth.user]. split; [exact Hv|].
      intros a Ha. subst u.
      destruct (transformUser_run (SiteAuth.sess_user s)
                  (access_token (SiteAuth.sess_fields s))) as (u' & Hu' & Hp).
      rewrite Hu in Hu'. inversion Hu'; subst. apply Hp. reflexivity.
    + rewrite Hrun in H. inversion H; subst. repeat split.
  - rewrite Hrun in H. inversion H; subst. repeat split.
Qed.

(** Closed form of the site's [signOut] on user and session. *)
Lemma site_signOut_effect (st st' : SiteAuth.AuthState E) (r : result unit) :
  site_signOut st = (r, st') ->
  (SiteAuth.user st' = None /\ SiteAuth.session st' = None)
  \/ (SiteAuth.user st' = SiteAuth.user st /\ SiteAuth.session st' = SiteAuth.session st).
Proof.
  unfold SiteAuth.signOut, bind at 1, SiteAuth.setLoading, modify, try_finally.
  unfold bind at 1, gets. cbn [SiteAuth.session].
  set (tok := access_token <$> SiteAuth.session st).
  destruct (AuthService.str_truthy tok).
  - unfold bind at 1, try_catch, bind at 1, SiteAuth.fetch. cbn [SiteAuth.auth_env].
    destruct (env_fetch (SiteAuth.auth_env st) _) as [[err|status body] e1];
      unfold ret, bind, SiteAuth.clearSupabaseSession; cbn [SiteAuth.auth_env];
      destruct (sb_signOut e1) as [[[]|e] e2];
      cbn; intros H; inversion H; subst; cbn; auto.
  - unfold ret, bind, SiteAuth.clearSupabaseSession. cbn [SiteAuth.auth_env].
    destruct (sb_signOut (SiteAuth.auth_env st)) as [[[]|e] e2];
      cbn; intros H; inversion H; subst; cbn; auto.
Qed.

Lemma in_step_kept (st st' : SiteAuth.AuthState E) :
  in_step expectedProjectId st ->
  (SiteAuth.user st' = None /\ SiteAuth.session st' = None)
  \/ (SiteAuth.user st' = SiteAuth.user st /\ SiteAuth.session st' = SiteAuth.session st) ->
  in_step expectedProjectId st'.
Proof.
  intros Hi [[Hu Hs] | [Hu Hs]]; unfold in_step in *; rewrite Hs, ?Hu.
  - reflexivity.
  - exact Hi.
Qed.

(** Closed form of [initializeAuth]. *)
Lemma initializeAuth_run (mounted : bool) (st : SiteAuth.AuthState E) :
  let moved e := SiteAuth.mkAuth (SiteAuth.user st) (SiteAuth.session st)
                   (SiteAuth.loading st) (SiteAuth.error st) e in
  match sb_getSession (SiteAuth.auth_env st), mounted with
  | (_, e), false => initializeAuth false st = (Ok tt, moved e)
  | (Throw _, e), true =>
      initializeAuth true st
      = (Ok tt, SiteAuth.mkAuth (SiteAuth.user st) (SiteAuth.session st) false
                  (Some "Failed to initialize authentication") e)
  | (Ok None, e), true =>
      initializeAuth true st
      = (Ok tt, SiteAuth.mkAuth (SiteAuth.user st) (SiteAuth.session st) false
                  (SiteAuth.error st) e)
  | (Ok (Some s), e), true =>
      exists st1,
        handleSessionUpdate (Some s) (moved e) = (Ok tt, st1)
        /\ initializeAuth true st
           = (Ok tt, SiteAuth.mkAuth (SiteAuth.user st1) (SiteAuth.session st1) false
                       (SiteAuth.error st1) (SiteAuth.auth_env st1))
  end.
Proof.
  cbv zeta.
  destruct (sb_getSession (SiteAuth.auth_env st)) as [[[s|]|err] e] eqn:Hg; destruct mounted;
    try (unfold SiteAuth.initializeAuth, try_catch, bind, SiteAuth.getSession;
         rewrite Hg; reflexivity).
  destruct (handleSessionUpdate (Some s)
              (SiteAuth.mkAuth (SiteAuth.user st) (SiteAuth.session st)
                 (SiteAuth.loading st) (SiteAuth.error st) e)) as [r st1] eqn:Hh.
  destruct (handleSessionUpdate_in_step _ _ _ _ Hh) as (-> & _ & _).
  exists st1. split; [reflexivity|].
  unfold SiteAuth.initializeAuth, try_catch, bind, SiteAuth.getSession.
  rewrite Hg, Hh. reflexivity.
Qed.


Lemma refreshSession_cases (st st' : SiteAuth.AuthState E) (r : result unit) :
  refreshSession st = (r, st') ->
  (SiteAuth.user st' = SiteAuth.user st /\ SiteAuth.session st' = SiteAuth.session st
   /\ SiteAuth.loading st' = SiteAuth.loading st /\ SiteAuth.error st' = SiteAuth.error st)
  \/ exists newSession e,
       sb_refreshSession (SiteAuth.auth_env st) = (Ok (newSession, None), e)
       /\ handleSessionUpdate newSession
            (SiteAuth.mkAuth (SiteAuth.user st) (SiteAuth.session st)
               (SiteAuth.loading st) (SiteAuth.error st) e) = (r, st').
Proof.
  unfold SiteAuth.refreshSession, bind at 1.
  destruct (sb_refreshSession (SiteAuth.auth_env st)) as [[[newSession [err|]]|err] e].
  - intros H. inversion H; subst. left. repeat split.
  - intros H. right. exists newSession, e. split; [reflexivity|exact H].
  - intros H. inversion H; subst. left. repeat split.
Qed.

(** X24. The site's auth context keeps the tenant check as an invariant:
    whatever session Supabase reports -- on mount, through the auth-state
    listener, on refresh -- and across a sign-out, the context holds a
    session only if its token passed [validateProjectId], and a user only
    together with such a session and carrying the project of its token. *)
Theorem site_context_stays_in_step
  (mounted : bool) (newSession : option SiteAuth.Session)
  (st st' : SiteAuth.AuthState E) (r : result unit) :
  in_step expectedProjectId st ->
  handleSessionUpdate newSession st = (r, st')
  \/ onAuthStateChange mounted newSession st = (r, st')
  \/ initializeAuth mounted st = (r, st')
  \/ refreshSession st = (r, st')
  \/ site_signOut st = (r, st') ->
  in_step expectedProjectId st'.
Proof.
  intros Hi [H | [H | [H | [H | H]]]].
  - apply (handleSessionUpdate_in_step _ _ _ _ H).
  - unfold SiteAuth.onAuthStateChange in H. destruct mounted.
    + apply (handleSessionUpdate_in_step _ _ _ _ H).
    + inversion H; subst. exact Hi.
  - pose proof (initializeAuth_run mounted st) as Hrun. cbv zeta in Hrun.
    destruct (sb_getSession (SiteAuth.auth_env st)) as [[[s|]|err] e]; destruct mounted;
      try (rewrite Hrun in H; inversion H; subst; apply (in_step_kept st); [exact Hi|];
           right; split; reflexivity).
    destruct Hrun as (st1 & Hh & Hrun). rewrite Hrun in H. inversion H; subst.
    destruct (handleSessionUpdate_in_step _ _ _ _ Hh) as (_ & Hs & _). exact Hs.
  - destruct (refreshSession_cases _ _ _ H) as [(Hu & Hs & _) | (n & e & _ & Hh)].
    + apply (in_step_kept st); [exact Hi|]. right. split; assumption.
    + apply (handleSessionUpdate_in_step _ _ _ _ Hh).
  - apply (in_step_kept st); [exact Hi|]. apply (site_signOut_effect _ _ _ H).
Qed.

(** X25. A session whose token fails the tenant check is dropped wherever
    it comes from: the context ends without user and session, with the
    error [Invalid project credentials], and the Supabase sign-out has been
    started -- its outcome, a failure included, changes nothing. *)
Theorem site_context_drops_foreign_sessions
  (s : SiteAuth.Session) (st : SiteAuth.AuthState E) (e1 : E) :
  Supabase.validateProjectId expectedProjectId (access_token (SiteAuth.sess_fields s))
  = Ok false ->
  let dropped (loading : bool) (e : E) : SiteAuth.AuthState E :=
    SiteAuth.mkAuth None None loading (Some "Invalid project credentials")
                    (snd (sb_signOut e)) in
  handleSessionUpdate (Some s) st
  = (Ok tt, dropped (SiteAuth.loading st) (SiteAuth.auth_env st))
  /\ onAuthStateChange true (Some s) st
     = (Ok tt, dropped (SiteAuth.loading st) (SiteAuth.auth_env st))
  /\ (sb_getSession (SiteAuth.auth_env st) = (Ok (Some s), e1) ->
      initializeAuth true st = (Ok tt, dropped false e1))
  /\ (sb_refreshSession (SiteAuth.auth_env st) = (Ok (Some s, None), e1) ->
      refreshSession st = (Ok tt, dropped (SiteAuth.loading st) e1)).
Proof.
  intros Hv dropped. subst dropped. cbv beta.
  assert (Hh : forall st0,
             handleSessionUpdate (Some s) st0
             = (Ok tt, SiteAuth.mkAuth None None (SiteAuth.loading st0)
                         (Some "Invalid project credentials")
                         (snd (sb_signOut (SiteAuth.auth_env st0))))).
  { intros st0. destruct (handleSessionUpdate_run (Some s) st0) as (valid & Hv' & Hrun).
    rewrite Hv in Hv'. inversion Hv'; subst valid. exact Hrun. }
  split; [apply Hh|]. split; [apply Hh|]. split.
  - intros Hg. pose proof (initializeAuth_run true st) as Hrun. cbv zeta in Hrun.
    rewrite Hg in Hrun. destruct Hrun as (st1 & Hh1 & Hrun).
    rewrite Hh in Hh1. inversion Hh1; subst st1. exact Hrun.
  - intros Hr. unfold SiteAuth.refreshSession, bind at 1. rewrite Hr. apply Hh.
Qed.

(** X26. [initializeAuth] never throws.  While the effect is mounted it
    always turns [loading] off, and a failing [getSession] leaves user and
    session alone and sets the error [Failed to initialize authentication];
    once the effect is unmounted it changes nothing of the state. *)
Theorem initializeAuth_settles (mounted : bool) (st : SiteAuth.AuthState E) :
  exists st',
    initializeAuth mounted st = (Ok tt, st')
    /\ (mounted = true -> SiteAuth.loading st' = false)
    /\ (mounted = true ->
        forall err e, sb_getSession (SiteAuth.auth_env st) = (Throw err, e) ->
          SiteAuth.user st' = SiteAuth.user st
          /\ SiteAuth.session st' = SiteAuth.session st
          /\ SiteAuth.error st' = Some "Failed to initialize authentication")
    /\ (mounted = false ->
        SiteAuth.user st' = SiteAuth.user st
        /\ SiteAuth.session st' = SiteAuth.session st
        /\ SiteAuth.loading st' = SiteAuth.loading st
        /\ SiteAuth.error st' = SiteAuth.error st).
Proof.
  pose proof (initializeAuth_run mounted st) as Hrun. cbv zeta in Hrun.
  destruct (sb_getSession (SiteAuth.auth_env st)) as [[[s|]|err] e]; destruct mounted;
    try (eexists; split; [exact Hrun|];
         repeat split; intros; try discriminate; try congruence; reflexivity).
  destruct Hrun as (st1 & Hh & Hrun).
  eexists; split; [exact Hrun|].
  repeat split; intros; try discriminate; try congruence; reflexivity.
Qed.

End SiteContextFacts.

Lemma site_context_stays_in_step_witness :
  in_step (Some "tenant-a")
    (snd (SiteAuth.initializeAuth failing_signOut (holding (Some site_session_a))
            (Some "tenant-a") true site_initial)).
Proof.
  set (run := SiteAuth.initializeAuth failing_signOut (holding (Some site_session_a))
                (Some "tenant-a") true site_initial).
  apply (site_context_stays_in_step
           (answering_fetch (Rejected (mkExn true "TypeError" "Failed to fetch")))
           failing_signOut (holding (Some site_session_a)) (refreshing None) None
           (Some "tenant-a") true None site_initial (snd run) (fst run)).
  - reflexivity.
  - right. right. left. vm_compute. reflexivity.
Defined.

Lemma site_context_drops_foreign_sessions_witness :
  SiteAuth.initializeAuth failing_signOut (holding (Some site_session_b))
    (Some "tenant-a") true site_initial
  = (Ok tt, SiteAuth.mkAuth None None false (Some "Invalid project credentials")
              ["getSession"; "signOut"]).
Proof.
  assert (Hv : Supabase.validateProjectId (Some "tenant-a")
                 (access_token (SiteAuth.sess_fields site_session_b)) = Ok false)
    by (vm_compute; reflexivity).
  destruct (site_context_drops_foreign_sessions
              failing_signOut (holding (Some site_session_b)) (refreshing None)
              (Some "tenant-a") site_session_b site_initial ["getSession"] Hv)
    as (_ & _ & Hinit & _).
  apply Hinit. reflexivity.
Defined.
(** ** Sign-in and sign-up of the site *)

Ltac sign_all H :=
  repeat (cbn [SiteSignIn.env SiteSignIn.loading SiteSignIn.error fst snd negb andb orb] in H;
          match type of H with
          | context [match ?x with _ => _ end] =>
              lazymatch x with
              | context [match _ with _ => _ end] => fail
              | _ => destruct x eqn:?
              end
          end).

Section SiteSignInFacts.
Context `{RT : Runtime}.
Context {E : Type}.
Variable env_fetch : E -> Request -> FetchOutcome * E.
Variable sb_setSession
  : E -> value -> value -> result (option SiteAuth.SbUser * option exn) * E.
Variable envBackendUrl expectedProjectId supabaseUrl supabaseAnonKey : option string.

Abbreviation submit :=
  (SiteSignIn.submit env_fetch sb_setSession envBackendUrl expectedProjectId
     supabaseUrl supabaseAnonKey).
Abbreviation signIn :=
  (SiteSignIn.signIn env_fetch sb_setSession envBackendUrl expectedProjectId
     supabaseUrl supabaseAnonKey).
Abbreviation signUp :=
  (SiteSignIn.signUp env_fetch sb_setSession envBackendUrl expectedProjectId
     supabaseUrl supabaseAnonKey).

(** X27. [signIn] and [signUp] of the site never throw and always turn
    [loading] off.  They return [{ success: true }] and leave the error
    [null], or return [{ success: false, error }] with the very value they
    stored as the error of the context. *)
Theorem site_sign_in_reports (up : bool) (email password : string)
        (st st' : SiteSignIn.State E) (r : result value) :
  (if up then signUp email password st else signIn email password st) = (r, st') ->
  SiteSignIn.loading st' = false
  /\ ((r = Ok SiteSignIn.succeeded /\ SiteSignIn.error st' = VNull)
      \/ exists e, r = Ok (failure e) /\ SiteSignIn.error st' = e).
Proof.
  intros H0.
  assert (H : exists path fallback, submit path fallback email password st = (r, st'))
    by (destruct up; eexists _, _; exact H0).
  clear H0. destruct H as (path & fallback & H).
  unfold SiteSignIn.submit, SiteSignIn.setSupabaseSession, try_catch, bind,
    SiteSignIn.setLoading, SiteSignIn.setError, SiteSignIn.fetch, modify, lift, ret in H.
  sign_all H; inversion H; subst; cbn; eauto.
Qed.

(** X28. What a sign-in or sign-up of the site does to its environment: one
    [fetch] of the endpoint under the configured backend URL and, after it,
    at most one [setSession] on the Supabase client -- with tokens that are
    both truthy and an access token that passed the tenant check, and then
    the result is [{ success: true }] whatever Supabase answers. *)
Theorem site_sign_in_calls (up : bool) (email password : string)
        (st st' : SiteSignIn.State E) (r : result value) :
  (if up then signUp email password st else signIn email password st) = (r, st') ->
  let backendUrl :=
    if AuthService.str_truthy envBackendUrl then default EmptyString envBackendUrl
    else EmptyString in
  let path := if up then "/api/v1/auth/signup" else "/api/v1/auth/signin" in
  let e1 := snd (env_fetch (SiteSignIn.env st)
                   (SiteSignIn.credentials_request backendUrl path email password)) in
  SiteSignIn.env st' = e1
  \/ exists a rt,
       truthy a = true /\ truthy rt = true
       /\ SiteSignIn.validateProjectId expectedProjectId a = Ok true
       /\ r = Ok SiteSignIn.succeeded
       /\ SiteSignIn.env st' = snd (sb_setSession e1 a rt).
Proof.
  intros H0. cbv zeta.
  assert (H : exists fallback,
             submit (if up then "/api/v1/auth/signup" else "/api/v1/auth/signin")
               fallback email password st = (r, st'))
    by (destruct up; eexists; exact H0).
  clear H0. destruct H as (fallback & H).
  unfold SiteSignIn.submit, SiteSignIn.setSupabaseSession, try_catch, bind,
    SiteSignIn.setLoading, SiteSignIn.setError, SiteSignIn.fetch, modify, lift, ret in H.
  sign_all H; inversion H; subst; clear H;
    repeat match goal with
           | Hf : env_fetch _ _ = _ |- _ => rewrite Hf; clear Hf
           end;
    cbn [fst snd SiteSignIn.env];
    first
      [ left; reflexivity
      | right;
        match goal with
        | Hs : sb_setSession _ ?a ?rt = _, Ht : truthy _ && truthy _ = true,
          Hv : SiteSignIn.validateProjectId _ _ = Ok ?b, Hb : negb ?b = false |- _ =>
            exists a, rt; rewrite Hs;
            apply andb_prop in Ht; destruct Ht as [Ht1 Ht2];
            apply negb_false_iff in Hb; subst b;
            repeat split; assumption || reflexivity
        end ].
Qed.

(** X29. Once the backend has answered a sign-in or sign-up with a 2xx
    status and a truthy [success], the tenant check alone decides: tokens
    that are both present with an access token of another project give
    [{ success: false, error: 'Invalid project credentials' }] and the
    Supabase client is not touched; in every other case -- no tokens in the
    answer included -- the call reports success. *)
Theorem site_sign_in_outcome (up : bool) (email password : string)
        (st : SiteSignIn.State E) (status : Z) (data : value) (e1 : E) (valid : bool) :
  let backendUrl :=
    if AuthService.str_truthy envBackendUrl then default EmptyString envBackendUrl
    else EmptyString in
  let path := if up then "/api/v1/auth/signup" else "/api/v1/auth/signin" in
  let run := if up then signUp email password st else signIn email password st in
  env_fetch (SiteSignIn.env st)
    (SiteSignIn.credentials_request backendUrl path email password)
  = (Responded status (Some data), e1) ->
  response_ok status = true ->
  truthy (opt_prop data "success") = true ->
  let a := opt_prop (authSession_of data) "accessToken" in
  let rt := opt_prop (authSession_of data) "refreshToken" in
  SiteSignIn.validateProjectId expectedProjectId a = Ok valid ->
  if truthy a && truthy rt && negb valid then
    run = (Ok (failure (VStr "Invalid project credentials")),
           SiteSignIn.mkState false (VStr "Invalid project credentials") e1)
  else
    exists e2,
      run = (Ok SiteSignIn.succeeded, SiteSignIn.mkState false VNull e2)
      /\ (truthy a && truthy rt = false -> e2 = e1).
Proof.
  cbv zeta. intros Hf Hok Hs Hv.
  set (path := if up then "/api/v1/auth/signup" else "/api/v1/auth/signin") in *.
  set (fallback := if up then "Sign up failed" else "Sign in failed").
  replace (if up then signUp email password st else signIn email password st)
    with (submit path fallback email password st) by (destruct up; reflexivity).
  assert (Hobj : forall k, get_prop data k = Ok (opt_prop data k)).
  { intros k. destruct data; try discriminate Hs. reflexivity. }
  destruct (submit path fallback email password st) as [r st'] eqn:H.
  unfold SiteSignIn.submit, SiteSignIn.setSupabaseSession, try_catch, bind,
    SiteSignIn.setLoading, SiteSignIn.setError, SiteSignIn.fetch, modify, lift, ret in H.
  cbn [SiteSignIn.env SiteSignIn.loading SiteSignIn.error] in H.
  rewrite Hf in H. cbn [response_json] in H. rewrite Hok in H. cbn [negb] in H.
  rewrite !Hobj in H. rewrite Hs in H. cbn [negb] in H.
  unfold authSession_of, js_or in *.
  destruct (truthy (opt_prop (opt_prop data "data") "session")) eqn:Hd;
    (destruct (truthy (opt_prop _ "accessToken") && truthy (opt_prop _ "refreshToken")) eqn:Ht;
     cbn [andb] in *;
     [ rewrite Hv in H; destruct valid; cbn [negb] in H |- *;
       [ sign_all H; inversion H; subst;
         (eexists; split; [reflexivity|]; intros Hx; discriminate Hx)
       | inversion H; subst; reflexivity ]
     | inversion H; subst; eexists; split; reflexivity ]).
Qed.

End SiteSignInFacts.

Lemma site_sign_in_reports_witness :
  SiteSignIn.signIn (answering_fetch (Responded 401 (Some bad_login_response)))
    refusing_setSession None (Some "tenant-a") (Some "https://example.supabase.co")
    (Some "anon-key") "ann@example.com" "wrong" (SiteSignIn.mkState false VNull [])
  = (Ok (failure (VStr "Invalid login credentials")),
     SiteSignIn.mkState false (VStr "Invalid login credentials")
       ["fetch /api/v1/auth/signin"]).
Proof.
  set (st := SiteSignIn.mkState false VNull ([] : list string)).
  set (run := SiteSignIn.signIn (answering_fetch (Responded 401 (Some bad_login_response)))
                refusing_setSession None (Some "tenant-a")
                (Some "https://example.supabase.co") (Some "anon-key")
                "ann@example.com" "wrong" st).
  destruct (site_sign_in_reports
              (answering_fetch (Responded 401 (Some bad_login_response)))
              refusing_setSession None (Some "tenant-a")
              (Some "https://example.supabase.co") (Some "anon-key")
              false "ann@example.com" "wrong" st (snd run) (fst run))
    as (_ & [[Hr _] | (e & Hr & He)]).
  - vm_compute. reflexivity.
  - vm_compute in Hr. discriminate Hr.
  - vm_compute. reflexivity.
Defined.

Lemma site_sign_in_calls_witness :
  let run :=
    SiteSignIn.signIn (answering_fetch (Responded 200 (Some sign_in_response)))
      refusing_setSession None (Some "tenant-a") (Some "https://example.supabase.co")
      (Some "anon-key") "ann@example.com" "correct horse"
      (SiteSignIn.mkState false VNull []) in
  fst run = Ok SiteSignIn.succeeded
  /\ SiteSignIn.env (snd run) = ["fetch /api/v1/auth/signin"; "setSession"].
Proof.
  cbv zeta.
  set (st := SiteSignIn.mkState false VNull ([] : list string)).
  set (run := SiteSignIn.signIn (answering_fetch (Responded 200 (Some sign_in_response)))
                refusing_setSession None (Some "tenant-a")
                (Some "https://example.supabase.co") (Some "anon-key")
                "ann@example.com" "correct horse" st).
  destruct (site_sign_in_calls
              (answering_fetch (Responded 200 (Some sign_in_response)))
              refusing_setSession None (Some "tenant-a")
              (Some "https://example.supabase.co") (Some "anon-key")
              false "ann@example.com" "correct horse" st (snd run) (fst run))
    as [He | (a & rt & _ & _ & _ & Hr & He)].
  - vm_compute. reflexivity.
  - vm_compute in He. discriminate He.
  - split; [exact Hr|]. vm_compute. reflexivity.
Defined.

Lemma site_sign_in_outcome_witness :
  SiteSignIn.signIn (answering_fetch (Responded 200 (Some foreign_response)))
    refusing_setSession None (Some "tenant-a") (Some "https://example.supabase.co")
    (Some "anon-key") "eve@example.com" "pw" (SiteSignIn.mkState false VNull [])
  = (Ok (failure (VStr "Invalid project credentials")),
     SiteSignIn.mkState false (VStr "Invalid project credentials")
       ["fetch /api/v1/auth/signin"]).
Proof.
  apply (site_sign_in_outcome
           (answering_fetch (Responded 200 (Some foreign_response)))
           refusing_setSession None (Some "tenant-a")
           (Some "https://example.supabase.co") (Some "anon-key")
           false "eve@example.com" "pw" (SiteSignIn.mkState false VNull [])
           200 foreign_response ["fetch /api/v1/auth/signin"] false).
  - reflexivity.
  - reflexivity.
  - reflexivity.
  - vm_compute. reflexivity.
Defined.

(** ** The axios client of the site *)

Lemma working_kept (f : gmap string string -> gmap string string)
      (b : AxiosClient.Browser) (v : list navigation) :
  working b ->
  working (AxiosClient.mkBrowser (AuthService.with_items f (AxiosClient.storage b)) v).
Proof. intros H. exact H. Qed.

Lemma on_request_run (headers : gmap string string) (b : AxiosClient.Browser) :
  working b ->
  AxiosClient.on_request headers b
  = (Ok (match AuthService.ls_items (AxiosClient.storage b) !! AxiosClient.AUTH_TOKEN with
         | Some token =>
             if String.eqb token EmptyString then headers
             else <[ "Authorization" := "Bearer " ++ token ]> headers
         | None => headers
         end), b).
Proof.
  intros (Hw & Hd & _).
  unfold AxiosClient.on_request, bind, AxiosClient.has_window, gets, AxiosClient.in_storage,
    AuthService.getItem, ret.
  rewrite Hw, Hd. destruct b as [w v]. cbn [AxiosClient.storage AxiosClient.visited].
  destruct (AuthService.ls_items w !! AxiosClient.AUTH_TOKEN) as [token|];
    cbn [AuthService.str_truthy default from_option id]; [|reflexivity].
  destruct (String.eqb token EmptyString); reflexivity.
Qed.

(** X30. The token of the axios client, from storing to dropping.  In a
    browser whose storage works, the request interceptor sends the token
    that [setAuthToken] stored last as bearer token, unless it is empty;
    after [clearAuthToken], and after a response with status 401 -- which
    also sends the browser to [/login] -- it leaves the headers as the
    caller made them.  Without a browser, [setAuthToken] stores nothing and
    the interceptor adds nothing. *)
Theorem axios_token_lifecycle
  (token : string) (headers : gmap string string) (data : value) (request : bool)
  (msg : string) (b : AxiosClient.Browser) :
  (working b ->
   (exists b1,
       AxiosClient.setAuthToken token b = (Ok tt, b1)
       /\ working b1
       /\ AxiosClient.on_request headers b1
          = (Ok (if String.eqb token EmptyString then headers
                 else <[ "Authorization" := "Bearer " ++ token ]> headers), b1))
   /\ (exists b2,
          AxiosClient.clearAuthToken b = (Ok tt, b2)
          /\ AxiosClient.on_request headers b2 = (Ok headers, b2))
   /\ (exists e b3,
          AxiosClient.on_response_error
            (AxiosClient.mkAxiosError (Some (401, data)) request msg) b = (Ok e, b3)
          /\ AxiosClient.status e = Some 401
          /\ AxiosClient.visited b3 = app (AxiosClient.visited b) [ViaLocation "/login"]
          /\ AxiosClient.on_request headers b3 = (Ok headers, b3)))
  /\ (AuthService.window_defined (AxiosClient.storage b) = false ->
      AxiosClient.setAuthToken token b = (Ok tt, b)
      /\ AxiosClient.on_request headers b = (Ok headers, b)).
Proof.
  split.
  - intros Hb. pose proof Hb as (Hw & Hd & Hf).
    split; [|split].
    + eexists. split; [|split].
      * unfold AxiosClient.setAuthToken, bind, AxiosClient.has_window, gets,
          AxiosClient.in_storage, AuthService.setItem.
        rewrite Hw, Hd, Hf. reflexivity.
      * apply working_kept, Hb.
      * rewrite on_request_run by (apply working_kept, Hb).
        cbn [AxiosClient.storage AuthService.with_items AuthService.ls_items].
        rewrite lookup_insert_eq. reflexivity.
    + eexists. split.
      * unfold AxiosClient.clearAuthToken, bind, AxiosClient.has_window, gets,
          AxiosClient.in_storage, AuthService.removeItem.
        rewrite Hw, Hd. reflexivity.
      * rewrite on_request_run by (apply working_kept, Hb).
        cbn [AxiosClient.storage AuthService.with_items AuthService.ls_items].
        rewrite lookup_delete_eq. reflexivity.
    + eexists _, _. split; [|split; [|split]].
      * unfold AxiosClient.on_response_error, bind, AxiosClient.has_window, gets,
          AxiosClient.in_storage, AuthService.removeItem, AxiosClient.set_location,
          modify, ret.
        cbn [AxiosClient.ax_response Z.eqb Pos.eqb]. rewrite Hw, Hd. reflexivity.
      * reflexivity.
      * reflexivity.
      * rewrite on_request_run by (apply working_kept, Hb).
        cbn [AxiosClient.storage AuthService.with_items AuthService.ls_items].
        rewrite lookup_delete_eq. reflexivity.
  - intros Hw.
    unfold AxiosClient.setAuthToken, AxiosClient.on_request, bind, AxiosClient.has_window,
      gets, ret.
    rewrite Hw. split; reflexivity.
Qed.

Lemma axios_token_lifecycle_witness :
  fst (AxiosClient.on_request {[ "Accept" := "text/html" ]}
         (snd (AxiosClient.setAuthToken "t-2" (browser_with "t-1"))))
  = Ok (<[ "Authorization" := "Bearer t-2" ]> {[ "Accept" := "text/html" ]})
  /\ fst (AxiosClient.on_request {[ "Accept" := "text/html" ]}
            (snd (AxiosClient.on_response_error
                    (AxiosClient.mkAxiosError (Some (401, VNull)) true "Unauthorized")
                    (browser_with "t-1"))))
     = Ok {[ "Accept" := "text/html" ]}.
Proof.
  destruct (axios_token_lifecycle "t-2" {[ "Accept" := "text/html" ]} VNull true
              "Unauthorized" (browser_with "t-1"))
    as (Hworking & _).
  destruct Hworking as ((b1 & Hset & _ & Hreq) & _ & (e & b3 & Herr & _ & _ & Hreq3)).
  - repeat split.
  - rewrite Hset, Herr. cbn [snd]. rewrite Hreq, Hreq3. split; reflexivity.
Defined.
